(** * Invoice pipeline: extraction, rules and decision policy

    A shallow embedding of the deterministic invoice pipeline
    ([server/schemas/invoice.py], [server/extract/deterministic.py],
    [server/rules/engine.py], [server/llm/fallback.py],
    [server/pipeline/route.py]) and the properties of it that the
    specification states, followed by the classifier
    ([server/ml/category.py]), the rows of the export
    ([server/exports/accounting.py]), the job table and the endpoints
    ([server/api/pipeline.py]) and further properties of the code.

    Conventions of the embedding.
    - A Python [str] is a [string] holding its UTF-8 encoding.  Substring
      tests and joins on the encoding agree with the ones on code points;
      [len] counts code points ([PyStr.len]).  Character classes ([\d],
      [\s], [str.lower], [str.strip]) are the ASCII ones: text whose digits,
      blanks or cased letters lie outside ASCII is outside the model.
    - A Python [float] is a binary64 primitive float; [Decimal] is the
      triple of sign, coefficient and exponent, with the default context
      (28 digits, half-even, traps on invalid operation, division by zero and
      overflow).
    - A raised exception is the [Raise] case of [result]; [try/except]
      blocks are matches on it.
    - Objects mutated in place (the invoice under a patch, the vendor cache)
      are passed and returned explicitly. *)

From Stdlib Require Import ZArith NArith List String Ascii Bool Lia Floats Sorted.
From Stdlib Require Import DecimalString.
Import ListNotations.

#[local] Set Warnings "-inexact-float".

Local Open Scope string_scope.
Local Open Scope Z_scope.

(** ** Exceptions *)

Inductive exn : Type :=
| Exception_            (* a plain [Exception] *)
| InvalidOperation      (* decimal.InvalidOperation, ConversionSyntax included *)
| DivisionByZero        (* decimal.DivisionByZero *)
| Overflow              (* decimal.Overflow *)
| OverflowError
| ValueError
| TypeError
| AttributeError
| IndexError
| KeyError
| ValidationError.      (* pydantic.ValidationError *)

Inductive result (A : Type) : Type :=
| Ok (a : A)
| Raise (e : exn).

Arguments Ok {A} a.
Arguments Raise {A} e.

Definition bind {A B : Type} (c : result A) (k : A -> result B) : result B :=
  match c with
  | Ok a => k a
  | Raise e => Raise e
  end.

Declare Scope py_scope.
Delimit Scope py_scope with py.
Notation "x <- c ;; k" := (bind c (fun x => k))
  (at level 61, c at next level, right associativity) : py_scope.
Notation "' pat <- c ;; k" := (bind c (fun x => match x with pat => k end))
  (at level 61, pat pattern, c at next level, right associativity) : py_scope.

(** [try c except Exception: h]. *)
Definition try_except {A : Type} (c : result A) (h : exn -> A) : A :=
  match c with
  | Ok a => a
  | Raise e => h e
  end.

Definition is_ok {A : Type} (c : result A) : bool :=
  match c with Ok _ => true | Raise _ => false end.

(** The class of an exception, standing for [str(e)] in messages. *)
Definition exn_name (e : exn) : string :=
  match e with
  | Exception_ => "Exception"
  | InvalidOperation => "InvalidOperation"
  | DivisionByZero => "DivisionByZero"
  | Overflow => "Overflow"
  | OverflowError => "OverflowError"
  | ValueError => "ValueError"
  | TypeError => "TypeError"
  | AttributeError => "AttributeError"
  | IndexError => "IndexError"
  | KeyError => "KeyError"
  | ValidationError => "ValidationError"
  end.

(** ** Python strings *)

Module PyStr.

Definition ord (c : ascii) : N := N_of_ascii c.

Definition in_range (lo hi : N) (c : ascii) : bool :=
  ((lo <=? ord c) && (ord c <=? hi))%N.

(** [\d] and [str.isdigit] on ASCII. *)
Definition is_digit (c : ascii) : bool := in_range 48 57 c.
Definition is_upper (c : ascii) : bool := in_range 65 90 c.
Definition is_lower (c : ascii) : bool := in_range 97 122 c.
(** [[A-Za-z]] *)
Definition is_alpha (c : ascii) : bool := is_upper c || is_lower c.
(** [[A-Za-z0-9]] *)
Definition is_alnum (c : ascii) : bool := is_alpha c || is_digit c.
(** [\s] and the blanks removed by [str.strip()]: tab, newline, vertical
    tab, form feed, carriage return, the four separators 0x1c-0x1f, space. *)
Definition is_space (c : ascii) : bool := in_range 9 13 c || in_range 28 32 c.

Definition is_char (a : ascii) (c : ascii) : bool := Ascii.eqb a c.

(** A byte that continues a UTF-8 sequence (10xxxxxx). *)
Definition is_continuation (c : ascii) : bool := in_range 128 191 c.

(** [len(s)]: the number of code points. *)
Fixpoint len (s : string) : nat :=
  match s with
  | EmptyString => O
  | String c s' => if is_continuation c then len s' else S (len s')
  end.

Definition lower_char (c : ascii) : ascii :=
  if is_upper c then ascii_of_N (ord c + 32) else c.

(** [s.lower()] *)
Fixpoint lower (s : string) : string :=
  match s with
  | EmptyString => EmptyString
  | String c s' => String (lower_char c) (lower s')
  end.

(** [s.startswith(p)] *)
Fixpoint startswith (p s : string) : bool :=
  match p, s with
  | EmptyString, _ => true
  | String a p', String b s' => Ascii.eqb a b && startswith p' s'
  | String _ _, EmptyString => false
  end.

(** [sub in s] *)
Fixpoint contains (sub s : string) : bool :=
  startswith sub s ||
  match s with
  | EmptyString => false
  | String _ s' => contains sub s'
  end.

Fixpoint filter (p : ascii -> bool) (s : string) : string :=
  match s with
  | EmptyString => EmptyString
  | String c s' => if p c then String c (filter p s') else filter p s'
  end.

Fixpoint existsb (p : ascii -> bool) (s : string) : bool :=
  match s with
  | EmptyString => false
  | String c s' => p c || existsb p s'
  end.

Fixpoint forallb (p : ascii -> bool) (s : string) : bool :=
  match s with
  | EmptyString => true
  | String c s' => p c && forallb p s'
  end.

(** [s.count(c)] for a one-character [c]. *)
Fixpoint count (a : ascii) (s : string) : nat :=
  match s with
  | EmptyString => O
  | String c s' => if Ascii.eqb a c then S (count a s') else count a s'
  end.

(** [s.replace(a, b)] for one-character [a] and a string [b]. *)
Fixpoint replace (a : ascii) (b : string) (s : string) : string :=
  match s with
  | EmptyString => EmptyString
  | String c s' => if Ascii.eqb a c then b ++ replace a b s' else String c (replace a b s')
  end.

(** [s.split(a)] for a one-character separator: never the empty list. *)
Fixpoint split (a : ascii) (s : string) : list string :=
  match s with
  | EmptyString => [EmptyString]
  | String c s' =>
      if Ascii.eqb a c then EmptyString :: split a s'
      else match split a s' with
           | hd :: tl => String c hd :: tl
           | [] => [String c EmptyString]
           end
  end.

Fixpoint lstrip_by (p : ascii -> bool) (s : string) : string :=
  match s with
  | EmptyString => EmptyString
  | String c s' => if p c then lstrip_by p s' else s
  end.

Fixpoint rstrip_by (p : ascii -> bool) (s : string) : string :=
  match s with
  | EmptyString => EmptyString
  | String c s' =>
      match rstrip_by p s' with
      | EmptyString => if p c then EmptyString else String c EmptyString
      | r => String c r
      end
  end.

(** [s.strip()] and [s.strip(chars)] *)
Definition strip_by (p : ascii -> bool) (s : string) : string :=
  rstrip_by p (lstrip_by p s).
Definition strip (s : string) : string := strip_by is_space s.

(** [sep.join(l)] *)
Fixpoint join (sep : string) (l : list string) : string :=
  match l with
  | [] => EmptyString
  | [x] => x
  | x :: tl => x ++ sep ++ join sep tl
  end.

(** [c * n] *)
Fixpoint repeat (c : ascii) (n : nat) : string :=
  match n with
  | O => EmptyString
  | S n' => String c (repeat c n')
  end.

(** The value of a run of ASCII digits, [int(s)]. *)
Fixpoint digits_value_from (acc : N) (s : string) : N :=
  match s with
  | EmptyString => acc
  | String c s' => digits_value_from (acc * 10 + (ord c - 48))%N s'
  end.
Definition digits_value (s : string) : N := digits_value_from 0%N s.

(** [str(n)] for a natural number. *)
Definition of_N (n : N) : string := NilZero.string_of_uint (N.to_uint n).

(** [str(z)] for an integer. *)
Definition of_Z (z : Z) : string :=
  match z with
  | Zneg p => String "-" (of_N (Npos p))
  | _ => of_N (Z.to_N z)
  end.

(** [str(n).zfill(w)]. *)
Definition zfill (w : nat) (n : N) : string :=
  let s := of_N n in
  repeat "0" (w - String.length s) ++ s.

End PyStr.

(** ** Regular expressions

    The patterns of the source use character classes, sequencing,
    alternation, [?], bounded and unbounded greedy repetition of a class,
    and [$].  [matches r
    s] lists the remainders of [s] after each way of matching [r] at its
    head, in the order in which a backtracking matcher tries them, so its
    first element is the match [re] reports. *)

Module Re.

Inductive regex : Type :=
| Eps
| Cls (p : ascii -> bool)
| Cat (r1 r2 : regex)
| Alt (r1 r2 : regex)
| Opt (r : regex)
| Rep (lo hi : nat) (p : ascii -> bool)
| Plus (p : ascii -> bool)
| Star (p : ascii -> bool)
| Eol.

Fixpoint rep_rests (p : ascii -> bool) (lo hi : nat) (s : string) : list string :=
  let stop := if Nat.eqb lo 0 then [s] else [] in
  match hi with
  | O => stop
  | S hi' =>
      match s with
      | String c s' => if p c then rep_rests p (Nat.pred lo) hi' s' ++ stop else stop
      | EmptyString => stop
      end
  end.

Fixpoint matches (r : regex) (s : string) : list string :=
  match r with
  | Eps => [s]
  | Cls p =>
      match s with
      | String c s' => if p c then [s'] else []
      | EmptyString => []
      end
  | Cat r1 r2 => flat_map (matches r2) (matches r1 s)
  | Alt r1 r2 => matches r1 s ++ matches r2 s
  | Opt r1 => matches r1 s ++ [s]
  | Rep lo hi p => rep_rests p lo hi s
  | Plus p => rep_rests p 1 (String.length s) s
  | Star p => rep_rests p 0 (String.length s) s
  | Eol =>
      match s with
      | EmptyString => [s]
      | String c EmptyString => if PyStr.is_char "010" c then [s] else []
      | _ => []
      end
  end.

(** The text consumed when [s] was matched down to [rest]. *)
Definition consumed (s rest : string) : string :=
  String.substring 0 (String.length s - String.length rest) s.

(** [re.match(r, s)]: group 0 of a match at the head of [s]. *)
Definition match_ (r : regex) (s : string) : option string :=
  match matches r s with
  | rest :: _ => Some (consumed s rest)
  | [] => None
  end.

(** [re.search(r, s)]: group 0 of the leftmost match. *)
Fixpoint search (r : regex) (s : string) : option string :=
  match match_ r s with
  | Some g => Some g
  | None =>
      match s with
      | EmptyString => None
      | String _ s' => search r s'
      end
  end.

(** [re.search] of [(r1)r2]: group 1 of the leftmost match. *)
Fixpoint first_ok (r2 : regex) (s : string) (rests : list string) : option string :=
  match rests with
  | [] => None
  | rest :: tl =>
      match matches r2 rest with
      | _ :: _ => Some (consumed s rest)
      | [] => first_ok r2 s tl
      end
  end.

Fixpoint search_group1 (r1 r2 : regex) (s : string) : option string :=
  match first_ok r2 s (matches r1 s) with
  | Some g => Some g
  | None =>
      match s with
      | EmptyString => None
      | String _ s' => search_group1 r1 r2 s'
      end
  end.

Definition digit : regex := Cls PyStr.is_digit.
Definition chr (a : ascii) : regex := Cls (PyStr.is_char a).

Definition range (lo hi : ascii) : regex :=
  Cls (PyStr.in_range (PyStr.ord lo) (PyStr.ord hi)).

Fixpoint seq (l : list regex) : regex :=
  match l with
  | [] => Eps
  | [r] => r
  | r :: tl => Cat r (seq tl)
  end.

Fixpoint alt (l : list regex) : regex :=
  match l with
  | [] => Cls (fun _ => false)
  | [r] => r
  | r :: tl => Alt r (alt tl)
  end.

End Re.

(** ** Decimal numerals

    The finite numerals accepted both by [Decimal(s)] and by [float(s)]:
    digits with an optional point and an optional exponent, at least one
    digit before the exponent. *)

Module Numeral.

Fixpoint span (p : ascii -> bool) (s : string) : string * string :=
  match s with
  | String c s' =>
      if p c then let (a, r) := span p s' in (String c a, r) else (EmptyString, s)
  | EmptyString => (EmptyString, EmptyString)
  end.

Definition is_empty (s : string) : bool :=
  match s with EmptyString => true | _ => false end.

(** An optional sign: [(negative, rest)]. *)
Definition sign (s : string) : bool * string :=
  match s with
  | String c r =>
      if PyStr.is_char "-" c then (true, r)
      else if PyStr.is_char "+" c then (false, r)
      else (false, s)
  | EmptyString => (false, s)
  end.

(** [[-+]?\d+] up to the end of the string. *)
Definition exponent (s : string) : option Z :=
  let (neg, r) := sign s in
  if negb (is_empty r) && PyStr.forallb PyStr.is_digit r
  then Some (if neg then - Z.of_N (PyStr.digits_value r) else Z.of_N (PyStr.digits_value r))
  else None.

(** The unsigned finite numeral [s] as coefficient and exponent. *)
Definition finite (s : string) : option (N * Z) :=
  let (ip, r1) := span PyStr.is_digit s in
  let '(fp, r2) :=
    match r1 with
    | String c r => if PyStr.is_char "." c then span PyStr.is_digit r else (EmptyString, r1)
    | EmptyString => (EmptyString, r1)
    end in
  if is_empty (ip ++ fp) then None
  else
    let coef := PyStr.digits_value (ip ++ fp) in
    let shift := Z.of_nat (String.length fp) in
    match r2 with
    | EmptyString => Some (coef, - shift)
    | String c r3 =>
        if PyStr.is_char "e" (PyStr.lower_char c)
        then match exponent r3 with
             | Some e => Some (coef, e - shift)
             | None => None
             end
        else None
    end.

End Numeral.

(** ** Python floats *)

Module PyFloat.

Import PrimFloat.

(** The comparisons [a < b], [a <= b], [a == b]. *)
Definition lt (a b : float) : bool := PrimFloat.ltb a b.
Definition le (a b : float) : bool := PrimFloat.leb a b.
Definition gt (a b : float) : bool := PrimFloat.ltb b a.
Definition ge (a b : float) : bool := PrimFloat.leb b a.
Definition eq (a b : float) : bool := PrimFloat.eqb a b.

(** The builtins [min(a, b)] and [max(a, b)]: the first argument unless the
    second is strictly smaller (greater). *)
Definition min (a b : float) : float := if lt b a then b else a.
Definition max (a b : float) : float := if gt b a then b else a.

(** [bool(x)] *)
Definition is_true (x : float) : bool := negb (PrimFloat.eqb x zero).

(** [x ** 2] and [x ** 0.5].  CPython calls the C library's [pow]; the model
    takes it to be correctly rounded at these two exponents, where it is the
    product and the square root. *)
Definition pow2 (x : float) : float := PrimFloat.mul x x.
Definition pow_half (x : float) : float := PrimFloat.sqrt x.

(** The float nearest to [num/den] (ties to even), signed. *)
Definition of_ratio (neg : bool) (num : N) (den : positive) : float :=
  match num with
  | N0 => if neg then neg_zero else zero
  | Npos n =>
      let ex := Z.log2 (Zpos n) - Z.log2 (Zpos den) - 64 in
      let a := if 0 <=? ex then Zpos n else Zpos n * 2 ^ (- ex) in
      let b := if 0 <=? ex then Zpos den * 2 ^ ex else Zpos den in
      let m := a / b in
      let r := a mod b in
      let loc := if r =? 0 then loc_Exact else loc_Inexact (2 * r ?= b) in
      SF2Prim (binary_round_aux prec emax neg m ex loc)
  end.

(** The float nearest to [coef * 10^exp]. *)
Definition of_decimal (neg : bool) (coef : N) (exp : Z) : float :=
  if 0 <=? exp
  then of_ratio neg (coef * 10 ^ Z.to_N exp) 1
  else of_ratio neg coef (Pos.pow 10 (Z.to_pos (- exp))).

(** [float(z)] for an [int]: the nearest float, [OverflowError] beyond the
    largest one. *)
Definition of_int (z : Z) : result float :=
  let f := of_ratio (z <? 0) (Z.abs_N z) 1 in
  if is_infinity f then Raise OverflowError else Ok f.

(** Underscores in a numeric literal stand between two digits. *)
Fixpoint underscores_ok (prev : ascii) (s : string) : bool :=
  match s with
  | EmptyString => negb (PyStr.is_char "_" prev)
  | String c s' =>
      (if PyStr.is_char "_" c then PyStr.is_digit prev
       else negb (PyStr.is_char "_" prev) || PyStr.is_digit c)
      && underscores_ok c s'
  end.

(** [float(s)] for a [str]. *)
Definition parse (s : string) : result float :=
  let s := PyStr.strip s in
  if negb (underscores_ok "000" s) then Raise ValueError
  else
    let s := PyStr.filter (fun c => negb (PyStr.is_char "_" c)) s in
    let (neg, body) := Numeral.sign s in
    let low := PyStr.lower body in
    if String.eqb low "inf" || String.eqb low "infinity"
    then Ok (if neg then neg_infinity else infinity)
    else if String.eqb low "nan" then Ok nan
    else match Numeral.finite body with
         | Some (coef, exp) => Ok (of_decimal neg coef exp)
         | None => Raise ValueError
         end.

(** The exact value of a finite float as [(negative, m, e)], meaning
    [m * 2^e]; [None] for infinities and NaN. *)
Definition exact (f : float) : option (bool * N * Z) :=
  match Prim2SF f with
  | S754_zero s => Some (s, 0%N, 0)
  | S754_finite s m e => Some (s, Npos m, e)
  | _ => None
  end.

(** *** [repr(x)]: the shortest digit string that reads back as [x]. *)

(** [cmp_scaled a ea b eb] compares [a * 10^ea] with [b * 2^eb]. *)
Definition cmp_scaled (a : Z) (ea : Z) (b : Z) (eb : Z) : comparison :=
  let l := a * (if 0 <=? ea then 10 ^ ea else 1) * (if 0 <=? eb then 1 else 2 ^ (- eb)) in
  let r := b * (if 0 <=? eb then 2 ^ eb else 1) * (if 0 <=? ea then 1 else 10 ^ (- ea)) in
  l ?= r.

(** [floor (log10 (m * 2^e))] for positive [m]. *)
Definition floor_log10 (m : Z) (e : Z) : Z :=
  let est := ((Z.log2 m + e) * 30103) / 100000 in
  let ok k := match cmp_scaled 1 k m e with Gt => false | _ => true end in
  if ok (est + 2) then est + 2
  else if ok (est + 1) then est + 1
  else if ok est then est
  else if ok (est - 1) then est - 1
  else est - 2.

(** [floor (m * 2^e / 10^k)] for positive [m]. *)
Definition floor_scaled (m : Z) (e : Z) (k : Z) : Z :=
  let num := m * (if 0 <=? e then 2 ^ e else 1) * (if 0 <=? k then 1 else 10 ^ (- k)) in
  let den := (if 0 <=? e then 1 else 2 ^ (- e)) * (if 0 <=? k then 10 ^ k else 1) in
  num / den.

(** The decimal [d * 10^k] reads back as the float [m * 2^e]: it lies
    between the midpoints to the neighbouring floats, the midpoints
    themselves counting when [m] is even. *)
Definition reads_back (m e : Z) (d k : Z) : bool :=
  let low_gap := if (m =? 2 ^ 52) && (-1074 <? e) then 1 else 2 in
  let lo := cmp_scaled d k (4 * m - low_gap) (e - 2) in
  let hi := cmp_scaled d k (4 * m + 2) (e - 2) in
  match lo, hi with
  | Gt, Lt => true
  | Eq, Lt | Gt, Eq => Z.even m
  | _, _ => false
  end.

(** Of two decimals [d * 10^k] and [(d+1) * 10^k] around [m * 2^e], whether
    the upper one is strictly nearer, or as near with [d] odd. *)
Definition upper_nearer (m e : Z) (d k : Z) : bool :=
  match cmp_scaled (2 * d + 1) k (2 * m) e with
  | Lt => true
  | Eq => Z.odd d
  | Gt => false
  end.

Fixpoint shortest (fuel : nat) (n : Z) (m e : Z) (lg : Z) : Z * Z :=
  let k := lg + 1 - n in
  let d := floor_scaled m e k in
  let lo_ok := reads_back m e d k in
  let hi_ok := reads_back m e (d + 1) k in
  match fuel with
  | O => (if upper_nearer m e d k then d + 1 else d, k)
  | S fuel' =>
      if lo_ok && hi_ok then (if upper_nearer m e d k then d + 1 else d, k)
      else if lo_ok then (d, k)
      else if hi_ok then (d + 1, k)
      else shortest fuel' (n + 1) m e lg
  end.

(** Trailing zeros of the digits move into the exponent. *)
Fixpoint strip_zeros (fuel : nat) (d k : Z) : Z * Z :=
  match fuel with
  | O => (d, k)
  | S fuel' => if (d mod 10 =? 0) && negb (d =? 0) then strip_zeros fuel' (d / 10) (k + 1) else (d, k)
  end.

Definition two_digits (z : Z) : string :=
  let s := PyStr.of_Z (Z.abs z) in
  if (Z.abs z <? 10) then String "0" s else s.

(** The layout of [repr]: positional for a decimal point position in
    (-4, 16], scientific otherwise. *)
Definition layout (digits : string) (decpt : Z) : string :=
  let n := Z.of_nat (String.length digits) in
  if (decpt <=? -4) || (16 <? decpt) then
    let mant :=
      match digits with
      | String c EmptyString => digits
      | String c tl => String c (String "." tl)
      | EmptyString => digits
      end in
    mant ++ "e" ++ (if decpt - 1 <? 0 then "-" else "+") ++ two_digits (decpt - 1)
  else if decpt <=? 0 then
    "0." ++ PyStr.repeat "0" (Z.to_nat (- decpt)) ++ digits
  else if n <=? decpt then
    digits ++ PyStr.repeat "0" (Z.to_nat (decpt - n)) ++ ".0"
  else
    String.substring 0 (Z.to_nat decpt) digits ++ "." ++
    String.substring (Z.to_nat decpt) (Z.to_nat (n - decpt)) digits.

Definition repr (f : float) : string :=
  match Prim2SF f with
  | S754_nan => "nan"
  | S754_infinity s => if s then "-inf" else "inf"
  | S754_zero s => if s then "-0.0" else "0.0"
  | S754_finite s m e =>
      let '(d0, k0) := shortest 17 1 (Zpos m) e (floor_log10 (Zpos m) e) in
      let '(d, k) := strip_zeros 20 d0 k0 in
      let digits := PyStr.of_Z d in
      (if s then "-" else "") ++ layout digits (k + Z.of_nat (String.length digits))
  end.

End PyFloat.

(** ** [decimal.Decimal] under the default context *)

Module Dec.

Inductive t : Type :=
| Fin (neg : bool) (coef : N) (exp : Z)      (* (-1)^neg * coef * 10^exp *)
| Inf (neg : bool)
| NaN (neg : bool) (signaling : bool) (payload : N).

Definition prec : Z := 28.
Definition Emax : Z := 999999.
Definition Emin : Z := -999999.
Definition Etiny : Z := Emin - prec + 1.
Definition Etop : Z := Emax - prec + 1.

(** [len(self._int)] *)
Definition ndigits (n : N) : Z := Z.of_nat (String.length (PyStr.of_N n)).

Definition is_nan (d : t) : bool :=
  match d with NaN _ _ _ => true | _ => false end.

(** [bool(d)] *)
Definition is_true (d : t) : bool :=
  match d with
  | Fin _ c _ => negb (c =? 0)%N
  | _ => true
  end.

Definition copy_negate (d : t) : t :=
  match d with
  | Fin s c e => Fin (negb s) c e
  | Inf s => Inf (negb s)
  | NaN s g p => NaN (negb s) g p
  end.

(** [Decimal(z)] for an [int]. *)
Definition of_Z (z : Z) : t := Fin (z <? 0) (Z.abs_N z) 0.

(** [Decimal(s)] for a [str]. *)
Definition parse (s : string) : result t :=
  let s := PyStr.filter (fun c => negb (PyStr.is_char "_" c)) (PyStr.strip s) in
  let (neg, body) := Numeral.sign s in
  match Numeral.finite body with
  | Some (coef, exp) => Ok (Fin neg coef exp)
  | None =>
      let low := PyStr.lower body in
      if String.eqb low "inf" || String.eqb low "infinity" then Ok (Inf neg)
      else
        let (signaling, r) :=
          if PyStr.startswith "s" low then (true, String.substring 1 (String.length low) low)
          else (false, low) in
        if PyStr.startswith "nan" r
           && PyStr.forallb PyStr.is_digit (String.substring 3 (String.length r) r)
        then Ok (NaN neg signaling (PyStr.digits_value (String.substring 3 (String.length r) r)))
        else Raise InvalidOperation
  end.

(** [str(d)]: scientific notation of the representation. *)
Definition to_string (d : t) : string :=
  match d with
  | Inf s => (if s then "-" else "") ++ "Infinity"
  | NaN s g p =>
      (if s then "-" else "") ++ (if g then "sNaN" else "NaN")
      ++ (if (p =? 0)%N then "" else PyStr.of_N p)
  | Fin s c e =>
      let digits := PyStr.of_N c in
      let n := Z.of_nat (String.length digits) in
      let leftdigits := e + n in
      let dotplace := if (e <=? 0) && (-6 <? leftdigits) then leftdigits else 1 in
      let intpart :=
        if dotplace <=? 0 then "0"
        else if n <=? dotplace then digits ++ PyStr.repeat "0" (Z.to_nat (dotplace - n))
        else String.substring 0 (Z.to_nat dotplace) digits in
      let fracpart :=
        if dotplace <=? 0 then "." ++ PyStr.repeat "0" (Z.to_nat (- dotplace)) ++ digits
        else if n <=? dotplace then ""
        else "." ++ String.substring (Z.to_nat dotplace) (Z.to_nat (n - dotplace)) digits in
      let exp :=
        if leftdigits =? dotplace then ""
        else "E" ++ (if leftdigits - dotplace <? 0 then "-" else "+")
                 ++ PyStr.of_Z (Z.abs (leftdigits - dotplace)) in
      (if s then "-" else "") ++ intpart ++ fracpart ++ exp
  end.

(** The coefficient without its last [k] digits, rounded half to even. *)
Definition round_half_even (coef : N) (k : Z) : N :=
  let p := (10 ^ Z.to_N k)%N in
  let q := (coef / p)%N in
  let r := (coef mod p)%N in
  match (2 * r ?= p)%N with
  | Gt => (q + 1)%N
  | Eq => if N.even q then q else (q + 1)%N
  | Lt => q
  end.

(** [d._fix(context)]: round to the precision and the exponent range. *)
Definition fix_ (d : t) : result t :=
  match d with
  | Fin s c e =>
      if (c =? 0)%N then Ok (Fin s 0 (Z.min (Z.max e Etiny) Emax))
      else
        let exp_min := ndigits c + e - prec in
        if Etop <? exp_min then Raise Overflow
        else
          let exp_min := Z.max exp_min Etiny in
          if e <? exp_min then
            let c1 := round_half_even c (exp_min - e) in
            let carry := prec <? ndigits c1 in
            let c2 := if carry then (c1 / 10)%N else c1 in
            let exp_min := if carry then exp_min + 1 else exp_min in
            if Etop <? exp_min then Raise Overflow else Ok (Fin s c2 exp_min)
          else Ok d
  | Inf _ => Ok d
  | NaN s g p => Ok (NaN s g (p mod 10 ^ Z.to_N prec)%N)
  end.

(** [self._check_nans(other)]: a signaling NaN raises, a quiet one is the
    answer. *)
Definition check_nans (a b : t) : option (result t) :=
  match a, b with
  | NaN _ true _, _ => Some (Raise InvalidOperation)
  | _, NaN _ true _ => Some (Raise InvalidOperation)
  | NaN _ false _, _ => Some (fix_ a)
  | _, NaN _ false _ => Some (fix_ b)
  | _, _ => None
  end.

Definition check_nan (a : t) : option (result t) :=
  match a with
  | NaN _ true _ => Some (Raise InvalidOperation)
  | NaN _ false _ => Some (fix_ a)
  | _ => None
  end.

Definition signed (s : bool) (c : N) : Z := if s then - Z.of_N c else Z.of_N c.

(** [a + b] *)
Definition add (a b : t) : result t :=
  match check_nans a b with
  | Some r => r
  | None =>
      match a, b with
      | Inf sa, Inf sb => if Bool.eqb sa sb then Ok a else Raise InvalidOperation
      | Inf _, _ => Ok a
      | _, Inf _ => Ok b
      | Fin sa ca ea, Fin sb cb eb =>
          let e := Z.min ea eb in
          if (ca =? 0)%N && (cb =? 0)%N then fix_ (Fin (sa && sb) 0 e)
          else
            let z := signed sa ca * 10 ^ (ea - e) + signed sb cb * 10 ^ (eb - e) in
            if z =? 0 then fix_ (Fin false 0 e)
            else fix_ (Fin (z <? 0) (Z.abs_N z) e)
      | _, _ => Raise InvalidOperation
      end
  end.

(** [a - b] *)
Definition sub (a b : t) : result t :=
  match check_nans a b with
  | Some r => r
  | None => add a (copy_negate b)
  end.

(** [a * b] *)
Definition mul (a b : t) : result t :=
  match check_nans a b with
  | Some r => r
  | None =>
      match a, b with
      | Inf sa, Fin sb cb _ => if (cb =? 0)%N then Raise InvalidOperation else Ok (Inf (xorb sa sb))
      | Fin sa ca _, Inf sb => if (ca =? 0)%N then Raise InvalidOperation else Ok (Inf (xorb sa sb))
      | Inf sa, Inf sb => Ok (Inf (xorb sa sb))
      | Fin sa ca ea, Fin sb cb eb => fix_ (Fin (xorb sa sb) (ca * cb) (ea + eb))
      | _, _ => Raise InvalidOperation
      end
  end.

(** The exact quotient moved towards its ideal exponent. *)
Fixpoint reduce (fuel : nat) (coef : N) (exp ideal : Z) : N * Z :=
  match fuel with
  | O => (coef, exp)
  | S fuel' =>
      if (exp <? ideal) && (coef mod 10 =? 0)%N
      then reduce fuel' (coef / 10)%N (exp + 1) ideal
      else (coef, exp)
  end.

(** [a / b] *)
Definition div (a b : t) : result t :=
  match check_nans a b with
  | Some r => r
  | None =>
      match a, b with
      | Inf _, Inf _ => Raise InvalidOperation
      | Inf sa, Fin sb _ _ => Ok (Inf (xorb sa sb))
      | Fin sa _ _, Inf sb => Ok (Fin (xorb sa sb) 0 Etiny)
      | Fin sa ca ea, Fin sb cb eb =>
          let sign := xorb sa sb in
          if (cb =? 0)%N then
            if (ca =? 0)%N then Raise InvalidOperation else Raise DivisionByZero
          else if (ca =? 0)%N then fix_ (Fin sign 0 (ea - eb))
          else
            let shift := ndigits cb - ndigits ca + prec + 1 in
            let exp := ea - eb - shift in
            let num := if 0 <=? shift then (ca * 10 ^ Z.to_N shift)%N else ca in
            let den := if 0 <=? shift then cb else (cb * 10 ^ Z.to_N (- shift))%N in
            let coeff := (num / den)%N in
            let remainder := (num mod den)%N in
            if negb (remainder =? 0)%N then
              fix_ (Fin sign (if (coeff mod 5 =? 0)%N then coeff + 1 else coeff)%N exp)
            else
              let (c, e) := reduce (Z.to_nat (ndigits coeff)) coeff exp (ea - eb) in
              fix_ (Fin sign c e)
      | _, _ => Raise InvalidOperation
      end
  end.

(** [abs(a)] *)
Definition abs (a : t) : result t :=
  match check_nan a with
  | Some r => r
  | None =>
      match a with
      | Fin _ c e => fix_ (Fin false c e)
      | Inf _ => Ok (Inf false)
      | NaN _ _ _ => Raise InvalidOperation
      end
  end.

(** [self._cmp(other)] for operands that are not NaN. *)
Definition cmp (a b : t) : comparison :=
  match a, b with
  | Fin sa ca ea, Fin sb cb eb =>
      let e := Z.min ea eb in
      (signed sa ca * 10 ^ (ea - e) ?= signed sb cb * 10 ^ (eb - e))
  | Inf sa, Inf sb => if Bool.eqb sa sb then Eq else if sa then Lt else Gt
  | Inf sa, _ => if sa then Lt else Gt
  | _, Inf sb => if sb then Gt else Lt
  | _, _ => Eq
  end.

(** [a == b]: false on a quiet NaN, raising on a signaling one. *)
Definition eq (a b : t) : result bool :=
  match check_nans a b with
  | Some (Raise e) => Raise e
  | Some (Ok _) => Ok false
  | None => Ok match cmp a b with Eq => true | _ => false end
  end.

(** [a != b] *)
Definition ne (a b : t) : result bool :=
  match eq a b with
  | Ok r => Ok (negb r)
  | Raise e => Raise e
  end.

(** [a < b] and [a > b]: any NaN raises. *)
Definition lt (a b : t) : result bool :=
  if is_nan a || is_nan b then Raise InvalidOperation
  else Ok match cmp a b with Lt => true | _ => false end.

Definition gt (a b : t) : result bool :=
  if is_nan a || is_nan b then Raise InvalidOperation
  else Ok match cmp a b with Gt => true | _ => false end.

Fixpoint trailing_twos (fuel : nat) (m : N) (e : Z) : N * Z :=
  match fuel with
  | O => (m, e)
  | S fuel' =>
      if (e <? 0) && N.even m && negb (m =? 0)%N
      then trailing_twos fuel' (m / 2)%N (e + 1)
      else (m, e)
  end.

(** [Decimal.from_float(f)]: the exact value of the float. *)
Definition of_float (f : float) : t :=
  match Prim2SF f with
  | S754_nan => NaN false false 0
  | S754_infinity s => Inf s
  | S754_zero s => Fin s 0 0
  | S754_finite s m e =>
      if 0 <=? e then Fin s (Npos m * 2 ^ Z.to_N e) 0
      else
        let (n, e') := trailing_twos 64 (Npos m) e in
        Fin s (n * 5 ^ Z.to_N (- e')) e'
  end.

(** [float(d)] *)
Definition to_float (d : t) : result float :=
  match d with
  | NaN _ true _ => Raise ValueError
  | NaN _ false _ => Ok PrimFloat.nan
  | Inf s => Ok (if s then PrimFloat.neg_infinity else PrimFloat.infinity)
  | Fin s c e => Ok (PyFloat.of_decimal s c e)
  end.

(** Comparison with a [float] goes through its exact value. *)
Definition gt_float (a : t) (f : float) : result bool := gt a (of_float f).

End Dec.

(** ** [datetime.date] *)

Module Date.

Record t : Type := mk { year : Z; month : Z; day : Z }.

Definition is_leap (y : Z) : bool :=
  (y mod 4 =? 0) && (negb (y mod 100 =? 0) || (y mod 400 =? 0)).

Definition days_in_month (y m : Z) : Z :=
  if m =? 2 then (if is_leap y then 29 else 28)
  else if (m =? 4) || (m =? 6) || (m =? 9) || (m =? 11) then 30
  else 31.

(** [date(y, m, d)] *)
Definition make (y m d : Z) : result t :=
  if (1 <=? y) && (y <=? 9999) && (1 <=? m) && (m <=? 12)
     && (1 <=? d) && (d <=? days_in_month y m)
  then Ok (mk y m d)
  else Raise ValueError.

(** [str(d)]: ISO format. *)
Definition to_string (d : t) : string :=
  PyStr.zfill 4 (Z.to_N (year d)) ++ "-" ++ PyStr.zfill 2 (Z.to_N (month d))
  ++ "-" ++ PyStr.zfill 2 (Z.to_N (day d)).

(** [a < b] *)
Definition lt (a b : t) : bool :=
  (year a <? year b)
  || ((year a =? year b)
      && ((month a <? month b) || ((month a =? month b) && (day a <? day b)))).

Definition eqb (a b : t) : bool :=
  (year a =? year b) && (month a =? month b) && (day a =? day b).

(** The directives of [strptime] that the date formats use, with the
    regular expressions [_strptime] compiles them to. *)
Inductive directive : Type := dY | dm | dd.

Definition directive_regex (f : directive) : Re.regex :=
  match f with
  | dY => Re.seq [Re.digit; Re.digit; Re.digit; Re.digit]
  | dm => Re.alt [Re.Cat (Re.chr "1") (Re.range "0" "2");
                  Re.Cat (Re.chr "0") (Re.range "1" "9");
                  Re.range "1" "9"]
  | dd => Re.alt [Re.Cat (Re.chr "3") (Re.range "0" "1");
                  Re.Cat (Re.range "1" "2") Re.digit;
                  Re.Cat (Re.chr "0") (Re.range "1" "9");
                  Re.range "1" "9";
                  Re.Cat (Re.chr " ") (Re.range "1" "9")]
  end.

(** The matches of directive [f] at the head of [s]: the value read and
    the remainder. *)
Definition read (f : directive) (s : string) : list (Z * string) :=
  map (fun rest => (Z.of_N (PyStr.digits_value (PyStr.strip (Re.consumed s rest))), rest))
      (Re.matches (directive_regex f) s).

Definition skip (sep : ascii) (s : string) : list string :=
  Re.matches (Re.chr sep) s.

Definition assign (f : directive) (v : Z) (ymd : Z * Z * Z) : Z * Z * Z :=
  let '(y, m, d) := ymd in
  match f with
  | dY => (v, m, d)
  | dm => (y, v, d)
  | dd => (y, m, v)
  end.

(** [datetime.strptime(s, fmt).date()] for a format [f1 sep f2 sep f3]: the
    first way of matching the format at the head of [s] must use up [s],
    and the fields must form a calendar date. *)
Definition strptime (s : string) (f1 f2 f3 : directive) (sep : ascii) : result t :=
  let found :=
    flat_map (fun '(v1, r1) =>
      flat_map (fun r1' =>
        flat_map (fun '(v2, r2) =>
          flat_map (fun r2' =>
            map (fun '(v3, r3) => (assign f3 v3 (assign f2 v2 (assign f1 v1 (1900, 1, 1))), r3))
                (read f3 r2'))
            (skip sep r2))
          (read f2 r1'))
        (skip sep r1))
      (read f1 s) in
  match found with
  | ((y, m, d), EmptyString) :: _ => make y m d
  | _ => Raise ValueError
  end.

End Date.

(** ** Python values

    What a [FieldValue.value] or the [value] of a patch can hold: the types
    of the declared union, and what JSON adds to them. *)

#[local] Set Warnings "-register-all".

Inductive pyval : Type :=
| VNone
| VBool (b : bool)
| VInt (z : Z)
| VFloat (f : float)
| VStr (s : string)
| VDecimal (d : Dec.t)
| VDate (d : Date.t)
| VList (l : list pyval)
| VDict (items : list (string * pyval)).

Module PyVal.

(** [bool(v)] *)
Definition truthy (v : pyval) : bool :=
  match v with
  | VNone => false
  | VBool b => b
  | VInt z => negb (z =? 0)
  | VFloat f => PyFloat.is_true f
  | VStr s => negb (String.eqb s "")
  | VDecimal d => Dec.is_true d
  | VDate _ => true
  | VList l => match l with [] => false | _ => true end
  | VDict l => match l with [] => false | _ => true end
  end.

Definition is_none (v : pyval) : bool :=
  match v with VNone => true | _ => false end.

(** [isinstance(v, date)] *)
Definition is_date (v : pyval) : bool :=
  match v with VDate _ => true | _ => false end.

(** [isinstance(v, Decimal)] *)
Definition is_decimal (v : pyval) : bool :=
  match v with VDecimal _ => true | _ => false end.

Definition hex_digit (n : N) : ascii :=
  ascii_of_N (if (n <? 10)%N then 48 + n else 87 + n).

(** [repr] of a [str]: quoted, with the quote, the backslash and the
    unprintable ASCII characters escaped. *)
Fixpoint escape (quote : ascii) (s : string) : string :=
  match s with
  | EmptyString => EmptyString
  | String c s' =>
      let n := PyStr.ord c in
      (if Ascii.eqb c quote || Ascii.eqb c "\" then String "\" (String c EmptyString)
       else if (n =? 9)%N then "\t"
       else if (n =? 10)%N then "\n"
       else if (n =? 13)%N then "\r"
       else if (n <? 32)%N || (n =? 127)%N
       then String "\" (String "x" (String (hex_digit (n / 16)) (String (hex_digit (n mod 16)) EmptyString)))
       else String c EmptyString)
      ++ escape quote s'
  end.

Definition double_quote : ascii := ascii_of_N 34.

Definition repr_str (s : string) : string :=
  let quote : ascii :=
    if PyStr.existsb (PyStr.is_char "'") s && negb (PyStr.existsb (PyStr.is_char double_quote) s)
    then double_quote else "'"%char in
  String quote (escape quote s) ++ String quote EmptyString.

(** [repr(v)] *)
Fixpoint repr (v : pyval) : string :=
  match v with
  | VNone => "None"
  | VBool b => if b then "True" else "False"
  | VInt z => PyStr.of_Z z
  | VFloat f => PyFloat.repr f
  | VStr s => repr_str s
  | VDecimal d => "Decimal('" ++ Dec.to_string d ++ "')"
  | VDate d =>
      "datetime.date(" ++ PyStr.of_Z (Date.year d) ++ ", " ++ PyStr.of_Z (Date.month d)
      ++ ", " ++ PyStr.of_Z (Date.day d) ++ ")"
  | VList l => "[" ++ PyStr.join ", " (map repr l) ++ "]"
  | VDict l =>
      "{" ++ PyStr.join ", " (map (fun kv => repr_str (fst kv) ++ ": " ++ repr (snd kv)) l) ++ "}"
  end.

(** [str(v)], also what an f-string puts for [{v}]. *)
Definition str (v : pyval) : string :=
  match v with
  | VStr s => s
  | VDecimal d => Dec.to_string d
  | VDate d => Date.to_string d
  | _ => repr v
  end.

(** [Decimal(str(v))] *)
Definition to_decimal (v : pyval) : result Dec.t := Dec.parse (str v).

(** [float(v)] *)
Definition to_float (v : pyval) : result float :=
  match v with
  | VBool b => Ok (if b then PrimFloat.one else PrimFloat.zero)
  | VInt z => PyFloat.of_int z
  | VFloat f => Ok f
  | VStr s => PyFloat.parse s
  | VDecimal d => Dec.to_float d
  | _ => Raise TypeError
  end.

End PyVal.

(** ** The schema ([schemas/invoice.py])

    Each pydantic model is a record [t] in a module of its name; [make] is
    the constructor call with the model's field constraints and validators,
    raising [ValidationError].  Values are stored as they are passed. *)

(** The constraint [ge=0.0, le=1.0] and the [confidence_range] validators. *)
Definition in_unit_interval (v : float) : bool :=
  PyFloat.ge v 0%float && PyFloat.le v 1%float.

Module Evidence.

Record t : Type := mk {
  page : Z;
  bbox : list float;
  text : string;
  confidence : float
}.

Definition make (page : Z) (bbox : list float) (text : string) (confidence : float)
  : result t :=
  if in_unit_interval confidence then Ok (mk page bbox text confidence)
  else Raise ValidationError.

End Evidence.

Module FieldValue.

Record t : Type := mk {
  value : pyval;
  confidence : float;
  evidence : list Evidence.t
}.

Definition make (value : pyval) (confidence : float) (evidence : list Evidence.t)
  : result t :=
  if in_unit_interval confidence then Ok (mk value confidence evidence)
  else Raise ValidationError.

(** [field.value = v] *)
Definition set_value (v : pyval) (f : t) : t :=
  mk v (confidence f) (evidence f).

End FieldValue.

(** The members of [CurrencyCode]. *)
Definition CurrencyCode : list string :=
  ["EUR"; "USD"; "GBP"; "JPY"; "SAR"; "AED"; "EGP"; "QAR"; "KWD"; "BHD"].

Module Vendor.

Record t : Type := mk {
  name : FieldValue.t;
  address : option FieldValue.t;
  tax_id : option FieldValue.t;
  phone : option FieldValue.t;
  email : option FieldValue.t;
  layout_hash : option string
}.

End Vendor.

Module Amounts.

Record t : Type := mk {
  subtotal : option FieldValue.t;
  tax_amount : option FieldValue.t;
  tax_rate : option FieldValue.t;
  discount : option FieldValue.t;
  shipping : option FieldValue.t;
  grand_total : FieldValue.t;
  currency : FieldValue.t
}.

(** Validators [grand_total_required] and [currency_required]. *)
Definition make (subtotal tax_amount tax_rate discount shipping : option FieldValue.t)
  (grand_total currency : FieldValue.t) : result t :=
  if PyVal.is_none (FieldValue.value grand_total) then Raise ValidationError
  else if PyVal.is_none (FieldValue.value currency) then Raise ValidationError
  else Ok (mk subtotal tax_amount tax_rate discount shipping grand_total currency).

End Amounts.

(** [v.value is None or str(v.value).strip() == ""] *)
Definition value_missing (v : FieldValue.t) : bool :=
  PyVal.is_none (FieldValue.value v)
  || String.eqb (PyStr.strip (PyVal.str (FieldValue.value v))) "".

Module LineItem.

Record t : Type := mk {
  description : FieldValue.t;
  quantity : option FieldValue.t;
  unit_price : option FieldValue.t;
  total : option FieldValue.t;
  tax_amount : option FieldValue.t;
  tax_rate : option FieldValue.t;
  category : option string;
  category_confidence : option float
}.

(** Validator [description_required]; the classification fields start
    unset. *)
Definition make (description : FieldValue.t)
  (quantity unit_price total tax_amount tax_rate : option FieldValue.t) : result t :=
  if value_missing description then Raise ValidationError
  else Ok (mk description quantity unit_price total tax_amount tax_rate None None).

End LineItem.

Module Invoice.

Record t : Type := mk {
  invoice_number : FieldValue.t;
  invoice_date : FieldValue.t;
  due_date : option FieldValue.t;
  vendor : Vendor.t;
  amounts : Amounts.t;
  line_items : list LineItem.t;
  notes : option FieldValue.t;
  payment_terms : option FieldValue.t;
  po_number : option FieldValue.t;
  processing_id : string;
  created_at : Z;                 (* the reading of the clock, [datetime.now()] *)
  source_file : string;
  extraction_method : string;
  llm_patch_applied : bool;
  human_reviewed : bool;
  duplicate_hash : option string
}.

(** The constructor as [extract_invoice] calls it: [created_at] is filled by
    its default factory [datetime.now], here the argument [now];
    [llm_patch_applied] and [human_reviewed] take their default [False].
    Validators [invoice_number_required], [invoice_date_required],
    [vendor_required], [amounts_required]. *)
Definition make (now : Z) (invoice_number invoice_date : FieldValue.t)
  (due_date : option FieldValue.t) (vendor : Vendor.t) (amounts : Amounts.t)
  (line_items : list LineItem.t) (notes payment_terms po_number : option FieldValue.t)
  (processing_id source_file extraction_method : string) (duplicate_hash : option string)
  : result t :=
  if value_missing invoice_number then Raise ValidationError
  else if PyVal.is_none (FieldValue.value invoice_date) then Raise ValidationError
  else if value_missing (Vendor.name vendor) then Raise ValidationError
  else if PyVal.is_none (FieldValue.value (Amounts.grand_total amounts))
          || PyVal.is_none (FieldValue.value (Amounts.currency amounts))
       then Raise ValidationError
  else Ok (mk invoice_number invoice_date due_date vendor amounts line_items notes
              payment_terms po_number processing_id now source_file extraction_method
              false false duplicate_hash).

Definition set_created_at (now : Z) (i : t) : t :=
  mk (invoice_number i) (invoice_date i) (due_date i) (vendor i) (amounts i)
     (line_items i) (notes i) (payment_terms i) (po_number i) (processing_id i)
     now (source_file i) (extraction_method i) (llm_patch_applied i)
     (human_reviewed i) (duplicate_hash i).

Definition set_invoice_number (f : FieldValue.t) (i : t) : t :=
  mk f (invoice_date i) (due_date i) (vendor i) (amounts i)
     (line_items i) (notes i) (payment_terms i) (po_number i) (processing_id i)
     (created_at i) (source_file i) (extraction_method i) (llm_patch_applied i)
     (human_reviewed i) (duplicate_hash i).

Definition set_invoice_date (f : FieldValue.t) (i : t) : t :=
  mk (invoice_number i) f (due_date i) (vendor i) (amounts i)
     (line_items i) (notes i) (payment_terms i) (po_number i) (processing_id i)
     (created_at i) (source_file i) (extraction_method i) (llm_patch_applied i)
     (human_reviewed i) (duplicate_hash i).

Definition set_amounts (a : Amounts.t) (i : t) : t :=
  mk (invoice_number i) (invoice_date i) (due_date i) (vendor i) a
     (line_items i) (notes i) (payment_terms i) (po_number i) (processing_id i)
     (created_at i) (source_file i) (extraction_method i) (llm_patch_applied i)
     (human_reviewed i) (duplicate_hash i).

Definition set_line_items (l : list LineItem.t) (i : t) : t :=
  mk (invoice_number i) (invoice_date i) (due_date i) (vendor i) (amounts i)
     l (notes i) (payment_terms i) (po_number i) (processing_id i)
     (created_at i) (source_file i) (extraction_method i) (llm_patch_applied i)
     (human_reviewed i) (duplicate_hash i).

End Invoice.

(** A formatted message: the text of an f-string with [{}] for each
    interpolated operand, and the operands.  The rendering is not modelled. *)
Record Message : Type := msg { template : string; operands : list pyval }.

(** An entry of [RuleReport.failures]: the dict a rule appends, by key. *)
Module Failure.

Record t : Type := mk {
  rule : string;
  path : string;
  reason : Message;
  expected : option float;
  actual : option float;
  tolerance : option float;
  suggested_fix : Message
}.

End Failure.

Module RuleReport.

Record t : Type := mk {
  passed : bool;
  failures : list Failure.t;
  warnings : list Failure.t
}.

(** [RuleReport.ok] *)
Definition ok (r : t) : bool :=
  passed r && Nat.eqb (List.length (failures r)) 0.

End RuleReport.

Module JsonPatch.

Record t : Type := mk {
  op : string;
  path : string;
  value : pyval;
  rationale : string;
  cites_bbox : list string
}.

End JsonPatch.

Module ProcessingResult.

Record t : Type := mk {
  invoice : Invoice.t;
  rule_report : RuleReport.t;
  llm_patch : option (list JsonPatch.t);
  final_json : Invoice.t;         (* [invoice.dict()] *)
  audit_trail : list string;
  status : string
}.

End ProcessingResult.

Module Token.

Record t : Type := mk {
  text : string;
  confidence : float;
  page : Z;
  bbox : float * float * float * float     (* [x1, y1, x2, y2] *)
}.

(** The constraint on [confidence] and the validator [bbox_format]; a bbox
    is a list of four coordinates by type here. *)
Definition make (text : string) (confidence : float) (page : Z)
  (bbox : float * float * float * float) : result t :=
  let '(x1, y1, x2, y2) := bbox in
  if negb (in_unit_interval confidence) then Raise ValidationError
  else if PyFloat.ge x1 x2 || PyFloat.ge y1 y2 then Raise ValidationError
  else Ok (mk text confidence page bbox).

Definition bbox_list (tok : t) : list float :=
  let '(x1, y1, x2, y2) := bbox tok in [x1; y1; x2; y2].

End Token.

Module ProcessingThresholds.

Record t : Type := mk {
  field_confidence_threshold : float;
  category_confidence_threshold : float;
  arithmetic_tolerance : float;
  rounding_decimal_places : Z;
  duplicate_hash_window_days : Z
}.

(** [ProcessingThresholds()] *)
Definition default : t := mk 0.82 0.75 0.02 2 180.

End ProcessingThresholds.

(** ** [hashlib.md5] (RFC 1321), on the bytes of a string *)

Module MD5.

Definition wrap (x : Z) : Z := x mod 2 ^ 32.

Definition rotl (x : Z) (c : Z) : Z :=
  wrap (Z.lor (Z.shiftl x c) (Z.shiftr x (32 - c))).

Definition lnot32 (x : Z) : Z := Z.lxor x (2 ^ 32 - 1).

Definition shifts : list Z :=
  [7; 12; 17; 22; 7; 12; 17; 22; 7; 12; 17; 22; 7; 12; 17; 22;
   5; 9; 14; 20; 5; 9; 14; 20; 5; 9; 14; 20; 5; 9; 14; 20;
   4; 11; 16; 23; 4; 11; 16; 23; 4; 11; 16; 23; 4; 11; 16; 23;
   6; 10; 15; 21; 6; 10; 15; 21; 6; 10; 15; 21; 6; 10; 15; 21].

(** [floor(2^32 * abs(sin(i + 1)))] *)
Definition sines : list Z :=
  [3614090360; 3905402710; 606105819; 3250441966;
   4118548399; 1200080426; 2821735955; 4249261313;
   1770035416; 2336552879; 4294925233; 2304563134;
   1804603682; 4254626195; 2792965006; 1236535329;
   4129170786; 3225465664; 643717713; 3921069994;
   3593408605; 38016083; 3634488961; 3889429448;
   568446438; 3275163606; 4107603335; 1163531501;
   2850285829; 4243563512; 1735328473; 2368359562;
   4294588738; 2272392833; 1839030562; 4259657740;
   2763975236; 1272893353; 4139469664; 3200236656;
   681279174; 3936430074; 3572445317; 76029189;
   3654602809; 3873151461; 530742520; 3299628645;
   4096336452; 1126891415; 2878612391; 4237533241;
   1700485571; 2399980690; 4293915773; 2240044497;
   1873313359; 4264355552; 2734768916; 1309151649;
   4149444226; 3174756917; 718787259; 3951481745].

Fixpoint bytes_of (s : string) : list Z :=
  match s with
  | EmptyString => []
  | String c s' => Z.of_N (PyStr.ord c) :: bytes_of s'
  end.

Fixpoint le_bytes (n : nat) (x : Z) : list Z :=
  match n with
  | O => []
  | S n' => x mod 256 :: le_bytes n' (x / 256)
  end.

(** The message, a 1 bit, zeros up to 56 modulo 64, the bit length. *)
Definition pad (msg : list Z) : list Z :=
  let len := Z.of_nat (List.length msg) in
  let zeros := (55 - len) mod 64 in
  msg ++ [128] ++ List.repeat 0 (Z.to_nat zeros) ++ le_bytes 8 ((8 * len) mod 2 ^ 64).

Fixpoint words (n : nat) (bytes : list Z) : list Z :=
  match n with
  | O => []
  | S n' =>
      match bytes with
      | b0 :: b1 :: b2 :: b3 :: tl =>
          (b0 + 256 * b1 + 65536 * b2 + 16777216 * b3) :: words n' tl
      | _ => []
      end
  end.

Definition round (M : list Z) (st : Z * Z * Z * Z) (i : Z) : Z * Z * Z * Z :=
  let '(A, B, C, D) := st in
  let F :=
    if i <? 16 then Z.lor (Z.land B C) (Z.land (lnot32 B) D)
    else if i <? 32 then Z.lor (Z.land D B) (Z.land (lnot32 D) C)
    else if i <? 48 then Z.lxor B (Z.lxor C D)
    else Z.lxor C (Z.lor B (lnot32 D)) in
  let g :=
    if i <? 16 then i
    else if i <? 32 then (5 * i + 1) mod 16
    else if i <? 48 then (3 * i + 5) mod 16
    else (7 * i) mod 16 in
  let F' := wrap (F + A + nth (Z.to_nat i) sines 0 + nth (Z.to_nat g) M 0) in
  (D, wrap (B + rotl F' (nth (Z.to_nat i) shifts 0)), B, C).

Definition indices : list Z := map Z.of_nat (seq 0 64).

Definition chunk (st : Z * Z * Z * Z) (bytes : list Z) : Z * Z * Z * Z :=
  let '(a0, b0, c0, d0) := st in
  let '(A, B, C, D) := fold_left (round (words 16 bytes)) indices st in
  (wrap (a0 + A), wrap (b0 + B), wrap (c0 + C), wrap (d0 + D)).

Fixpoint chunks (n : nat) (st : Z * Z * Z * Z) (bytes : list Z) : Z * Z * Z * Z :=
  match n with
  | O => st
  | S n' => chunks n' (chunk st (firstn 64 bytes)) (skipn 64 bytes)
  end.

Definition hex_byte (b : Z) : string :=
  String (PyVal.hex_digit (Z.to_N (b / 16)))
    (String (PyVal.hex_digit (Z.to_N (b mod 16))) EmptyString).

(** [hashlib.md5(s.encode()).hexdigest()] *)
Definition hexdigest (s : string) : string :=
  let bytes := pad (bytes_of s) in
  let '(a, b, c, d) :=
    chunks (List.length bytes / 64) (1732584193, 4023233417, 2562383102, 271733878) bytes in
  String.concat "" (map hex_byte (le_bytes 4 a ++ le_bytes 4 b ++ le_bytes 4 c ++ le_bytes 4 d)).

End MD5.

(** ** The deterministic extractor ([extract/deterministic.py]) *)

(** Python's stable [sort]/[sorted], by a strict comparison of the keys. *)
Section Sorting.

Context {A : Type} (lt : A -> A -> bool).

Fixpoint insert_sorted (x : A) (l : list A) : list A :=
  match l with
  | [] => [x]
  | y :: tl => if lt x y then x :: l else y :: insert_sorted x tl
  end.

Definition sorted (l : list A) : list A :=
  fold_left (fun acc x => insert_sorted x acc) l [].

End Sorting.

(** [for x in l: st = body(st, x)], with exceptions. *)
Fixpoint for_each {A S : Type} (l : list A) (st : S) (body : S -> A -> result S)
  : result S :=
  match l with
  | [] => Ok st
  | x :: tl =>
      match body st x with
      | Ok st' => for_each tl st' body
      | Raise e => Raise e
      end
  end.

(** [[f(x) for x in l]], with exceptions. *)
Fixpoint map_result {A B : Type} (f : A -> result B) (l : list A) : result (list B) :=
  match l with
  | [] => Ok []
  | x :: tl =>
      match f x with
      | Ok y =>
          match map_result f tl with
          | Ok ys => Ok (y :: ys)
          | Raise e => Raise e
          end
      | Raise e => Raise e
      end
  end.

Module DeterministicExtractor.

Local Open Scope py_scope.

(** [self.label_patterns.get(field_type, [])] *)
Definition label_patterns (field_type : string) : list string :=
  if String.eqb field_type "total" then
    ["total"; "grand total"; "amount due"; "net total"; "final total";
     "amount"; "sum"; "subtotal"; "total amount"; "invoice total";
     "الإجمالي"; "المجموع"; "المبلغ الإجمالي"; "المبلغ المستحق";
     "المبلغ النهائي"; "المبلغ الصافي"; "إجمالي الفاتورة"]
  else if String.eqb field_type "tax" then
    ["tax"; "vat"; "gst"; "sales tax"; "tax amount"; "tax total";
     "value added tax"; "taxable amount"; "tax rate";
     "ضريبة"; "ضريبة القيمة المضافة"; "ضريبة المبيعات"; "مبلغ الضريبة";
     "إجمالي الضريبة"; "نسبة الضريبة"; "المبلغ الخاضع للضريبة"]
  else if String.eqb field_type "discount" then
    ["discount"; "deduction"; "rebate"; "discount amount"; "discount total";
     "reduction"; "off"; "less"; "minus";
     "خصم"; "تخفيض"; "خصم المبلغ"; "إجمالي الخصم"; "ناقص"; "أقل"]
  else if String.eqb field_type "shipping" then
    ["shipping"; "delivery"; "freight"; "transport"; "shipping cost";
     "delivery fee"; "freight charge"; "shipping fee";
     "الشحن"; "التوصيل"; "الشحن والتوصيل"; "رسوم الشحن"; "تكلفة الشحن"]
  else if String.eqb field_type "invoice_number" then
    ["invoice"; "invoice no"; "invoice number"; "inv no"; "inv number";
     "bill"; "bill no"; "bill number"; "receipt"; "receipt no";
     "فاتورة"; "رقم الفاتورة"; "فاتورة رقم"; "فاتورة رقم"; "إيصال"; "رقم الإيصال"]
  else if String.eqb field_type "date" then
    ["date"; "invoice date"; "issue date"; "billing date"; "created";
     "due date"; "payment due"; "expiry"; "valid until";
     "تاريخ"; "تاريخ الفاتورة"; "تاريخ الإصدار"; "تاريخ الاستحقاق";
     "تاريخ الدفع"; "صالح حتى"; "تاريخ الانتهاء"]
  else if String.eqb field_type "vendor" then
    ["from"; "vendor"; "supplier"; "company"; "business"; "seller";
     "merchant"; "provider"; "contractor";
     "من"; "المورد"; "المزود"; "الشركة"; "التاجر"; "المقاول"]
  else [].

Definition digits_1_2 : Re.regex := Re.Rep 1 2 PyStr.is_digit.
Definition digits_4 : Re.regex := Re.Rep 4 4 PyStr.is_digit.

Definition day_first (sep : ascii) : Re.regex :=
  Re.seq [digits_1_2; Re.chr sep; digits_1_2; Re.chr sep; digits_4].

(** [self.date_patterns]: each pattern with the fields and the separator of
    its [strptime] format. *)
Definition date_patterns
  : list (Re.regex * (Date.directive * Date.directive * Date.directive * ascii)) :=
  [ (Re.seq [digits_4; Re.chr "-"; Re.Rep 2 2 PyStr.is_digit; Re.chr "-";
             Re.Rep 2 2 PyStr.is_digit],
     (Date.dY, Date.dm, Date.dd, "-"%char));
    (day_first "/", (Date.dd, Date.dm, Date.dY, "/"%char));
    (day_first "/", (Date.dm, Date.dd, Date.dY, "/"%char));
    (day_first "-", (Date.dd, Date.dm, Date.dY, "-"%char));
    (day_first "-", (Date.dm, Date.dd, Date.dY, "-"%char));
    (day_first ".", (Date.dd, Date.dm, Date.dY, "."%char));
    (day_first ".", (Date.dm, Date.dd, Date.dY, "."%char));
    (day_first "/", (Date.dd, Date.dm, Date.dY, "/"%char)) ].

(** [self.currency_patterns], in the order of the dict. *)
Definition currency_patterns : list (string * list string) :=
  [ ("EUR", ["€"; "EUR"; "euro"; "euros"; "يورو"]);
    ("USD", ["$"; "USD"; "dollar"; "dollars"; "دولار"]);
    ("GBP", ["£"; "GBP"; "pound"; "pounds"; "جنيه"]);
    ("JPY", ["¥"; "JPY"; "yen"; "ين"]);
    ("SAR", ["SAR"; "riyal"; "ريال"]);
    ("AED", ["AED"; "dirham"; "درهم"]);
    ("EGP", ["EGP"; "pound"; "جنيه مصري"]);
    ("QAR", ["QAR"; "riyal"; "ريال قطري"]);
    ("KWD", ["KWD"; "dinar"; "دينار"]);
    ("BHD", ["BHD"; "dinar"; "دينار بحريني"]) ].

(** The field zones cached per layout, and the cache [self.vendor_cache]. *)
Record zones : Type := mk_zones {
  z_address : option FieldValue.t;
  z_tax_id : option FieldValue.t;
  z_phone : option FieldValue.t;
  z_email : option FieldValue.t
}.

Definition vendor_cache : Type := list (string * zones).

Fixpoint cache_get (c : vendor_cache) (key : string) : option zones :=
  match c with
  | [] => None
  | (k, z) :: tl => if String.eqb k key then Some z else cache_get tl key
  end.

Definition amount_chars (c : ascii) : bool :=
  PyStr.is_digit c || PyStr.is_char "." c || PyStr.is_char "," c || PyStr.is_char "-" c.

Definition number_chars (c : ascii) : bool :=
  PyStr.is_digit c || PyStr.is_char "." c || PyStr.is_char "," c.

Definition date_separator (c : ascii) : bool :=
  PyStr.is_char "/" c || PyStr.is_char "-" c || PyStr.is_char "." c.

Definition is_money_field (field_type : string) : bool :=
  existsb (String.eqb field_type) ["total"; "tax"; "discount"; "shipping"; "subtotal"].

Definition evidence_of (tok : Token.t) : result Evidence.t :=
  Evidence.make (Token.page tok) (Token.bbox_list tok) (Token.text tok) (Token.confidence tok).

Definition _create_layout_fingerprint (tokens : list Token.t) : string :=
  let key_lt (a b : Token.t) :=
    let '(ax, ay, _, _) := Token.bbox a in
    let '(bx, by_, _, _) := Token.bbox b in
    if negb (Token.page a =? Token.page b) then Token.page a <? Token.page b
    else if negb (PyFloat.eq ay by_) then PyFloat.lt ay by_
    else PyFloat.lt ax bx in
  let sorted_tokens := sorted key_lt tokens in
  let top_texts := map Token.text (firstn 15 sorted_tokens) in
  MD5.hexdigest (PyStr.join "|" top_texts).

Definition _calculate_token_distance (token1 token2 : Token.t) : float :=
  let '(x1, y1, x2, y2) := Token.bbox token1 in
  let '(x3, y3, x4, y4) := Token.bbox token2 in
  let center1 := ((x1 + x2) / 2, (y1 + y2) / 2)%float in
  let center2 := ((x3 + x4) / 2, (y3 + y4) / 2)%float in
  PyFloat.pow_half
    (PyFloat.pow2 (fst center1 - fst center2) + PyFloat.pow2 (snd center1 - snd center2))%float.

Definition _looks_like_value (text : string) (field_type : string) : bool :=
  let text := PyStr.strip text in
  if is_money_field field_type then
    PyStr.existsb number_chars text && (PyStr.len text <? 50)%nat
  else if String.eqb field_type "invoice_number" then
    PyStr.existsb PyStr.is_alnum text && (PyStr.len text <? 30)%nat
  else if String.eqb field_type "date" then
    match Re.search (Re.seq [Re.Rep 1 4 PyStr.is_digit; Re.Cls date_separator;
                             Re.Rep 1 2 PyStr.is_digit; Re.Cls date_separator;
                             Re.Rep 1 4 PyStr.is_digit]) text with
    | Some _ => true
    | None => false
    end
  else if String.eqb field_type "vendor" then
    (2 <? PyStr.len text)%nat && (PyStr.len text <? 100)%nat
    && negb (PyStr.existsb number_chars text)
  else false.

Definition _parse_amount (text : string) : pyval :=
  let amount_text := PyStr.filter amount_chars text in
  if String.eqb amount_text "" then VNone
  else
    let amount_text :=
      if PyStr.contains "," amount_text && PyStr.contains "." amount_text then
        PyStr.replace "," "" amount_text
      else if PyStr.contains "," amount_text then
        if Nat.eqb (PyStr.count "," amount_text) 1
           && (String.length (nth 1 (PyStr.split "," amount_text) "") <=? 2)%nat
        then PyStr.replace "," "." amount_text
        else PyStr.replace "," "" amount_text
      else amount_text in
    try_except (d <- Dec.parse amount_text ;; Ok (VDecimal d)) (fun _ => VNone).

Fixpoint parse_date_from
  (patterns : list (Re.regex * (Date.directive * Date.directive * Date.directive * ascii)))
  (text : string) : pyval :=
  match patterns with
  | [] => VNone
  | (pattern, (f1, f2, f3, sep)) :: tl =>
      match Re.search pattern text with
      | Some date_str =>
          match Date.strptime date_str f1 f2 f3 sep with
          | Ok d => VDate d
          | Raise _ => parse_date_from tl text
          end
      | None => parse_date_from tl text
      end
  end.

Definition _parse_date (text : string) : pyval := parse_date_from date_patterns text.

Definition _parse_percentage (text : string) : pyval :=
  let number :=
    Re.Cat (Re.Plus PyStr.is_digit)
           (Re.Opt (Re.Cat (Re.chr ".") (Re.Plus PyStr.is_digit))) in
  match Re.search_group1 number (Re.Cat (Re.Star PyStr.is_space) (Re.chr "%")) text with
  | Some g => try_except (f <- PyFloat.parse g ;; Ok (VFloat f)) (fun _ => VNone)
  | None => VNone
  end.

Definition _parse_field_value (text : string) (field_type : string) : pyval :=
  let text := PyStr.strip text in
  if is_money_field field_type then _parse_amount text
  else if String.eqb field_type "invoice_number" then VStr text
  else if String.eqb field_type "date" then _parse_date text
  else if String.eqb field_type "vendor" then VStr text
  else if String.eqb field_type "tax_rate" then _parse_percentage text
  else VStr text.

Definition _find_value_near_token (tokens : list Token.t) (label_token : Token.t)
  (field_type : string) : option Token.t :=
  let nearby_tokens :=
    flat_map (fun token =>
      if Token.page token =? Token.page label_token then
        let distance := _calculate_token_distance label_token token in
        if PyFloat.lt distance 200 then [(token, distance)] else []
      else []) tokens in
  let nearby_tokens := sorted (fun a b => PyFloat.lt (snd a) (snd b)) nearby_tokens in
  option_map fst
    (find (fun td => _looks_like_value (Token.text (fst td)) field_type) nearby_tokens).

Definition _calculate_field_confidence (label_token value_token : Token.t)
  (field_type : string) : float :=
  let base_confidence := PyFloat.min (Token.confidence label_token) (Token.confidence value_token) in
  let distance := _calculate_token_distance label_token value_token in
  let distance_factor := PyFloat.max 0.1 (1.0 - distance / 500.0)%float in
  let pattern_factor := 0.8%float in
  let text_quality :=
    if _looks_like_value (Token.text value_token) field_type then 1.0%float else 0.3%float in
  let final_confidence :=
    (base_confidence * distance_factor * pattern_factor * text_quality)%float in
  PyFloat.min 1.0 (PyFloat.max 0.0 final_confidence).

(** The search state of the lookups: [(best_match, best_confidence)]. *)
Definition best : Type := option FieldValue.t * float.

(** The body of the loop over the label patterns, for one token. *)
Definition try_label (tokens : list Token.t) (field_type : string) (token : Token.t)
  (st : best) (pattern : string) : result best :=
  let text := PyStr.lower (Token.text token) in
  let '(best_match, best_confidence) := st in
  if PyStr.contains (PyStr.lower pattern) text then
    match _find_value_near_token tokens token field_type with
    | Some value_token =>
        let confidence := _calculate_field_confidence token value_token field_type in
        if PyFloat.gt confidence best_confidence then
          ev <- evidence_of value_token ;;
          fv <- FieldValue.make
                  (_parse_field_value (Token.text value_token) field_type)
                  confidence [ev] ;;
          Ok (Some fv, confidence)
        else Ok st
    | None => Ok st
    end
  else Ok st.

(** What a lookup returns from its final state. *)
Definition or_default (required : bool) (default : result FieldValue.t) (st : best)
  : result (option FieldValue.t) :=
  match fst st with
  | None =>
      if required then fv <- default ;; Ok (Some fv)
      else Ok None
  | Some fv => Ok (Some fv)
  end.

Definition _find_field_by_patterns (tokens : list Token.t) (field_type : string)
  (required : bool) : result (option FieldValue.t) :=
  let patterns := label_patterns field_type in
  st <- for_each tokens (None, 0.0%float) (fun st token =>
          for_each patterns st (try_label tokens field_type token)) ;;
  or_default required (FieldValue.make VNone 0.0 []) st.

(** A required lookup always yields a field. *)
Definition required_field (r : result (option FieldValue.t)) : result FieldValue.t :=
  o <- r ;;
  match o with
  | Some fv => Ok fv
  | None => Raise ValidationError       (* [None] for a required model field *)
  end.

(** The body of the loop over the symbols of one currency, for one token. *)
Definition try_symbol (token : Token.t) (currency_code : string) (st : best)
  (symbol : string) : result best :=
  let '(best_match, best_confidence) := st in
  if PyStr.contains symbol (Token.text token) then
    let confidence := 0.9%float in
    if PyFloat.gt confidence best_confidence then
      ev <- evidence_of token ;;
      fv <- FieldValue.make (VStr currency_code) confidence [ev] ;;
      Ok (Some fv, confidence)
    else Ok st
  else Ok st.

Definition try_currency (token : Token.t) (st : best) (entry : string * list string)
  : result best :=
  let '(currency_code, symbols) := entry in
  for_each symbols st (try_symbol token currency_code).

Definition _find_currency (tokens : list Token.t) (required : bool)
  : result (option FieldValue.t) :=
  st <- for_each tokens (None, 0.0%float) (fun st token =>
          for_each currency_patterns st (try_currency token)) ;;
  or_default required (FieldValue.make (VStr "EUR") 0.1 []) st.

Definition _looks_like_line_item (text : string) : bool :=
  let has_text := PyStr.existsb PyStr.is_alpha text in
  let has_numbers := PyStr.existsb PyStr.is_digit text in
  has_text && has_numbers && (5 <? PyStr.len text)%nat.

(** The runs of consecutive tokens that look like line items. *)
Definition _find_line_item_tokens (tokens : list Token.t) : list (list Token.t) :=
  let '(line_items, current_item) :=
    fold_left (fun st token =>
      let '(line_items, current_item) := st in
      if _looks_like_line_item (Token.text token) then (line_items, (current_item ++ [token])%list)
      else match current_item with
           | [] => (line_items, current_item)
           | _ => ((line_items ++ [current_item])%list, [])
           end) tokens ([], []) in
  match current_item with
  | [] => line_items
  | _ => (line_items ++ [current_item])%list
  end.

(** A field built from one token: its value, the token's confidence and the
    token as evidence. *)
Definition field_of_token (value : pyval) (token : Token.t) : result FieldValue.t :=
  ev <- evidence_of token ;;
  FieldValue.make value (Token.confidence token) [ev].

(** [max(tokens, key=lambda t: len(t.text))]: the first of the longest. *)
Definition longest (first : Token.t) (rest : list Token.t) : Token.t :=
  fold_left (fun best t =>
    if (PyStr.len (Token.text best) <? PyStr.len (Token.text t))%nat then t else best)
    rest first.

Definition _extract_line_description (tokens : list Token.t) : result (option FieldValue.t) :=
  match tokens with
  | [] => Raise ValueError                      (* [max] of an empty sequence *)
  | first :: rest =>
      let best_token := longest first rest in
      fv <- field_of_token (VStr (Token.text best_token)) best_token ;;
      Ok (Some fv)
  end.

(** [for token in tokens: if cond(token): return FieldValue(...)], else
    [None]. *)
Fixpoint first_field (tokens : list Token.t) (pick : Token.t -> result (option pyval))
  : result (option FieldValue.t) :=
  match tokens with
  | [] => Ok None
  | token :: tl =>
      o <- pick token ;;
      match o with
      | Some v => fv <- field_of_token v token ;; Ok (Some fv)
      | None => first_field tl pick
      end
  end.

Definition _extract_line_quantity (tokens : list Token.t) : result (option FieldValue.t) :=
  let number :=
    Re.seq [Re.Plus PyStr.is_digit;
            Re.Opt (Re.Cat (Re.chr ".") (Re.Plus PyStr.is_digit)); Re.Eol] in
  first_field tokens (fun token =>
    match Re.match_ number (PyStr.strip (Token.text token)) with
    | Some _ => f <- PyFloat.parse (Token.text token) ;; Ok (Some (VFloat f))
    | None => Ok None
    end).

Definition _extract_line_unit_price (tokens : list Token.t) : result (option FieldValue.t) :=
  first_field tokens (fun token =>
    let amount := _parse_amount (Token.text token) in
    Ok (if PyVal.truthy amount then Some amount else None)).

Definition _extract_line_total (tokens : list Token.t) : result (option FieldValue.t) :=
  let amounts :=
    flat_map (fun token =>
      let amount := _parse_amount (Token.text token) in
      if PyVal.truthy amount then [(amount, token)] else []) tokens in
  match rev amounts with
  | [] => Ok None
  | (amount, token) :: _ => fv <- field_of_token amount token ;; Ok (Some fv)
  end.

Definition any_keyword (keywords : list string) (text : string) : bool :=
  existsb (fun keyword => PyStr.contains keyword text) keywords.

Definition _extract_line_tax_amount (tokens : list Token.t) : result (option FieldValue.t) :=
  first_field tokens (fun token =>
    if any_keyword ["tax"; "vat"; "ضريبة"] (PyStr.lower (Token.text token)) then
      let amount := _parse_amount (Token.text token) in
      Ok (if PyVal.truthy amount then Some amount else None)
    else Ok None).

Definition _extract_line_tax_rate (tokens : list Token.t) : result (option FieldValue.t) :=
  first_field tokens (fun token =>
    let rate := _parse_percentage (Token.text token) in
    Ok (if PyVal.truthy rate then Some rate else None)).

Definition _extract_line_items (tokens : list Token.t) : result (list LineItem.t) :=
  let item_tokens := _find_line_item_tokens tokens in
  for_each item_tokens [] (fun line_items item_token_group =>
    description <- _extract_line_description item_token_group ;;
    quantity <- _extract_line_quantity item_token_group ;;
    unit_price <- _extract_line_unit_price item_token_group ;;
    total <- _extract_line_total item_token_group ;;
    tax_amount <- _extract_line_tax_amount item_token_group ;;
    tax_rate <- _extract_line_tax_rate item_token_group ;;
    match description with
    | Some d =>
        if PyVal.truthy (FieldValue.value d) then
          line_item <- LineItem.make d quantity unit_price total tax_amount tax_rate ;;
          Ok (line_items ++ [line_item])%list
        else Ok line_items
    | None => Ok line_items
    end).

(** [min(token.confidence for token in tokens)] *)
Definition min_confidence (first : Token.t) (rest : list Token.t) : float :=
  fold_left (fun m t => PyFloat.min m (Token.confidence t)) rest (Token.confidence first).

Definition _extract_notes (tokens : list Token.t) : result (option FieldValue.t) :=
  let note_tokens :=
    filter (fun token =>
      (20 <? PyStr.len (Token.text token))%nat
      && negb (_looks_like_value (Token.text token) "total")) tokens in
  match note_tokens with
  | [] => Ok None
  | first :: rest =>
      let combined_text := PyStr.join " " (map Token.text note_tokens) in
      evs <- map_result evidence_of note_tokens ;;
      fv <- FieldValue.make (VStr combined_text) (min_confidence first rest) evs ;;
      Ok (Some fv)
  end.

Definition _extract_payment_terms (tokens : list Token.t) : result (option FieldValue.t) :=
  first_field tokens (fun token =>
    Ok (if any_keyword ["payment"; "terms"; "due"; "net"; "days"]
             (PyStr.lower (Token.text token))
        then Some (VStr (Token.text token)) else None)).

Definition _extract_po_number (tokens : list Token.t) : result (option FieldValue.t) :=
  first_field tokens (fun token =>
    Ok (if any_keyword ["po"; "purchase order"; "order no"; "order number"]
             (PyStr.lower (Token.text token))
        then Some (VStr (Token.text token)) else None)).

Definition _create_duplicate_hash (vendor_name invoice_number invoice_date grand_total : pyval)
  : string :=
  let hash_input :=
    PyVal.str vendor_name ++ "|" ++ PyVal.str invoice_number ++ "|"
    ++ PyVal.str invoice_date ++ "|" ++ PyVal.str grand_total in
  MD5.hexdigest hash_input.

(** [a or b] on optional fields. *)
Definition or_else {A : Type} (a b : option A) : option A :=
  match a with
  | Some _ => a
  | None => b
  end.

(** [_extract_vendor]: the vendor and the cache after the call.  The cache
    is written only when the vendor has been built. *)
Definition _extract_vendor (cache : vendor_cache) (tokens : list Token.t)
  (layout_hash : string) : result Vendor.t * vendor_cache :=
  let cached := fun (get : zones -> option FieldValue.t) =>
    match cache_get cache layout_hash with
    | Some z => get z
    | None => None                              (* [{}.get(...)] *)
    end in
  let built :=
    vendor_name <- required_field (_find_field_by_patterns tokens "vendor" true) ;;
    address <- _find_field_by_patterns tokens "address" false ;;
    tax_id <- _find_field_by_patterns tokens "tax_id" false ;;
    phone <- _find_field_by_patterns tokens "phone" false ;;
    email <- _find_field_by_patterns tokens "email" false ;;
    Ok (Vendor.mk vendor_name
          (or_else address (cached z_address))
          (or_else tax_id (cached z_tax_id))
          (or_else phone (cached z_phone))
          (or_else email (cached z_email))
          (Some layout_hash)) in
  match built with
  | Ok vendor =>
      let cache' :=
        match cache_get cache layout_hash with
        | Some _ => cache
        | None =>
            (cache ++ [(layout_hash,
                        mk_zones (Vendor.address vendor) (Vendor.tax_id vendor)
                                 (Vendor.phone vendor) (Vendor.email vendor))])%list
        end in
      (Ok vendor, cache')
  | Raise e => (Raise e, cache)
  end.

Definition _extract_amounts (tokens : list Token.t) : result Amounts.t :=
  subtotal <- _find_field_by_patterns tokens "subtotal" false ;;
  tax_amount <- _find_field_by_patterns tokens "tax" false ;;
  tax_rate <- _find_field_by_patterns tokens "tax_rate" false ;;
  discount <- _find_field_by_patterns tokens "discount" false ;;
  shipping <- _find_field_by_patterns tokens "shipping" false ;;
  grand_total <- required_field (_find_field_by_patterns tokens "total" true) ;;
  currency <- required_field (_find_currency tokens true) ;;
  Amounts.make subtotal tax_amount tax_rate discount shipping grand_total currency.

Definition _extract_invoice_number (tokens : list Token.t) : result FieldValue.t :=
  required_field (_find_field_by_patterns tokens "invoice_number" true).

Definition _extract_invoice_date (tokens : list Token.t) : result FieldValue.t :=
  required_field (_find_field_by_patterns tokens "date" true).

Definition _extract_due_date (tokens : list Token.t) : result (option FieldValue.t) :=
  _find_field_by_patterns tokens "due_date" false.

(** [extract_invoice], run with the vendor cache [cache] and a clock that
    reads [now] when the invoice is built: the invoice (or the exception)
    and the cache afterwards. *)
Definition extract_invoice (cache : vendor_cache) (now : Z) (tokens : list Token.t)
  (filename processing_id : string) : result Invoice.t * vendor_cache :=
  let layout_hash := _create_layout_fingerprint tokens in
  let '(vendor_result, cache') := _extract_vendor cache tokens layout_hash in
  (vendor <- vendor_result ;;
   amounts <- _extract_amounts tokens ;;
   invoice_number <- _extract_invoice_number tokens ;;
   invoice_date <- _extract_invoice_date tokens ;;
   due_date <- _extract_due_date tokens ;;
   line_items <- _extract_line_items tokens ;;
   notes <- _extract_notes tokens ;;
   payment_terms <- _extract_payment_terms tokens ;;
   po_number <- _extract_po_number tokens ;;
   let duplicate_hash :=
     _create_duplicate_hash (FieldValue.value (Vendor.name vendor))
       (FieldValue.value invoice_number) (FieldValue.value invoice_date)
       (FieldValue.value (Amounts.grand_total amounts)) in
   Invoice.make now invoice_number invoice_date due_date vendor amounts line_items
     notes payment_terms po_number processing_id filename "deterministic"
     (Some duplicate_hash),
   cache').

End DeterministicExtractor.

(** ** The rules engine ([rules/engine.py]) *)

Module RulesEngine.

Local Open Scope py_scope.

(** [field and field.value]: the value of an optional field when both the
    field and its value are truthy. *)
Definition truthy_value (o : option FieldValue.t) : option pyval :=
  match o with
  | Some fv => if PyVal.truthy (FieldValue.value fv) then Some (FieldValue.value fv) else None
  | None => None
  end.

(** [field and field.value is not None] *)
Definition given_value (o : option FieldValue.t) : option pyval :=
  match o with
  | Some fv => if PyVal.is_none (FieldValue.value fv) then None else Some (FieldValue.value fv)
  | None => None
  end.

Definition zero : Dec.t := Dec.Fin false 0 0.          (* [Decimal('0')] *)

(** [abs(a - b) / abs(c)] *)
Definition relative_error (a b c : Dec.t) : result Dec.t :=
  diff <- Dec.sub a b ;;
  num <- Dec.abs diff ;;
  den <- Dec.abs c ;;
  Dec.div num den.

(** [total += Decimal(str(field.value))] when the field is set and truthy. *)
Definition add_if_set (total : Dec.t) (o : option FieldValue.t) : result Dec.t :=
  match truthy_value o with
  | Some v => d <- PyVal.to_decimal v ;; Dec.add total d
  | None => Ok total
  end.

Definition exception_failure (rule path reason fix_ : string) (e : exn) : Failure.t :=
  Failure.mk rule path (msg reason [VStr (exn_name e)]) None None None (msg fix_ []).

Definition _validate_arithmetic (th : ProcessingThresholds.t) (invoice : Invoice.t)
  : list Failure.t :=
  let amounts := Invoice.amounts invoice in
  try_except
    (let grand_total := FieldValue.value (Amounts.grand_total amounts) in
     grand_total <-
       match grand_total with
       | VDecimal d => Ok d
       | v => PyVal.to_decimal v
       end ;;
     let expected_total := zero in
     expected_total <-
       match truthy_value (Amounts.subtotal amounts) with
       | Some v => subtotal <- PyVal.to_decimal v ;; Dec.add expected_total subtotal
       | None => Ok grand_total
       end ;;
     expected_total <- add_if_set expected_total (Amounts.tax_amount amounts) ;;
     expected_total <- add_if_set expected_total (Amounts.shipping amounts) ;;
     expected_total <-
       match truthy_value (Amounts.discount amounts) with
       | Some v => discount <- PyVal.to_decimal v ;; Dec.sub expected_total discount
       | None => Ok expected_total
       end ;;
     nonzero <- Dec.ne expected_total zero ;;
     if nonzero then
       relative_error <- relative_error grand_total expected_total expected_total ;;
       too_far <- Dec.gt_float relative_error (ProcessingThresholds.arithmetic_tolerance th) ;;
       if too_far then
         expected <- Dec.to_float expected_total ;;
         actual <- Dec.to_float grand_total ;;
         Ok [Failure.mk "arithmetic_balance" "/amounts/grand_total"
               (msg "Arithmetic balance check failed. Expected: {}, Actual: {}, Error: {:.2%}"
                    [VDecimal expected_total; VDecimal grand_total; VDecimal relative_error])
               (Some expected) (Some actual)
               (Some (ProcessingThresholds.arithmetic_tolerance th))
               (msg "Adjust grand total to {} or verify individual amounts"
                    [VDecimal expected_total])]
       else Ok []
     else Ok [])
    (fun e =>
       [exception_failure "arithmetic_balance" "/amounts"
          "Arithmetic validation failed: {}" "Check amount formats and values" e]).

(** The sums over the line items: [(line_total, line_tax_total)]. *)
Definition line_totals (items : list LineItem.t) : result (Dec.t * Dec.t) :=
  for_each items (zero, zero) (fun st line_item =>
    let '(line_total, line_tax_total) := st in
    line_total <-
      match truthy_value (LineItem.quantity line_item),
            truthy_value (LineItem.unit_price line_item) with
      | Some q, Some p =>
          qty <- PyVal.to_decimal q ;;
          unit_price <- PyVal.to_decimal p ;;
          prod <- Dec.mul qty unit_price ;;
          Dec.add line_total prod
      | _, _ => Ok line_total
      end ;;
    line_tax_total <- add_if_set line_tax_total (LineItem.tax_amount line_item) ;;
    Ok (line_total, line_tax_total)).

(** One comparison of [_validate_line_sum]: the failures it appends. *)
Definition line_sum_check (th : ProcessingThresholds.t) (rule path : string)
  (reason fix_ : string) (invoice_total expected : Dec.t) : result (list Failure.t) :=
  nonzero <- Dec.ne invoice_total zero ;;
  if nonzero then
    error <- relative_error invoice_total expected invoice_total ;;
    too_far <- Dec.gt_float error (ProcessingThresholds.arithmetic_tolerance th) ;;
    if too_far then
      e <- Dec.to_float expected ;;
      a <- Dec.to_float invoice_total ;;
      Ok [Failure.mk rule path
            (msg reason [VDecimal expected; VDecimal invoice_total; VDecimal error])
            (Some e) (Some a) None (msg fix_ [VDecimal expected])]
    else Ok []
  else Ok [].

Definition _validate_line_sum (th : ProcessingThresholds.t) (invoice : Invoice.t)
  : list Failure.t :=
  let amounts := Invoice.amounts invoice in
  let on_exception (e : exn) :=
    [exception_failure "line_sum" "/line_items"
       "Line item sum validation failed: {}" "Check line item calculations and formats" e] in
  let totals :=
    '(line_total, line_tax_total) <- line_totals (Invoice.line_items invoice) ;;
    invoice_subtotal <-
      match truthy_value (Amounts.subtotal amounts) with
      | Some v => PyVal.to_decimal v
      | None => Ok zero
      end ;;
    invoice_tax_total <-
      match truthy_value (Amounts.tax_amount amounts) with
      | Some v => PyVal.to_decimal v
      | None => Ok zero
      end ;;
    Ok (line_total, line_tax_total, invoice_subtotal, invoice_tax_total) in
  match totals with
  | Raise e => on_exception e
  | Ok (expected_subtotal, expected_tax_total, invoice_subtotal, invoice_tax_total) =>
      match line_sum_check th "line_sum_subtotal" "/amounts/subtotal"
              "Line item subtotal mismatch. Expected: {}, Actual: {}, Error: {:.2%}"
              "Adjust subtotal to {} or verify line item calculations"
              invoice_subtotal expected_subtotal with
      | Raise e => on_exception e
      | Ok first =>
          (* failures appended before an exception stay in the list *)
          match line_sum_check th "line_sum_tax" "/amounts/tax_amount"
                  "Line item tax total mismatch. Expected: {}, Actual: {}, Error: {:.2%}"
                  "Adjust tax amount to {} or verify line item tax calculations"
                  invoice_tax_total expected_tax_total with
          | Raise e => (first ++ on_exception e)%list
          | Ok second => (first ++ second)%list
          end
      end
  end.

Definition plain_failure (rule path : string) (reason suggested_fix : Message) : Failure.t :=
  Failure.mk rule path reason None None None suggested_fix.

Definition _validate_dates (invoice : Invoice.t) : list Failure.t :=
  let invoice_date := FieldValue.value (Invoice.invoice_date invoice) in
  let on_invoice_date :=
    if negb (PyVal.truthy invoice_date) then
      [plain_failure "required_date" "/invoice_date"
         (msg "Invoice date is required" []) (msg "Provide a valid invoice date" [])]
    else if negb (PyVal.is_date invoice_date) then
      [plain_failure "date_format" "/invoice_date"
         (msg "Invalid date format: {}" [invoice_date]) (msg "Use YYYY-MM-DD format" [])]
    else [] in
  let on_due_date :=
    match truthy_value (Invoice.due_date invoice) with
    | Some due =>
        match due, invoice_date with
        | VDate d, VDate i =>
            if Date.lt d i then
              [plain_failure "date_logic" "/due_date"
                 (msg "Due date ({}) cannot be before invoice date ({})" [due; invoice_date])
                 (msg "Adjust due date to be after invoice date" [])]
            else []
        | VDate _, _ => []
        | _, _ =>
            [plain_failure "date_format" "/due_date"
               (msg "Invalid due date format: {}" [due]) (msg "Use YYYY-MM-DD format" [])]
        end
    | None => []
    end in
  (on_invoice_date ++ on_due_date)%list.

(** The amount fields the currency and rounding rules walk through. *)
Definition amount_fields (amounts : Amounts.t) : list (string * option FieldValue.t) :=
  [ ("grand_total", Some (Amounts.grand_total amounts));
    ("subtotal", Amounts.subtotal amounts);
    ("tax_amount", Amounts.tax_amount amounts);
    ("discount", Amounts.discount amounts);
    ("shipping", Amounts.shipping amounts) ].

(** [value not in ['EUR', ...]] *)
Definition known_currency (v : pyval) : bool :=
  match v with
  | VStr s => existsb (String.eqb s) CurrencyCode
  | _ => false
  end.

Definition _validate_currency (invoice : Invoice.t) : list Failure.t :=
  let amounts := Invoice.amounts invoice in
  let currency := FieldValue.value (Amounts.currency amounts) in
  let on_code :=
    if negb (PyVal.truthy currency) then
      [plain_failure "required_currency" "/amounts/currency"
         (msg "Currency is required" []) (msg "Provide a valid ISO 4217 currency code" [])]
    else if negb (known_currency currency) then
      [plain_failure "currency_format" "/amounts/currency"
         (msg "Invalid currency code: {}" [currency])
         (msg "Use valid ISO 4217 currency code (EUR, USD, GBP, etc.)" [])]
    else [] in
  let on_amounts :=
    flat_map (fun '(field_name, field_value) =>
      match given_value field_value with
      | Some v =>
          try_except
            (amount <- PyVal.to_decimal v ;;
             negative <- Dec.lt amount zero ;;
             Ok (if negative then
                   [plain_failure "non_negative_amount" ("/amounts/" ++ field_name)
                      (msg "{} cannot be negative: {}" [VStr field_name; VDecimal amount])
                      (msg "Adjust {} to be non-negative" [VStr field_name])]
                 else []))
            (fun _ =>
               [plain_failure "amount_format" ("/amounts/" ++ field_name)
                  (msg "Invalid amount format: {}" [v])
                  (msg "Use valid decimal format for {}" [VStr field_name])])
      | None => []
      end) (amount_fields amounts) in
  (on_code ++ on_amounts)%list.

Definition _validate_duplicate_hash (invoice : Invoice.t) : list Failure.t :=
  match Invoice.duplicate_hash invoice with
  | Some (String _ _) => []
  | _ =>
      [plain_failure "duplicate_hash" "/duplicate_hash"
         (msg "Duplicate hash is missing" []) (msg "Generate duplicate hash for tracking" [])]
  end.

Definition _validate_tax_coherence (th : ProcessingThresholds.t) (invoice : Invoice.t)
  : list Failure.t :=
  let amounts := Invoice.amounts invoice in
  try_except
    (match truthy_value (Amounts.tax_rate amounts), truthy_value (Amounts.tax_amount amounts) with
     | Some rate, Some amount =>
         tax_rate <- PyVal.to_float rate ;;
         tax_amount <- PyVal.to_decimal amount ;;
         match truthy_value (Amounts.subtotal amounts) with
         | Some sub =>
             subtotal <- PyVal.to_decimal sub ;;
             fraction <- PyVal.to_decimal (VFloat (tax_rate / 100)%float) ;;
             expected_tax <- Dec.mul subtotal fraction ;;
             nonzero <- Dec.ne expected_tax zero ;;
             if nonzero then
               tax_error <- relative_error tax_amount expected_tax expected_tax ;;
               too_far <- Dec.gt_float tax_error (ProcessingThresholds.arithmetic_tolerance th) ;;
               if too_far then
                 e <- Dec.to_float expected_tax ;;
                 a <- Dec.to_float tax_amount ;;
                 Ok [Failure.mk "tax_coherence" "/amounts/tax_amount"
                       (msg "Tax amount ({}) does not match tax rate ({}%) applied to subtotal. Expected: {}"
                            [VDecimal tax_amount; VFloat tax_rate; VDecimal expected_tax])
                       (Some e) (Some a) None
                       (msg "Adjust tax amount to {} or verify tax rate calculation"
                            [VDecimal expected_tax])]
               else Ok []
             else Ok []
         | None => Ok []
         end
     | _, _ => Ok []
     end)
    (fun e =>
       [exception_failure "tax_coherence" "/amounts"
          "Tax coherence validation failed: {}" "Check tax rate and amount formats" e]).

(** [len(str(amount).split('.')[-1]) if '.' in str(amount) else 0] *)
Definition decimal_places (amount : Dec.t) : Z :=
  let s := Dec.to_string amount in
  if PyStr.contains "." s
  then Z.of_nat (PyStr.len (last (PyStr.split "." s) ""))
  else 0.

Definition _validate_rounding_policy (th : ProcessingThresholds.t) (invoice : Invoice.t)
  : list Failure.t :=
  let places := ProcessingThresholds.rounding_decimal_places th in
  flat_map (fun '(field_name, field_value) =>
    match given_value field_value with
    | Some v =>
        try_except
          (amount <- PyVal.to_decimal v ;;
           Ok (if places <? decimal_places amount then
                 [plain_failure "rounding_policy" ("/amounts/" ++ field_name)
                    (msg "{} has too many decimal places: {} (max: {})"
                         [VStr field_name; VInt (decimal_places amount); VInt places])
                    (msg "Round {} to {} decimal places" [VStr field_name; VInt places])]
               else []))
          (fun _ => [])
    | None => []
    end) (amount_fields (Invoice.amounts invoice)).

Definition validate_invoice (th : ProcessingThresholds.t) (invoice : Invoice.t)
  : RuleReport.t :=
  let failures :=
    (_validate_arithmetic th invoice
     ++ _validate_line_sum th invoice
     ++ _validate_dates invoice
     ++ _validate_currency invoice
     ++ _validate_duplicate_hash invoice
     ++ _validate_tax_coherence th invoice
     ++ _validate_rounding_policy th invoice)%list in
  let warnings := [] in
  let passed := Nat.eqb (List.length failures) 0 in
  RuleReport.mk passed failures warnings.

(** The module-level [validate_invoice_rules]: the engine with the default
    thresholds. *)
Definition validate_invoice_rules (invoice : Invoice.t) : RuleReport.t :=
  validate_invoice ProcessingThresholds.default invoice.

End RulesEngine.

(** ** The LLM repair gateway ([llm/fallback.py]) *)

Module LLMFallback.

Local Open Scope py_scope.

(** [d[key]] on the items of a dict (JSON objects have unique keys). *)
Fixpoint dict_get (items : list (string * pyval)) (key : string) : option pyval :=
  match items with
  | [] => None
  | (k, v) :: tl => if String.eqb k key then Some v else dict_get tl key
  end.

(** A required [str] field. *)
Definition str_field (items : list (string * pyval)) (key : string) : result string :=
  match dict_get items key with
  | Some (VStr s) => Ok s
  | _ => Raise ValidationError
  end.

(** [JsonPatch] called on the unpacked [patch_dict]: [op], [path], [value], [rationale] are
    required, [cites_bbox] is a list of [str] and defaults to the empty
    list; keys that are no fields are ignored. *)
Definition make_patch (patch_dict : pyval) : result JsonPatch.t :=
  match patch_dict with
  | VDict items =>
      op <- str_field items "op" ;;
      path <- str_field items "path" ;;
      value <- match dict_get items "value" with
               | Some v => Ok v
               | None => Raise ValidationError
               end ;;
      rationale <- str_field items "rationale" ;;
      cites_bbox <-
        match dict_get items "cites_bbox" with
        | None => Ok []
        | Some (VList l) =>
            map_result (fun v => match v with VStr s => Ok s | _ => Raise ValidationError end) l
        | Some _ => Raise ValidationError
        end ;;
      Ok (JsonPatch.mk op path value rationale cites_bbox)
  | _ => Raise TypeError                        (* unpacking what is no mapping *)
  end.

(** [_parse_llm_response].  [loaded] is [json.loads(response)], raising on
    text that is no JSON. *)
Definition _parse_llm_response (loaded : result pyval) : option (list JsonPatch.t) :=
  match loaded with
  | Raise _ => None
  | Ok (VList patch_data) =>
      Some (flat_map (fun patch_dict =>
              match make_patch patch_dict with
              | Ok patch => [patch]
              | Raise _ => []
              end) patch_data)
  | Ok _ => None
  end.

(** [_validate_patch]; the invoice argument is not used by the source. *)
Definition _validate_patch (patch : JsonPatch.t) : bool :=
  if negb (PyStr.startswith "/" (JsonPatch.path patch)) then false
  else if negb (existsb (String.eqb (JsonPatch.op patch)) ["replace"; "add"]) then false
  else if String.eqb (JsonPatch.rationale patch) ""
          || (PyStr.len (PyStr.strip (JsonPatch.rationale patch)) <? 10)%nat then false
  else match JsonPatch.cites_bbox patch with
       | [] => false
       | _ => true
       end.

(** [propose_patch], given what the call to the model produced: [call] is
    [Raise] when the call itself failed, and otherwise what [json.loads]
    makes of the response text. *)
Definition propose_patch (call : result (result pyval)) : option (list JsonPatch.t) :=
  match call with
  | Raise _ => None
  | Ok loaded =>
      match _parse_llm_response loaded with
      | Some (p :: tl) => Some (p :: tl)
      | _ => Some []
      end
  end.

End LLMFallback.

(** ** The orchestrator ([pipeline/route.py]) *)

Module ProcessingPipeline.

Local Open Scope py_scope.

Record decision : Type := mk_decision { action : string; reason : string }.

Definition _check_field_confidence (th : ProcessingThresholds.t) (invoice : Invoice.t) : bool :=
  let required_fields :=
    [ Invoice.invoice_number invoice;
      Invoice.invoice_date invoice;
      Vendor.name (Invoice.vendor invoice);
      Amounts.grand_total (Invoice.amounts invoice);
      Amounts.currency (Invoice.amounts invoice) ] in
  forallb (fun field =>
    negb (PyFloat.lt (FieldValue.confidence field)
            (ProcessingThresholds.field_confidence_threshold th))) required_fields.

Definition _check_category_confidence (th : ProcessingThresholds.t) (invoice : Invoice.t)
  : bool :=
  forallb (fun line_item =>
    match LineItem.category_confidence line_item with
    | Some c =>
        negb (PyFloat.is_true c
              && PyFloat.lt c (ProcessingThresholds.category_confidence_threshold th))
    | None => true
    end) (Invoice.line_items invoice).

Definition fixable_rules : list string :=
  ["arithmetic_balance"; "line_sum_subtotal"; "line_sum_tax"; "date_format";
   "currency_format"; "tax_coherence"; "rounding_policy"].

Definition is_fixable (failure : Failure.t) : bool :=
  existsb (String.eqb (Failure.rule failure)) fixable_rules.

(** Returns on the first failure whose rule is fixable. *)
Fixpoint _has_fixable_rules_from (failures : list Failure.t) : bool :=
  match failures with
  | [] => false
  | failure :: tl => if is_fixable failure then true else _has_fixable_rules_from tl
  end.

Definition _has_fixable_rules (rule_report : RuleReport.t) : bool :=
  _has_fixable_rules_from (RuleReport.failures rule_report).

Definition _make_processing_decision (th : ProcessingThresholds.t) (invoice : Invoice.t)
  (rule_report : RuleReport.t) : decision :=
  let field_conf_ok := _check_field_confidence th invoice in
  let rules_ok := RuleReport.passed rule_report in
  let category_ok := _check_category_confidence th invoice in
  if field_conf_ok && rules_ok && category_ok then
    mk_decision "auto_post" "All checks passed"
  else if negb rules_ok && _has_fixable_rules rule_report then
    mk_decision "llm_fallback" "Rules failed but fixable"
  else
    mk_decision "needs_review" "Manual review required".

Definition set_field_value (v : pyval) (o : option FieldValue.t) : result (option FieldValue.t) :=
  match o with
  | Some f => Ok (Some (FieldValue.set_value v f))
  | None => Raise AttributeError                (* [None.value = ...] *)
  end.

Definition _apply_replace_patch (invoice : Invoice.t) (patch : JsonPatch.t) : result Invoice.t :=
  let path_parts := PyStr.split "/" (PyStr.strip_by (PyStr.is_char "/") (JsonPatch.path patch)) in
  let v := JsonPatch.value patch in
  let a := Invoice.amounts invoice in
  let first := nth 0 path_parts "" in
  if String.eqb first "amounts" then
    match nth_error path_parts 1 with
    | None => Raise IndexError
    | Some second =>
        if String.eqb second "grand_total" then
          Ok (Invoice.set_amounts
                (Amounts.mk (Amounts.subtotal a) (Amounts.tax_amount a) (Amounts.tax_rate a)
                   (Amounts.discount a) (Amounts.shipping a)
                   (FieldValue.set_value v (Amounts.grand_total a)) (Amounts.currency a))
                invoice)
        else if String.eqb second "subtotal" then
          subtotal <- set_field_value v (Amounts.subtotal a) ;;
          Ok (Invoice.set_amounts
                (Amounts.mk subtotal (Amounts.tax_amount a) (Amounts.tax_rate a)
                   (Amounts.discount a) (Amounts.shipping a)
                   (Amounts.grand_total a) (Amounts.currency a))
                invoice)
        else if String.eqb second "tax_amount" then
          tax_amount <- set_field_value v (Amounts.tax_amount a) ;;
          Ok (Invoice.set_amounts
                (Amounts.mk (Amounts.subtotal a) tax_amount (Amounts.tax_rate a)
                   (Amounts.discount a) (Amounts.shipping a)
                   (Amounts.grand_total a) (Amounts.currency a))
                invoice)
        else Ok invoice
    end
  else if String.eqb first "invoice_number" then
    Ok (Invoice.set_invoice_number (FieldValue.set_value v (Invoice.invoice_number invoice)) invoice)
  else if String.eqb first "invoice_date" then
    Ok (Invoice.set_invoice_date (FieldValue.set_value v (Invoice.invoice_date invoice)) invoice)
  else Ok invoice.

Definition _apply_add_patch (invoice : Invoice.t) (patch : JsonPatch.t) : result Invoice.t :=
  Ok invoice.

(** [_apply_patch_to_invoice]: the invoice after the patches; a patch that
    raises is logged and leaves the invoice as it was. *)
Definition _apply_patch_to_invoice (invoice : Invoice.t) (llm_patch : list JsonPatch.t)
  : Invoice.t :=
  fold_left (fun invoice patch =>
    try_except
      (if String.eqb (JsonPatch.op patch) "replace" then _apply_replace_patch invoice patch
       else if String.eqb (JsonPatch.op patch) "add" then _apply_add_patch invoice patch
       else Ok invoice)
      (fun _ => invoice)) llm_patch invoice.

Definition _create_processing_result (invoice : Invoice.t) (rule_report : RuleReport.t)
  (llm_patch : option (list JsonPatch.t)) (status : string) : ProcessingResult.t :=
  ProcessingResult.mk invoice rule_report llm_patch invoice [] status.

(** [_classify_line_items], with the classifier
    [predict_line_item_category] as [predict]. *)
Definition _classify_line_items (predict : pyval -> pyval -> string * float)
  (invoice : Invoice.t) : Invoice.t :=
  let vendor_name :=
    let v := FieldValue.value (Vendor.name (Invoice.vendor invoice)) in
    if PyVal.truthy v then v else VNone in
  Invoice.set_line_items
    (map (fun line_item =>
       let d := LineItem.description line_item in
       if PyVal.truthy (FieldValue.value d) then
         let '(category, confidence) := predict (FieldValue.value d) vendor_name in
         LineItem.mk d (LineItem.quantity line_item) (LineItem.unit_price line_item)
           (LineItem.total line_item) (LineItem.tax_amount line_item)
           (LineItem.tax_rate line_item) (Some category) (Some confidence)
       else line_item) (Invoice.line_items invoice))
    invoice.

(** Stage 5 of [_process_invoice_async], from the decision to the result.
    [llm] is [_apply_llm_fallback]: what the gateway returns for this
    invoice and report, [None] when the call failed. *)
Definition decide_and_finish (th : ProcessingThresholds.t)
  (llm : Invoice.t -> RuleReport.t -> option (list JsonPatch.t))
  (invoice : Invoice.t) (rule_report : RuleReport.t) : ProcessingResult.t :=
  let decision := _make_processing_decision th invoice rule_report in
  if String.eqb (action decision) "auto_post" then
    _create_processing_result invoice rule_report None "auto_posted"
  else if String.eqb (action decision) "llm_fallback" then
    match llm invoice rule_report with
    | Some (p :: tl) =>
        let llm_patch := p :: tl in
        let invoice := _apply_patch_to_invoice invoice llm_patch in
        let rule_report := RulesEngine.validate_invoice_rules invoice in
        if RuleReport.passed rule_report then
          _create_processing_result invoice rule_report (Some llm_patch) "auto_posted"
        else
          _create_processing_result invoice rule_report (Some llm_patch) "needs_review"
    | _ => _create_processing_result invoice rule_report None "needs_review"
    end
  else
    _create_processing_result invoice rule_report None "needs_review".

(** How a job ends: [active_jobs[job_id]] holds the result and the status
    [completed], or the status [failed] and the error. *)
Inductive job : Type :=
| Completed (result_ : ProcessingResult.t)
| Failed (error : exn).

(** [_process_invoice_async] from the tokens of the OCR stage on.  The
    environment of the job: the extractor's cache and the clock, the
    classifier, the gateway. *)
Definition _process_invoice_async (th : ProcessingThresholds.t)
  (cache : DeterministicExtractor.vendor_cache) (now : Z)
  (predict : pyval -> pyval -> string * float)
  (llm : Invoice.t -> RuleReport.t -> option (list JsonPatch.t))
  (tokens : list Token.t) (filename processing_id : string)
  : job * DeterministicExtractor.vendor_cache :=
  match tokens with
  | [] => (Failed Exception_, cache)            (* "OCR failed - no text extracted" *)
  | _ =>
      let '(extracted, cache') :=
        DeterministicExtractor.extract_invoice cache now tokens filename processing_id in
      match extracted with
      | Raise e => (Failed e, cache')
      | Ok invoice =>
          let invoice := _classify_line_items predict invoice in
          let rule_report := RulesEngine.validate_invoice_rules invoice in
          (Completed (decide_and_finish th llm invoice rule_report), cache')
      end
  end.

End ProcessingPipeline.

(** ** The specification's own notions

    Definitions that follow the words of the specification, to compare the
    code with. *)

Module Spec.




(** "clamped to [0,1]" *)
Definition clamp01 (x : float) : float := PyFloat.min 1 (PyFloat.max 0 x).



(** "score = min(conf_label, conf_cand) * max(0.1, 1 - d/500) * 0.8 *
    (1 if type-match else 0.3), clamped to [0,1]" *)
Definition score (conf_label conf_cand d : float) (type_match : bool) : float :=
  clamp01 (PyFloat.min conf_label conf_cand * PyFloat.max 0.1 (1 - d / 500) * 0.8
           * (if type_match then 1 else 0.3))%float.

(** A token carries a symbol or code of the currency table. *)
Definition mentions_currency (token : Token.t) : bool :=
  existsb (fun entry : string * list string =>
             existsb (fun symbol => PyStr.contains symbol (Token.text token)) (snd entry))
          DeterministicExtractor.currency_patterns.

(** The field a matching token yields. *)
Definition currency_field (code : string) (token : Token.t) : FieldValue.t :=
  FieldValue.mk (VStr code) 0.9
    [Evidence.mk (Token.page token) (Token.bbox_list token) (Token.text token)
       (Token.confidence token)].

Definition found (code : string) (token : Token.t) : DeterministicExtractor.best :=
  (Some (currency_field code token), 0.9%float).

Definition symbol_in (token : Token.t) (symbol : string) : bool :=
  PyStr.contains symbol (Token.text token).

(** The first currency of [entries] that [token] mentions. *)
Definition first_currency (token : Token.t) (entries : list (string * list string))
  : option (string * list string) :=
  find (fun entry => existsb (symbol_in token) (snd entry)) entries.

(** The codes of the currency table. *)
Definition table_codes : list string := map fst DeterministicExtractor.currency_patterns.

(** The zones the extractor caches are always empty: none of the four
    vendor fields it caches has label patterns. *)
Definition empty_zones : DeterministicExtractor.zones :=
  DeterministicExtractor.mk_zones None None None None.

Definition clean (cache : DeterministicExtractor.vendor_cache) : Prop :=
  Forall (fun entry => snd entry = empty_zones) cache.

(** An outcome of extraction with the time stamp set to [now]. *)
Definition stamp (now : Z) (r : result Invoice.t) : result Invoice.t :=
  match r with
  | Ok invoice => Ok (Invoice.set_created_at now invoice)
  | Raise e => Raise e
  end.

(** "confidence in [0,1]" *)
Definition confidence_in_range (fv : FieldValue.t) : Prop :=
  PrimFloat.leb 0 (FieldValue.confidence fv) = true
  /\ PrimFloat.leb (FieldValue.confidence fv) 1 = true.

Definition optional (o : option FieldValue.t) : list FieldValue.t :=
  match o with
  | Some fv => [fv]
  | None => []
  end.

Definition line_item_fields (item : LineItem.t) : list FieldValue.t :=
  (LineItem.description item :: optional (LineItem.quantity item)
   ++ optional (LineItem.unit_price item) ++ optional (LineItem.total item)
   ++ optional (LineItem.tax_amount item) ++ optional (LineItem.tax_rate item))%list.

(** Every FieldValue inside an invoice. *)
Definition invoice_fields (invoice : Invoice.t) : list FieldValue.t :=
  let v := Invoice.vendor invoice in
  let a := Invoice.amounts invoice in
  (Invoice.invoice_number invoice :: Invoice.invoice_date invoice
   :: optional (Invoice.due_date invoice)
   ++ Vendor.name v :: optional (Vendor.address v) ++ optional (Vendor.tax_id v)
   ++ optional (Vendor.phone v) ++ optional (Vendor.email v)
   ++ optional (Amounts.subtotal a) ++ optional (Amounts.tax_amount a)
   ++ optional (Amounts.tax_rate a) ++ optional (Amounts.discount a)
   ++ optional (Amounts.shipping a) ++ Amounts.grand_total a :: Amounts.currency a
   :: flat_map line_item_fields (Invoice.line_items invoice)
   ++ optional (Invoice.notes invoice) ++ optional (Invoice.payment_terms invoice)
   ++ optional (Invoice.po_number invoice))%list.

(** "if evidence is empty then confidence <= 0.5 (unconfirmed)" *)
Definition unconfirmed_bound (fv : FieldValue.t) : Prop :=
  FieldValue.evidence fv = [] -> PrimFloat.leb (FieldValue.confidence fv) 0.5 = true.


(** What holds of the fields of a completed job. *)
Definition field_ok (fv : FieldValue.t) : Prop :=
  confidence_in_range fv /\ unconfirmed_bound fv.

(** The best match of a lookup is such a field. *)
Definition best_ok (st : DeterministicExtractor.best) : Prop :=
  forall fv, fst st = Some fv -> field_ok fv.

(** An optional field, when there, is such a field. *)
Definition optional_ok (o : option FieldValue.t) : Prop :=
  Forall field_ok (optional o).


(** An earlier call of [extract_invoice] on the same extractor. *)
Record call : Type := mk_call {
  call_now : Z;
  call_tokens : list Token.t;
  call_filename : string;
  call_processing_id : string
}.

(** The vendor cache of an extractor that has served the calls of
    [history], oldest first, since it was created. *)
Definition cache_after (history : list call) : DeterministicExtractor.vendor_cache :=
  fold_left (fun cache k =>
    snd (DeterministicExtractor.extract_invoice cache (call_now k) (call_tokens k)
           (call_filename k) (call_processing_id k))) history [].

(** Extraction followed by validation, as the pipeline chains them. *)
Definition extract_and_validate (history : list call) (now : Z) (tokens : list Token.t)
  (filename processing_id : string) : result (Invoice.t * RuleReport.t) :=
  match fst (DeterministicExtractor.extract_invoice (cache_after history) now tokens
               filename processing_id) with
  | Ok invoice => Ok (invoice, RulesEngine.validate_invoice_rules invoice)
  | Raise e => Raise e
  end.

End Spec.

(** ** Sample data *)

Module Sample.

Definition field (v : pyval) (c : float) : FieldValue.t := FieldValue.mk v c [].

Definition dec (coef : N) (exp : Z) : pyval := VDecimal (Dec.Fin false coef exp).

Definition vendor : Vendor.t :=
  Vendor.mk (field (VStr "ACME GmbH") 0.9) None None None None (Some "layout").

(** An invoice with the given amounts and dates and no line items. *)
Definition invoice (subtotal tax_amount : option FieldValue.t) (grand_total : pyval)
  (invoice_date : pyval) (due_date : option FieldValue.t) : Invoice.t :=
  Invoice.mk (field (VStr "INV-2024-001") 0.9) (field invoice_date 0.9) due_date vendor
    (Amounts.mk subtotal tax_amount None None None (field grand_total 0.9)
       (field (VStr "EUR") 0.9))
    [] None None None "job" 0 "invoice.pdf" "deterministic" false false (Some "hash").

Definition march (day : Z) : pyval := VDate (Date.mk 2024 3 day).

(** Grand total 100.00 and tax 19.00, no subtotal. *)
Definition no_subtotal : Invoice.t :=
  invoice None (Some (field (dec 1900 (-2)) 0.9)) (dec 10000 (-2)) (march 15) None.



Definition round_total : JsonPatch.t :=
  JsonPatch.mk "replace" "/amounts/grand_total" (VStr "100.12")
    "Grand total text shows 100.12 on the page." ["p0#bx_1234"].

(** The response [[{"op": "remove", "path": "amounts", "value": 1,
    "rationale": "x"}]] once loaded. *)
Definition bad_response : pyval :=
  VList [VDict [("op", VStr "remove"); ("path", VStr "amounts"); ("value", VInt 1);
                ("rationale", VStr "x")]].

Definition token (text : string) (confidence x y : float) : Token.t :=
  Token.mk text confidence 0 (x, y, (x + 60)%float, (y + 10)%float).

(** A one-page document: labels on the left, values on the right. *)
Definition tokens : list Token.t :=
  [ token "Vendor" 0.99 10 10; token "ACME GmbH" 0.98 100 10;
    token "Invoice" 0.99 10 40; token "20240001" 0.97 100 40;
    token "Date" 0.99 10 70; token "2024-03-15" 0.96 100 70;
    token "Total" 0.99 10 100; token "100.00" 0.95 100 100;
    token "EUR" 0.99 200 100 ].

(** The same document with one line, read with confidence 0. *)
Definition tokens_with_line : list Token.t :=
  (tokens ++ [token "Widget A100" 0 10 400])%list.

End Sample.

(** ** Notions used in the properties of the code *)

(** A token that [_find_line_item_tokens] takes into a group. *)
Definition looks (t : Token.t) : bool :=
  DeterministicExtractor._looks_like_line_item (Token.text t).

(** The pattern [^\d+(\.\d+)?$] of [_extract_line_quantity]. *)
Definition quantity_regex : Re.regex :=
  Re.seq [Re.Plus PyStr.is_digit;
          Re.Opt (Re.Cat (Re.chr ".") (Re.Plus PyStr.is_digit)); Re.Eol].

(** A failure whose rule is one of [names] and whose path is a JSON
    pointer. *)
Definition rule_in (names : list string) (f : Failure.t) : Prop :=
  In (Failure.rule f) names /\ PyStr.startswith "/" (Failure.path f) = true.

(** The rules the engine can report. *)
Definition rule_names : list string :=
  ["arithmetic_balance"; "line_sum_subtotal"; "line_sum_tax"; "line_sum";
   "required_date"; "date_format"; "date_logic";
   "required_currency"; "currency_format"; "non_negative_amount"; "amount_format";
   "duplicate_hash"; "tax_coherence"; "rounding_policy"].

(** The kinds of values a field holds. *)
Definition is_text (v : pyval) : Prop := exists s, v = VStr s.

Definition is_calendar_date (v : pyval) : Prop :=
  exists d, v = VDate d /\ Date.make (Date.year d) (Date.month d) (Date.day d) = Ok d.

Definition is_amount (v : pyval) : Prop :=
  exists neg coef exp, v = VDecimal (Dec.Fin neg coef exp) /\ exp <= 0.

Definition is_currency_code (v : pyval) : Prop :=
  exists code, v = VStr code /\ In code CurrencyCode.

Definition none_or (P : pyval -> Prop) (v : pyval) : Prop := v = VNone \/ P v.

Definition optional_value (P : pyval -> Prop) (o : option FieldValue.t) : Prop :=
  match o with
  | Some fv => none_or P (FieldValue.value fv)
  | None => True
  end.

Definition best_value (P : pyval -> Prop) (st : DeterministicExtractor.best) : Prop :=
  forall fv, fst st = Some fv -> P (FieldValue.value fv).


(** The invoice with the five values a patch can write erased. *)
Definition blank (f : FieldValue.t) : FieldValue.t := FieldValue.set_value VNone f.

Definition blank_patchable (i : Invoice.t) : Invoice.t :=
  let a := Invoice.amounts i in
  Invoice.set_invoice_number (blank (Invoice.invoice_number i))
    (Invoice.set_invoice_date (blank (Invoice.invoice_date i))
       (Invoice.set_amounts
          (Amounts.mk (option_map blank (Amounts.subtotal a))
             (option_map blank (Amounts.tax_amount a)) (Amounts.tax_rate a)
             (Amounts.discount a) (Amounts.shipping a)
             (blank (Amounts.grand_total a)) (Amounts.currency a))
          i)).

(** What [json.loads] can return: no date and no Decimal inside. *)
Fixpoint json (v : pyval) : bool :=
  match v with
  | VDate _ | VDecimal _ => false
  | VList l => forallb json l
  | VDict items => forallb (fun kv => json (snd kv)) items
  | _ => true
  end.





(** ** The category classifier ([ml/category.py]) *)

Module CategoryClassifier.

(** [self.patterns], in the order of the dict. *)
Definition patterns : list (string * list string) :=
  [ ("office_supplies",
     ["\b(pen|pencil|paper|notebook|folder|stapler|clip|envelope|stamp|ink|toner|printer|scanner|desk|chair|office)\b";
      "\b(مكتب|ورق|قلم|مجلد|مشبك|مظروف|طابع|حبر|طابعة|ماسح|مكتب|كرسي)\b"]);
    ("software",
     ["\b(software|license|subscription|saas|cloud|microsoft|adobe|google|aws|azure|slack|zoom|teams)\b";
      "\b(برنامج|ترخيص|اشتراك|سحابي|مايكروسوفت|أدوبي|جوجل|أمازون|أزور|سلاك|زووم|تيمز)\b"]);
    ("travel",
     ["\b(travel|flight|hotel|taxi|uber|lyft|car rental|gas|fuel|parking|toll|airline|train|bus)\b";
      "\b(سفر|طيران|فندق|تاكسي|أوبر|ليفت|إيجار سيارة|بنزين|وقود|موقف|طريق|قطار|حافلة)\b"]);
    ("meals",
     ["\b(meal|food|restaurant|lunch|dinner|breakfast|catering|coffee|tea|snack|dining)\b";
      "\b(وجبة|طعام|مطعم|غداء|عشاء|فطور|تجهيز|قهوة|شاي|وجبة خفيفة|طعام)\b"]);
    ("utilities",
     ["\b(electricity|water|gas|internet|phone|electric|utility|power|energy|broadband)\b";
      "\b(كهرباء|ماء|غاز|إنترنت|هاتف|كهربائي|مرافق|طاقة|طاقة|نطاق عريض)\b"]);
    ("rent",
     ["\b(rent|lease|office|space|facility|building|warehouse|storage|property|real estate)\b";
      "\b(إيجار|عقد|مكتب|مساحة|مرفق|مبنى|مستودع|تخزين|عقار|عقارات)\b"]);
    ("marketing",
     ["\b(marketing|advertising|promotion|campaign|social media|facebook|instagram|twitter|linkedin|google ads)\b";
      "\b(تسويق|إعلان|ترويج|حملة|وسائل التواصل|فيسبوك|إنستغرام|تويتر|لينكد إن|إعلانات جوجل)\b"]);
    ("professional_services",
     ["\b(consulting|legal|accounting|audit|lawyer|accountant|consultant|advisor|expert|specialist)\b";
      "\b(استشارات|قانوني|محاسبة|مراجعة|محامي|محاسب|مستشار|خبير|متخصص)\b"]);
    ("equipment",
     ["\b(computer|laptop|server|monitor|keyboard|mouse|hardware|equipment|machine|device|tool)\b";
      "\b(كمبيوتر|لابتوب|خادم|شاشة|لوحة مفاتيح|فأرة|أجهزة|معدات|آلة|جهاز|أداة)\b"]);
    ("training",
     ["\b(training|course|education|seminar|workshop|conference|learning|certification|skill|development)\b";
      "\b(تدريب|دورة|تعليم|ندوة|ورشة|مؤتمر|تعلم|شهادة|مهارة|تطوير)\b"]);
    ("insurance",
     ["\b(insurance|coverage|policy|premium|claim|liability|health|property|business|auto)\b";
      "\b(تأمين|تغطية|بوليصة|قسط|مطالبة|مسؤولية|صحة|ممتلكات|عمل|سيارة)\b"]);
    ("legal",
     ["\b(legal|law|court|litigation|contract|agreement|compliance|regulation|patent|trademark)\b";
      "\b(قانوني|قانون|محكمة|تقاضي|عقد|اتفاق|امتثال|تنظيم|براءة اختراع|علامة تجارية)\b"]);
    ("taxes",
     ["\b(tax|vat|gst|income tax|property tax|sales tax|tax return|filing|audit|penalty)\b";
      "\b(ضريبة|ضريبة القيمة المضافة|ضريبة الدخل|ضريبة الممتلكات|ضريبة المبيعات|إقرار ضريبي|تقديم|مراجعة|غرامة)\b"]);
    ("banking",
     ["\b(bank|banking|loan|credit|interest|fee|charge|transfer|payment|finance|financial)\b";
      "\b(بنك|مصرف|قرض|ائتمان|فائدة|رسوم|تحويل|دفع|مالي|مالية)\b"]);
    ("telecommunications",
     ["\b(phone|mobile|telecom|internet|broadband|data|roaming|sim|network|connection)\b";
      "\b(هاتف|جوال|اتصالات|إنترنت|نطاق عريض|بيانات|تجوال|شريحة|شبكة|اتصال)\b"]);
    ("maintenance",
     ["\b(maintenance|repair|service|fix|upgrade|installation|cleaning|janitorial|plumbing|electrical)\b";
      "\b(صيانة|إصلاح|خدمة|إصلاح|ترقية|تركيب|تنظيف|حراسة|سباكة|كهربائية)\b"]) ].

(** [float(len(l))] *)
Definition float_of_len {A : Type} (l : list A) : float :=
  PyFloat.of_ratio false (N.of_nat (List.length l)) 1.

(** The score and the number of matches of one category. *)
Definition count_matches (search : string -> string -> bool) (description : string)
  (pats : list string) : float * nat :=
  fold_left (fun (st : float * nat) pattern =>
    let '(score, matches) := st in
    if search pattern description then ((score + 1.0)%float, S matches) else st)
    pats (0.0%float, O).

(** The body of the loop over the categories. *)
Definition try_category (search : string -> string -> bool) (description : string)
  (st : string * float) (entry : string * list string) : string * float :=
  let '(best_category, best_score) := st in
  let '(category, pats) := entry in
  let '(score, matches) := count_matches search description pats in
  if (0 <? matches)%nat then
    let normalized_score := (score / float_of_len pats)%float in
    if PyFloat.gt normalized_score best_score then (category, normalized_score) else st
  else st.

(** [_predict_with_patterns]; [search pattern description] tells whether
    [re.search(pattern, description, re.IGNORECASE)] finds a match. *)
Definition _predict_with_patterns (search : string -> string -> bool) (description : string)
  : string * float :=
  fold_left (try_category search description) patterns ("other", 0.0%float).

(** [predict_category].  [ml] is [_predict_with_ml] when the classifier is
    trained and holds a model and a vectorizer, and [None] otherwise. *)
Definition predict_category (ml : option (string -> option string -> string * float))
  (search : string -> string -> bool) (description : string) (vendor_name : option string)
  : string * float :=
  if String.eqb description "" then ("other", 0.0%float)
  else
    let description := PyStr.strip (PyStr.lower description) in
    let pattern_confidence := _predict_with_patterns search description in
    if PyFloat.gt (snd pattern_confidence) 0.7 then pattern_confidence
    else
      let from_model :=
        match ml with
        | Some _predict_with_ml =>
            let ml_confidence := _predict_with_ml description vendor_name in
            if PyFloat.gt (snd ml_confidence) 0.6 then Some ml_confidence else None
        | None => None
        end in
      match from_model with
      | Some ml_confidence => ml_confidence
      | None =>
          if PyFloat.gt (snd pattern_confidence) 0.3 then pattern_confidence
          else ("other", 0.1%float)
      end.

End CategoryClassifier.

(** ** The export ([exports/accounting.py]) *)

Module ExportRow.

Record t : Type := mk {
  field_name : string;
  field_value : pyval;
  confidence : float;
  evidence_page : option Z;
  evidence_bbox : option (list float);
  extraction_method : string;
  human_reviewed : bool
}.

End ExportRow.

Module AccountingExporter.

(** The row of a field: its value and confidence, the page and the bbox of
    its first piece of evidence, the provenance of the invoice. *)
Definition field_row (invoice : Invoice.t) (name : string) (f : FieldValue.t) : ExportRow.t :=
  ExportRow.mk name (FieldValue.value f) (FieldValue.confidence f)
    (match FieldValue.evidence f with e :: _ => Some (Evidence.page e) | [] => None end)
    (match FieldValue.evidence f with e :: _ => Some (Evidence.bbox e) | [] => None end)
    (Invoice.extraction_method invoice) (Invoice.human_reviewed invoice).

(** [if field: rows.append(...)] *)
Definition optional_row (invoice : Invoice.t) (name : string) (o : option FieldValue.t)
  : list ExportRow.t :=
  match o with
  | Some f => [field_row invoice name f]
  | None => []
  end.

(** The rows of the line item at index [i]. *)
Definition line_item_rows (invoice : Invoice.t) (i : nat) (line_item : LineItem.t)
  : list ExportRow.t :=
  let name (suffix : string) := "line_item_" ++ PyStr.of_N (N.of_nat (i + 1)) ++ suffix in
  ([field_row invoice (name "_description") (LineItem.description line_item)]
   ++ optional_row invoice (name "_quantity") (LineItem.quantity line_item)
   ++ optional_row invoice (name "_unit_price") (LineItem.unit_price line_item)
   ++ optional_row invoice (name "_total") (LineItem.total line_item)
   ++ match LineItem.category line_item with
      | Some category =>
          if String.eqb category "" then []
          else
            [ExportRow.mk (name "_category") (VStr category)
               (match LineItem.category_confidence line_item with
                | Some c => if PyFloat.is_true c then c else 0.0%float
                | None => 0.0%float
                end)
               None None "ml_classification" (Invoice.human_reviewed invoice)]
      | None => []
      end)%list.

(** [enumerate(l)] *)
Fixpoint enumerate_from {A : Type} (i : nat) (l : list A) : list (nat * A) :=
  match l with
  | [] => []
  | x :: tl => (i, x) :: enumerate_from (S i) tl
  end.

Definition _extract_all_fields (invoice : Invoice.t) : list ExportRow.t :=
  let v := Invoice.vendor invoice in
  let a := Invoice.amounts invoice in
  ([field_row invoice "invoice_number" (Invoice.invoice_number invoice);
    field_row invoice "invoice_date" (Invoice.invoice_date invoice)]
   ++ optional_row invoice "due_date" (Invoice.due_date invoice)
   ++ [field_row invoice "vendor_name" (Vendor.name v)]
   ++ optional_row invoice "vendor_address" (Vendor.address v)
   ++ optional_row invoice "vendor_tax_id" (Vendor.tax_id v)
   ++ [field_row invoice "grand_total" (Amounts.grand_total a);
       field_row invoice "currency" (Amounts.currency a)]
   ++ optional_row invoice "subtotal" (Amounts.subtotal a)
   ++ optional_row invoice "tax_amount" (Amounts.tax_amount a)
   ++ optional_row invoice "tax_rate" (Amounts.tax_rate a)
   ++ optional_row invoice "discount" (Amounts.discount a)
   ++ optional_row invoice "shipping" (Amounts.shipping a)
   ++ flat_map (fun '(i, line_item) => line_item_rows invoice i line_item)
        (enumerate_from 0 (Invoice.line_items invoice))
   ++ optional_row invoice "notes" (Invoice.notes invoice)
   ++ optional_row invoice "payment_terms" (Invoice.payment_terms invoice)
   ++ optional_row invoice "po_number" (Invoice.po_number invoice))%list.

End AccountingExporter.

(** ** The jobs of the orchestrator ([pipeline/route.py])

    The job table [active_jobs] and the coroutine of a job as it is
    written, the awaits on the audit log included, with the table, the
    extractor's cache and the clock as the state it works on.
    [ProcessingPipeline._process_invoice_async] above is the computation of
    its stages from the tokens to the result, without the table and the
    log. *)

Module Jobs.

(** An entry of [stages_completed]. *)
Record stage_entry : Type := mk_stage {
  stage : string;
  message : string;
  timestamp : Z
}.

(** A value of [active_jobs]. *)
Record job_record : Type := mk_job {
  status : string;
  started_at : Z;
  filename : string;
  stages_completed : list stage_entry;
  current_stage : string;
  result_ : option ProcessingResult.t;
  error : option string
}.

(** The assignments to the keys of a job. *)
Definition set_status (s : string) (j : job_record) : job_record :=
  mk_job s (started_at j) (filename j) (stages_completed j) (current_stage j)
    (result_ j) (error j).

Definition set_result (r : ProcessingResult.t) (j : job_record) : job_record :=
  mk_job (status j) (started_at j) (filename j) (stages_completed j) (current_stage j)
    (Some r) (error j).

Definition set_error (e : string) (j : job_record) : job_record :=
  mk_job (status j) (started_at j) (filename j) (stages_completed j) (current_stage j)
    (result_ j) (Some e).

(** [job['current_stage'] = stage; job['stages_completed'].append(entry)] *)
Definition add_stage (entry : stage_entry) (j : job_record) : job_record :=
  mk_job (status j) (started_at j) (filename j) (stages_completed j ++ [entry])%list
    (stage entry) (result_ j) (error j).

Definition active_jobs : Type := list (string * job_record).

(** [active_jobs.get(job_id)] *)
Fixpoint get (jobs : active_jobs) (job_id : string) : option job_record :=
  match jobs with
  | [] => None
  | (k, j) :: tl => if String.eqb k job_id then Some j else get tl job_id
  end.

(** [active_jobs[job_id] = j] *)
Fixpoint set (jobs : active_jobs) (job_id : string) (j : job_record) : active_jobs :=
  match jobs with
  | [] => [(job_id, j)]
  | (k, j') :: tl =>
      if String.eqb k job_id then (k, j) :: tl else (k, j') :: set tl job_id j
  end.

(** [get_job_status] *)
Definition get_job_status (jobs : active_jobs) (job_id : string) : option job_record :=
  get jobs job_id.

(** [get_job_result] *)
Definition get_job_result (jobs : active_jobs) (job_id : string)
  : option ProcessingResult.t :=
  match get jobs job_id with
  | Some job => if String.eqb (status job) "completed" then result_ job else None
  | None => None
  end.

(** The state a job runs on: the job table, the vendor cache of the
    extractor, and how many times the clock has been read. *)
Record world : Type := mk_world {
  jobs : active_jobs;
  cache : DeterministicExtractor.vendor_cache;
  clock_reads : nat
}.

(** A computation on the state that returns or raises. *)
Definition M (A : Type) : Type := world -> result A * world.

Definition ret {A : Type} (a : A) : M A := fun w => (Ok a, w).

Definition raise {A : Type} (e : exn) : M A := fun w => (Raise e, w).

Definition bindM {A B : Type} (c : M A) (k : A -> M B) : M B :=
  fun w =>
    match c w with
    | (Ok a, w') => k a w'
    | (Raise e, w') => (Raise e, w')
    end.

Definition lift {A : Type} (r : result A) : M A := fun w => (r, w).

(** [try: c except Exception as e: h(e)] *)
Definition try_catch {A : Type} (c : M A) (h : exn -> M A) : M A :=
  fun w =>
    match c w with
    | (Ok a, w') => (Ok a, w')
    | (Raise e, w') => h e w'
    end.

Declare Scope job_scope.
Delimit Scope job_scope with job.
Notation "x <- c ;; k" := (bindM c (fun x => k))
  (at level 61, c at next level, right associativity) : job_scope.
Notation "c ;; k" := (bindM c (fun _ => k))
  (at level 61, right associativity) : job_scope.

Local Open Scope job_scope.

(** [self.active_jobs[job_id][...] = ...]: [KeyError] for a job that is not
    in the table. *)
Definition update_job (job_id : string) (f : job_record -> job_record) : M unit :=
  fun w =>
    match get (jobs w) job_id with
    | Some j => (Ok tt, mk_world (set (jobs w) job_id (f j)) (cache w) (clock_reads w))
    | None => (Raise KeyError, w)
    end.

(** [self.active_jobs[job_id]['started_at']] *)
Definition job_started_at (job_id : string) : M Z :=
  fun w =>
    match get (jobs w) job_id with
    | Some j => (Ok (started_at j), w)
    | None => (Raise KeyError, w)
    end.

Section Run.

(** The environment of the orchestrator: the successive readings of
    [datetime.now()] and their rendering by [strftime('%Y%m%d_%H%M%S')], what
    [extract_tokens] returns for a file, the classifier, and
    [_apply_llm_fallback]. *)
Variable clock : nat -> Z.
Variable strftime : Z -> string.
Variable extract_tokens : string -> string -> result (list Token.t).
Variable predict : pyval -> pyval -> string * float.
Variable llm : Invoice.t -> RuleReport.t -> list Token.t -> option (list JsonPatch.t).
Variable th : ProcessingThresholds.t.

(** [datetime.now()] *)
Definition now : M Z :=
  fun w => (Ok (clock (clock_reads w)), mk_world (jobs w) (cache w) (S (clock_reads w))).

(** [process_invoice], with [job_id] the fresh [uuid4]; the coroutine of the
    job is scheduled and runs later. *)
Definition process_invoice (job_id : string) (file_buffer filename : string) : M string :=
  t <- now ;;
  (fun w =>
     (Ok job_id,
      mk_world (set (jobs w) job_id (mk_job "processing" t filename [] "ocr" None None))
        (cache w) (clock_reads w))).

(** [_update_job_status] *)
Definition _update_job_status (job_id : string) (stage message : string) : M unit :=
  fun w =>
    match get (jobs w) job_id with
    | Some _ =>
        (t <- now ;;
         update_job job_id (add_stage (mk_stage stage message t))) w
    | None => (Ok tt, w)
    end.

(** [log_processing_stage] of the audit module: a plain function; it stamps
    the entry with the clock, writes it to the log files, which the model
    leaves out, and returns [None]. *)
Definition log_processing_stage (job_id stage status : string) : M pyval :=
  now ;; ret VNone.

(** [await v] for a value that is no awaitable, as every [pyval] is:
    "object NoneType can't be used in 'await' expression". *)
Definition await_value (v : pyval) : M unit := raise TypeError.

(** [await log_processing_stage(...)] *)
Definition await_log (job_id stage status : string) : M unit :=
  v <- log_processing_stage job_id stage status ;; await_value v.

(** [extract_invoice_deterministic]: the global extractor with its cache; the
    invoice is stamped with a reading of the clock. *)
Definition extract_invoice_deterministic (tokens : list Token.t)
  (filename processing_id : string) : M Invoice.t :=
  t <- now ;;
  (fun w =>
     let '(r, cache') :=
       DeterministicExtractor.extract_invoice (cache w) t tokens filename processing_id in
     (r, mk_world (jobs w) cache' (clock_reads w))).

(** [(datetime.now() - self.active_jobs[job_id]['started_at']).total_seconds()] *)
Definition processing_time (job_id : string) : M Z :=
  t <- now ;; s <- job_started_at job_id ;; ret (t - s).

(** The [try] block of [_process_invoice_async]. *)
Definition stages (job_id file_buffer filename : string) : M unit :=
  _update_job_status job_id "ocr" "Extracting text from document..." ;;
  tokens <- lift (extract_tokens file_buffer filename) ;;
  match tokens with
  | [] => raise Exception_                   (* "OCR failed - no text extracted" *)
  | _ =>
      await_log job_id "ocr" "completed" ;;
      _update_job_status job_id "extraction" "Extracting invoice data..." ;;
      t <- now ;;
      let processing_id := job_id ++ "_" ++ strftime t in
      invoice <- extract_invoice_deterministic tokens filename processing_id ;;
      (let grand_total := FieldValue.value (Amounts.grand_total (Invoice.amounts invoice)) in
       if PyVal.truthy grand_total then f <- lift (PyVal.to_float grand_total) ;; ret tt
       else ret tt) ;;
      await_log job_id "extraction" "completed" ;;
      _update_job_status job_id "classification" "Classifying line items..." ;;
      let invoice := ProcessingPipeline._classify_line_items predict invoice in
      await_log job_id "classification" "completed" ;;
      _update_job_status job_id "validation" "Validating business rules..." ;;
      let rule_report := RulesEngine.validate_invoice_rules invoice in
      await_log job_id "validation" "completed" ;;
      _update_job_status job_id "decision" "Evaluating processing decision..." ;;
      let decision := ProcessingPipeline._make_processing_decision th invoice rule_report in
      result <-
        (if String.eqb (ProcessingPipeline.action decision) "auto_post" then
           _update_job_status job_id "auto_post" "Auto-posting invoice..." ;;
           ret (ProcessingPipeline._create_processing_result invoice rule_report None
                  "auto_posted")
         else if String.eqb (ProcessingPipeline.action decision) "llm_fallback" then
           _update_job_status job_id "llm_fallback" "Applying LLM fallback..." ;;
           match llm invoice rule_report tokens with
           | Some (p :: tl) =>
               let llm_patch := p :: tl in
               _update_job_status job_id "patch_apply" "Applying LLM patch..." ;;
               let invoice := ProcessingPipeline._apply_patch_to_invoice invoice llm_patch in
               let rule_report := RulesEngine.validate_invoice_rules invoice in
               ret (ProcessingPipeline._create_processing_result invoice rule_report
                      (Some llm_patch)
                      (if RuleReport.passed rule_report then "auto_posted"
                       else "needs_review"))
           | _ =>
               ret (ProcessingPipeline._create_processing_result invoice rule_report None
                      "needs_review")
           end
         else
           ret (ProcessingPipeline._create_processing_result invoice rule_report None
                  "needs_review")) ;;
      _update_job_status job_id "completed" "Processing completed" ;;
      update_job job_id (set_result result) ;;
      update_job job_id (set_status "completed") ;;
      processing_time job_id ;;
      await_log job_id "completed" "completed"
  end.

(** The [except Exception as e] block. *)
Definition on_exception (job_id : string) (e : exn) : M unit :=
  update_job job_id (set_status "failed") ;;
  update_job job_id (set_error (exn_name e)) ;;
  processing_time job_id ;;
  await_log job_id "error" "failed".

(** [_process_invoice_async] *)
Definition _process_invoice_async (job_id file_buffer filename : string) : M unit :=
  try_catch (stages job_id file_buffer filename) (on_exception job_id).

End Run.

End Jobs.

(** ** The endpoints ([api/pipeline.py]) *)

Module PipelineAPI.

(** What an endpoint does: it answers, or raises an [HTTPException]. *)
Inductive response (A : Type) : Type :=
| Returns (a : A)
| HTTPException (status_code : Z) (detail : string).

Arguments Returns {A} a.
Arguments HTTPException {A} status_code detail.

Definition allowed_types : list string :=
  [".csv"; ".xlsx"; ".xls"; ".pdf"; ".jpg"; ".jpeg"; ".png"; ".gif"; ".bmp"; ".tiff"].

(** ['.' + file.filename.split('.')[-1].lower()] *)
Definition file_ext (filename : string) : string :=
  "." ++ PyStr.lower (last (PyStr.split "." filename) "").

(** The answer of [ingest_invoice]. *)
Record ingest_reply : Type := mk_ingest {
  ingest_job_id : string;
  ingest_status : string;
  ingest_message : string
}.

(** What is raised inside the [try] block of an endpoint. *)
Inductive raised : Type :=
| Http (status_code : Z) (detail : string)
| Error (e : exn).

Section Endpoints.

Variable clock : nat -> Z.
(** [str(e)] for an [HTTPException]. *)
Variable str_http : Z -> string -> string.

Definition str_raised (e : raised) : string :=
  match e with
  | Http status_code detail => str_http status_code detail
  | Error e => exn_name e
  end.

(** [ingest_invoice].  [read] is what [await file.read()] gives, [job_id] the
    identifier the orchestrator draws.  Whatever the [try] block raises, the
    refusal of the file type included, is caught by [except Exception] and
    raised again with status 500. *)
Definition ingest_invoice (read : result string) (job_id filename : string)
  (w : Jobs.world) : response ingest_reply * Jobs.world :=
  let attempt : (ingest_reply + raised) * Jobs.world :=
    if negb (existsb (String.eqb (file_ext filename)) allowed_types) then
      (inr (Http 400 ("Unsupported file type: " ++ file_ext filename ++ ". Allowed types: "
                      ++ PyVal.repr (VList (map VStr allowed_types)))), w)
    else
      match read with
      | Raise e => (inr (Error e), w)
      | Ok file_content =>
          match Jobs.process_invoice clock job_id file_content filename w with
          | (Ok job_id, w') =>
              (inl (mk_ingest job_id "processing" ("Processing started for " ++ filename)), w')
          | (Raise e, w') => (inr (Error e), w')
          end
      end in
  match attempt with
  | (inl reply, w') => (Returns reply, w')
  | (inr e, w') => (HTTPException 500 (str_raised e), w')
  end.

(** The answer of [get_status], and the part of the answer of [get_result]
    that is always there. *)
Record status_reply : Type := mk_status {
  reply_job_id : string;
  reply_status : string;
  reply_current_stage : string;
  reply_started_at : Z;
  reply_filename : string;
  reply_stages_completed : list Jobs.stage_entry;
  reply_error : option string
}.

Definition status_of (job_id : string) (j : Jobs.job_record) : status_reply :=
  mk_status job_id (Jobs.status j) (Jobs.current_stage j) (Jobs.started_at j)
    (Jobs.filename j) (Jobs.stages_completed j) (Jobs.error j).

(** [get_status]: 404 for a job that is not in the table; the handler
    [except HTTPException: raise] lets it through. *)
Definition get_status (jobs : Jobs.active_jobs) (job_id : string) : response status_reply :=
  match Jobs.get_job_status jobs job_id with
  | None => HTTPException 404 "Job not found"
  | Some j => Returns (status_of job_id j)
  end.

(** [get_result]: the status, and the result of the job when it has one. *)
Definition get_result (jobs : Jobs.active_jobs) (job_id : string)
  : response (status_reply * option ProcessingResult.t) :=
  match Jobs.get_job_status jobs job_id with
  | None => HTTPException 404 "Job not found"
  | Some j => Returns (status_of job_id j, Jobs.get_job_result jobs job_id)
  end.

End Endpoints.

End PipelineAPI.

(** ** Notions used in the properties of the classifier, the export and
    the jobs *)

(** All the patterns of a category match the description, and one of them
    does. *)
Definition all_match (search : string -> string -> bool) (description : string)
  (entry : string * list string) : bool :=
  forallb (fun pattern => search pattern description) (snd entry).

Definition some_match (search : string -> string -> bool) (description : string)
  (entry : string * list string) : bool :=
  existsb (fun pattern => search pattern description) (snd entry).

(** The first category whose patterns all match; failing that, when the
    score so far is 0, the first category one of whose patterns matches. *)
Definition best_of (search : string -> string -> bool) (description : string)
  (table : list (string * list string)) (st : string * float) : string * float :=
  match find (all_match search description) table with
  | Some entry => (fst entry, 1.0%float)
  | None =>
      if PrimFloat.eqb (snd st) 0 then
        match find (some_match search description) table with
        | Some entry => (fst entry, 0.5%float)
        | None => st
        end
      else st
  end.

(** The answer of the model, when there is a trained one and it is more
    than 0.6 sure. *)
Definition model_answer (ml : option (string -> option string -> string * float))
  (description : string) (vendor_name : option string) : option (string * float) :=
  match ml with
  | Some _predict_with_ml =>
      if PyFloat.gt (snd (_predict_with_ml description vendor_name)) 0.6
      then Some (_predict_with_ml description vendor_name) else None
  | None => None
  end.

(** The vendor name the orchestrator passes to the classifier. *)
Definition vendor_text (v : pyval) : option string :=
  match v with VStr n => Some n | _ => None end.

(** Both patterns of some category match the description. *)
Definition certain (search : string -> string -> bool) (description : string) : bool :=
  existsb (all_match search (PyStr.strip (PyStr.lower description)))
    CategoryClassifier.patterns.

Definition description_text (item : LineItem.t) : string :=
  match FieldValue.value (LineItem.description item) with
  | VStr s => s
  | _ => ""
  end.

(** A row that carries a field of the invoice, and a row that carries the
    category of a line item. *)
Definition field_row_of (invoice : Invoice.t) (row : ExportRow.t) : Prop :=
  exists name f, In f (Spec.invoice_fields invoice)
                 /\ row = AccountingExporter.field_row invoice name f.

Definition category_row_of (invoice : Invoice.t) (row : ExportRow.t) : Prop :=
  exists item category, In item (Invoice.line_items invoice)
    /\ LineItem.category item = Some category
    /\ ExportRow.field_value row = VStr category
    /\ ExportRow.extraction_method row = "ml_classification"
    /\ ExportRow.evidence_page row = None
    /\ ExportRow.evidence_bbox row = None
    /\ ExportRow.human_reviewed row = Invoice.human_reviewed invoice.

(** What holds of a row exported for an invoice the pipeline extracted. *)
Definition extracted_row (row : ExportRow.t) : Prop :=
  ExportRow.human_reviewed row = false
  /\ ((ExportRow.extraction_method row = "deterministic"
       /\ PrimFloat.leb 0 (ExportRow.confidence row) = true
       /\ PrimFloat.leb (ExportRow.confidence row) 1 = true
       /\ (ExportRow.evidence_page row = None
           -> PrimFloat.leb (ExportRow.confidence row) 0.5 = true))
      \/ (ExportRow.extraction_method row = "ml_classification"
          /\ ExportRow.evidence_page row = None
          /\ ExportRow.evidence_bbox row = None)).

(** What makes the [try] block of a job raise: the OCR, its empty answer,
    or the first await on the audit log. *)
Definition first_error (extract_tokens : string -> string -> result (list Token.t))
  (file_buffer filename : string) : exn :=
  match extract_tokens file_buffer filename with
  | Raise e => e
  | Ok [] => Exception_
  | Ok (_ :: _) => TypeError
  end.

(** ** Further sample data *)

Module Cases.

(** A line whose text starts with a quantity. *)
Definition line : list Token.t := [Sample.token "2 Widget 10.00" 0.9 10 400].

(** The sample invoice in Swiss francs. *)
Definition francs : Invoice.t :=
  Invoice.set_amounts
    (Amounts.mk None None None None None (Sample.field (Sample.dec 10000 (-2)) 0.9)
       (Sample.field (VStr "CHF") 0.9))
    Sample.no_subtotal.

(** The sample invoice with its date left as text. *)
Definition date_as_text : Invoice.t :=
  Sample.invoice None None (Sample.dec 10000 (-2)) (VStr "15 March 2024") None.

(** A gateway that answers with the date as JSON has it. *)
Definition date_patch (invoice : Invoice.t) (report : RuleReport.t)
  : result (result pyval) :=
  Ok (Ok (VList [VDict [("op", VStr "replace"); ("path", VStr "/invoice_date");
                        ("value", VStr "2024-03-15");
                        ("rationale", VStr "The date reads 15 March 2024.")]])).

(** The sample invoice with one line. *)
Definition with_line : Invoice.t :=
  Invoice.set_line_items
    [LineItem.mk (Sample.field (VStr "Printer paper") 0.9) None None None None None
       None None]
    Sample.no_subtotal.

(** A search that finds every pattern, and the classifier without a trained
    model on top of it. *)
Definition search (pattern text : string) : bool := true.

Definition predict (description vendor_name : pyval) : string * float :=
  match description with
  | VStr s => CategoryClassifier.predict_category None search s (vendor_text vendor_name)
  | _ => ("other", 0.0%float)
  end.

(** A clock that ticks once a reading, an OCR that reads the sample
    document, and a job table with one job. *)
Definition clock (n : nat) : Z := Z.of_nat n.

Definition strftime (t : Z) : string := "20240315_120000".

Definition extract_tokens (file_buffer filename : string) : result (list Token.t) :=
  Ok Sample.tokens.

Definition llm (invoice : Invoice.t) (report : RuleReport.t) (tokens : list Token.t)
  : option (list JsonPatch.t) := None.

Definition started : Jobs.world :=
  Jobs.mk_world [("job-1", Jobs.mk_job "processing" 0 "invoice.pdf" [] "ocr" None None)]
    [] 1.

Definition str_http (status_code : Z) (detail : string) : string := detail.

End Cases.

(** * Properties *)

(** ** Floats *)



(** ** Loops *)

Lemma for_each_unchanged {A S : Type} (l : list A) (st : S) (body : S -> A -> result S) :
  (forall x, In x l -> body st x = Ok st) -> for_each l st body = Ok st.
Proof.
  induction l as [|x tl IH]; intros H; [reflexivity|].
  cbn [for_each]. rewrite (H x (or_introl eq_refl)).
  apply IH. intros y Hy. apply H. now right.
Qed.

Lemma for_each_invariant {A S : Type} (P : S -> Prop) (l : list A)
  (body : S -> A -> result S) :
  (forall st x st', P st -> body st x = Ok st' -> P st') ->
  forall st st', P st -> for_each l st body = Ok st' -> P st'.
Proof.
  intros Hstep. induction l as [|x tl IH]; intros st st' HP H; cbn [for_each] in H.
  - injection H as <-. exact HP.
  - destruct (body st x) as [st1|e] eqn:Hb; [|discriminate].
    apply (IH st1 st'); [now apply (Hstep st x) | exact H].
Qed.

(** One step through a sequence of calls: the first call returned [x], the
    case where it raised being closed. *)
Ltac bind_ok x H :=
  match goal with
  | |- context [bind ?c _] => destruct c as [x|] eqn:H; cbn [bind]; [|discriminate]
  end.

(** The result of a conditional or of a loop body that keeps its state. *)
Ltac kept HP := intros H; injection H as <-; exact HP.

(** ** The decision policy (C1) *)





(** ** The arithmetic rule without a subtotal (C2) *)

(** C2 fails on the code: with no subtotal the expected total starts at the
    grand total and the tax, shipping and discount are still applied to it,
    so an invoice of 100.00 with a tax of 19.00 is compared with 119.00 and
    [arithmetic_balance] fails. *)
Theorem arithmetic_fails_without_subtotal :
  Amounts.subtotal (Invoice.amounts Sample.no_subtotal) = None
  /\ map (fun f => (Failure.rule f, Failure.path f, Failure.expected f, Failure.actual f))
         (RulesEngine._validate_arithmetic ProcessingThresholds.default Sample.no_subtotal)
     = [("arithmetic_balance", "/amounts/grand_total", Some 119%float, Some 100%float)]
  /\ map Failure.rule
         (RuleReport.failures
            (RulesEngine.validate_invoice ProcessingThresholds.default Sample.no_subtotal))
     = ["arithmetic_balance"; "line_sum_tax"].
Proof. repeat split; vm_compute; reflexivity. Qed.

(** With no subtotal and no other operand either, the comparison is of the
    grand total with itself and the rule passes. *)
Example arithmetic_passes_without_operands :
  RulesEngine._validate_arithmetic ProcessingThresholds.default
    (Sample.invoice None None (Sample.dec 10000 (-2)) (Sample.march 15) None) = [].
Proof. vm_compute. reflexivity. Qed.

(** ** The amount parser (C3) *)

(** C3, as the code has it: "1,234.56" reads as 1234.56, "1,56" as 1.56
    and "1,234" as 1234; in "1.234,56", where both separators occur, the
    comma is dropped as a thousands separator and the text reads as
    1.23456. *)
Theorem parse_amount_boundaries :
  DeterministicExtractor._parse_amount "1,234.56" = VDecimal (Dec.Fin false 123456 (-2))
  /\ DeterministicExtractor._parse_amount "1.234,56" = VDecimal (Dec.Fin false 123456 (-5))
  /\ DeterministicExtractor._parse_amount "1,56" = VDecimal (Dec.Fin false 156 (-2))
  /\ DeterministicExtractor._parse_amount "1,234" = VDecimal (Dec.Fin false 1234 0).
Proof. repeat split; vm_compute; reflexivity. Qed.

(** C3 as stated fails on "1.234,56": what the parser returns is a decimal
    below 1234.56 (it is 1.23456). *)
Lemma parse_amount_european_grouping :
  exists d, DeterministicExtractor._parse_amount "1.234,56" = VDecimal d
            /\ Dec.cmp d (Dec.Fin false 123456 (-2)) = Lt
            /\ Dec.to_string d = "1.23456".
Proof.
  exists (Dec.Fin false 123456 (-5)). repeat split; vm_compute; reflexivity.
Qed.

(** ** The repair gateway (C4) *)

(** C4 fails on the code: the gateway builds a [JsonPatch] from every entry
    that has the four required keys and returns it; [_validate_patch] is
    never applied.  A patch with operation [remove], a one-letter rationale
    and no cited bbox is returned. *)
Theorem gateway_returns_invalid_patch :
  let patch := JsonPatch.mk "remove" "amounts" (VInt 1) "x" [] in
  LLMFallback._parse_llm_response (Ok Sample.bad_response) = Some [patch]
  /\ LLMFallback.propose_patch (Ok (Ok Sample.bad_response)) = Some [patch]
  /\ LLMFallback._validate_patch patch = false
  /\ ~ In (JsonPatch.op patch) ["replace"; "add"]
  /\ (PyStr.len (JsonPatch.rationale patch) < 10)%nat
  /\ JsonPatch.cites_bbox patch = [].
Proof.
  cbv zeta. repeat split; try (vm_compute; reflexivity).
  - simpl. intros [H | [H | []]]; discriminate H.
  - vm_compute. lia.
Qed.

(** What the gateway does guarantee: a returned patch was built from an
    entry of the response. *)
Lemma gateway_patches_from_response (data : list pyval) (patch : JsonPatch.t) :
  In patch (match LLMFallback._parse_llm_response (Ok (VList data)) with
            | Some l => l
            | None => []
            end) ->
  exists entry, In entry data /\ LLMFallback.make_patch entry = Ok patch.
Proof.
  simpl. rewrite in_flat_map. intros [entry [Hin Hp]]. exists entry. split; [exact Hin|].
  destruct (LLMFallback.make_patch entry) as [q|e]; simpl in Hp.
  - destruct Hp as [-> | []]. reflexivity.
  - destruct Hp.
Qed.

(** ** The end of a repaired job (C5) *)

(** No patch sets [llm_patch_applied]. *)
Lemma replace_patch_keeps_flag (invoice invoice' : Invoice.t) (patch : JsonPatch.t) :
  ProcessingPipeline._apply_replace_patch invoice patch = Ok invoice' ->
  Invoice.llm_patch_applied invoice' = Invoice.llm_patch_applied invoice.
Proof.
  unfold ProcessingPipeline._apply_replace_patch.
  repeat match goal with
         | |- context [if ?c then _ else _] => destruct c
         | |- context [match nth_error ?l ?n with _ => _ end] => destruct (nth_error l n)
         | |- context [ProcessingPipeline.set_field_value ?v ?o] =>
             destruct (ProcessingPipeline.set_field_value v o); cbn [bind]
         end;
    intros H; try discriminate H; injection H as <-; reflexivity.
Qed.

Lemma apply_patch_keeps_flag (llm_patch : list JsonPatch.t) (invoice : Invoice.t) :
  Invoice.llm_patch_applied (ProcessingPipeline._apply_patch_to_invoice invoice llm_patch)
  = Invoice.llm_patch_applied invoice.
Proof.
  unfold ProcessingPipeline._apply_patch_to_invoice.
  revert invoice. induction llm_patch as [|patch tl IH]; intros invoice; [reflexivity|].
  cbn [fold_left]. rewrite IH.
  destruct (String.eqb (JsonPatch.op patch) "replace").
  - destruct (ProcessingPipeline._apply_replace_patch invoice patch) eqn:Hp;
      cbn [try_except]; [now apply replace_patch_keeps_flag with (patch := patch) | reflexivity].
  - destruct (String.eqb (JsonPatch.op patch) "add"); reflexivity.
Qed.

(** Whatever the gateway answers, the invoice of the result carries the
    flag it had when the decision was taken; the status is [auto_posted]
    when a patch was applied and the validation after it passed, and
    [needs_review] when it did not. *)
Lemma finish_keeps_flag (th : ProcessingThresholds.t)
  (llm : Invoice.t -> RuleReport.t -> option (list JsonPatch.t))
  (invoice : Invoice.t) (report : RuleReport.t) :
  let r := ProcessingPipeline.decide_and_finish th llm invoice report in
  Invoice.llm_patch_applied (ProcessingResult.invoice r) = Invoice.llm_patch_applied invoice
  /\ (forall patches, ProcessingResult.llm_patch r = Some patches ->
      ProcessingResult.status r
      = if RuleReport.passed (ProcessingResult.rule_report r)
        then "auto_posted" else "needs_review").
Proof.
  cbv zeta. unfold ProcessingPipeline.decide_and_finish.
  destruct (String.eqb _ "auto_post"); [split; [reflexivity | discriminate]|].
  destruct (String.eqb _ "llm_fallback"); [|split; [reflexivity | discriminate]].
  destruct (llm invoice report) as [[|p tl]|]; try (split; [reflexivity | discriminate]).
  destruct (RuleReport.passed _) eqn:Hp;
    cbn [ProcessingPipeline._create_processing_result ProcessingResult.invoice
         ProcessingResult.llm_patch ProcessingResult.status ProcessingResult.rule_report];
    rewrite apply_patch_keeps_flag; (split; [reflexivity | intros _ _; rewrite Hp; reflexivity]).
Qed.


(** ** Determinism of extraction and validation (C6) *)

Section Determinism.

Import DeterministicExtractor Spec.

(** A lookup for a field type without label patterns finds nothing. *)
Lemma find_field_without_patterns (tokens : list Token.t) (field_type : string) :
  label_patterns field_type = [] ->
  _find_field_by_patterns tokens field_type false = Ok None.
Proof.
  intros Hnone. unfold _find_field_by_patterns. rewrite Hnone.
  rewrite for_each_unchanged; [reflexivity|]. intros token _. reflexivity.
Qed.

Lemma clean_get (cache : vendor_cache) (key : string) (z : zones) :
  clean cache -> cache_get cache key = Some z -> z = empty_zones.
Proof.
  induction 1 as [|[k z'] tl Hz _ IH]; cbn [cache_get]; [discriminate|].
  destruct (String.eqb k key); [|exact IH].
  intros H. injection H as <-. exact Hz.
Qed.

(** With a clean cache the vendor does not depend on the cache, and the
    cache stays clean. *)
Lemma extract_vendor_clean (cache : vendor_cache) (tokens : list Token.t) (h : string) :
  clean cache ->
  fst (_extract_vendor cache tokens h) = fst (_extract_vendor [] tokens h)
  /\ clean (snd (_extract_vendor cache tokens h)).
Proof.
  intros Hclean. unfold _extract_vendor.
  rewrite !find_field_without_patterns by reflexivity.
  destruct (required_field (_find_field_by_patterns tokens "vendor" true)) as [name|e];
    cbn [bind or_else fst snd cache_get]; [|split; [reflexivity | exact Hclean]].
  destruct (cache_get cache h) as [z|] eqn:Hget.
  - rewrite (clean_get cache h z Hclean Hget). cbn [fst snd]. split; [reflexivity | exact Hclean].
  - cbn [fst snd]. split; [reflexivity|].
    apply Forall_app. split; [exact Hclean|]. repeat constructor.
Qed.

Lemma invoice_make_stamp (now : Z) (invoice_number invoice_date : FieldValue.t)
  (due_date : option FieldValue.t) (vendor : Vendor.t) (amounts : Amounts.t)
  (line_items : list LineItem.t) (notes payment_terms po_number : option FieldValue.t)
  (processing_id source_file extraction_method : string) (duplicate_hash : option string) :
  Invoice.make now invoice_number invoice_date due_date vendor amounts line_items notes
    payment_terms po_number processing_id source_file extraction_method duplicate_hash
  = stamp now
      (Invoice.make 0 invoice_number invoice_date due_date vendor amounts line_items notes
         payment_terms po_number processing_id source_file extraction_method duplicate_hash).
Proof.
  unfold Invoice.make.
  repeat match goal with
         | |- context [if ?c then _ else _] => destruct c
         end; reflexivity.
Qed.

Lemma bind_stamp {A : Type} (now : Z) (c : result A) (k k' : A -> result Invoice.t) :
  (forall a, k a = stamp now (k' a)) -> bind c k = stamp now (bind c k').
Proof.
  intros H. destruct c as [a|e]; cbn [bind]; [apply H | reflexivity].
Qed.

(** With a clean cache, a call yields what a call on a fresh extractor at
    clock 0 yields, stamped with its own clock reading. *)
Lemma extract_invoice_clean (cache : vendor_cache) (now : Z) (tokens : list Token.t)
  (filename processing_id : string) :
  clean cache ->
  fst (extract_invoice cache now tokens filename processing_id)
  = stamp now (fst (extract_invoice [] 0 tokens filename processing_id))
  /\ clean (snd (extract_invoice cache now tokens filename processing_id)).
Proof.
  intros Hclean. unfold extract_invoice.
  destruct (extract_vendor_clean cache tokens (_create_layout_fingerprint tokens) Hclean)
    as [Hv Hc].
  destruct (_extract_vendor cache tokens (_create_layout_fingerprint tokens)) as [v c].
  destruct (_extract_vendor [] tokens (_create_layout_fingerprint tokens)) as [v0 c0].
  cbn [fst snd] in *. subst v0. split; [|exact Hc].
  repeat (apply bind_stamp; intros ?).
  apply invoice_make_stamp.
Qed.

Lemma cache_after_clean (history : list Spec.call) : clean (Spec.cache_after history).
Proof.
  unfold Spec.cache_after.
  assert (H : forall cache, clean cache ->
            clean (fold_left (fun cache k =>
                     snd (extract_invoice cache (Spec.call_now k) (Spec.call_tokens k)
                            (Spec.call_filename k) (Spec.call_processing_id k)))
                   history cache)).
  { induction history as [|k tl IH]; intros cache Hc; [exact Hc|].
    cbn [fold_left]. apply IH. now apply extract_invoice_clean. }
  apply H. constructor.
Qed.

(** The rules do not read the time stamp. *)
Lemma validate_ignores_created_at (th : ProcessingThresholds.t) (now : Z)
  (invoice : Invoice.t) :
  RulesEngine.validate_invoice th (Invoice.set_created_at now invoice)
  = RulesEngine.validate_invoice th invoice.
Proof. reflexivity. Qed.

End Determinism.

(** C6, as the code has it: two runs of extraction and validation on the
    same tokens, file name and processing id, on extractors with any
    histories of earlier calls and at any two clock readings, either raise
    the same exception or yield the same rule report and invoices that are
    equal in every field but [created_at], which holds the clock reading of
    each run. *)
Theorem extraction_deterministic_up_to_clock (history1 history2 : list Spec.call)
  (now1 now2 : Z) (tokens : list Token.t) (filename processing_id : string) :
  match Spec.extract_and_validate history1 now1 tokens filename processing_id,
        Spec.extract_and_validate history2 now2 tokens filename processing_id with
  | Ok (invoice1, report1), Ok (invoice2, report2) =>
      invoice2 = Invoice.set_created_at now2 invoice1
      /\ Invoice.created_at invoice1 = now1
      /\ report1 = report2
  | Raise e1, Raise e2 => e1 = e2
  | _, _ => False
  end.
Proof.
  unfold Spec.extract_and_validate.
  destruct (extract_invoice_clean (Spec.cache_after history1) now1 tokens filename
              processing_id (cache_after_clean history1)) as [H1 _].
  destruct (extract_invoice_clean (Spec.cache_after history2) now2 tokens filename
              processing_id (cache_after_clean history2)) as [H2 _].
  rewrite H1, H2.
  destruct (fst (DeterministicExtractor.extract_invoice [] 0 tokens filename processing_id))
    as [invoice|e]; cbn [Spec.stamp]; [|reflexivity].
  repeat split.
Qed.

(** C6 as stated fails: the same tokens extracted at two clock readings give
    two invoices that differ, in [created_at]. *)
Lemma extraction_differs_in_created_at :
  exists invoice1 report1 invoice2 report2,
    Spec.extract_and_validate [] 1000 Sample.tokens "invoice.pdf" "job"
    = Ok (invoice1, report1)
    /\ Spec.extract_and_validate [] 2000 Sample.tokens "invoice.pdf" "job"
       = Ok (invoice2, report2)
    /\ Invoice.created_at invoice1 = 1000
    /\ Invoice.created_at invoice2 = 2000
    /\ invoice1 <> invoice2.
Proof.
  destruct (Spec.extract_and_validate [] 1000 Sample.tokens "invoice.pdf" "job")
    as [[invoice1 report1]|e] eqn:H1; [|vm_compute in H1; discriminate H1].
  destruct (Spec.extract_and_validate [] 2000 Sample.tokens "invoice.pdf" "job")
    as [[invoice2 report2]|e] eqn:H2; [|vm_compute in H2; discriminate H2].
  exists invoice1, report1, invoice2, report2.
  assert (C1 : Invoice.created_at invoice1 = 1000).
  { vm_compute in H1. injection H1 as <- _. reflexivity. }
  assert (C2 : Invoice.created_at invoice2 = 2000).
  { vm_compute in H2. injection H2 as <- _. reflexivity. }
  repeat split; try assumption.
  intros Heq. rewrite Heq in C1. rewrite C1 in C2. discriminate C2.
Qed.

(** ** The required currency (C7) *)

Section Currency.

Import DeterministicExtractor Spec.

Lemma try_symbol_saturated (token : Token.t) (code : string) (fv : FieldValue.t)
  (symbol : string) :
  try_symbol token code (Some fv, 0.9%float) symbol = Ok (Some fv, 0.9%float).
Proof.
  unfold try_symbol. destruct (PyStr.contains symbol (Token.text token)); reflexivity.
Qed.

Lemma try_currency_saturated (token : Token.t) (fv : FieldValue.t)
  (entry : string * list string) :
  try_currency token (Some fv, 0.9%float) entry = Ok (Some fv, 0.9%float).
Proof.
  destruct entry as [code symbols]. unfold try_currency.
  apply for_each_unchanged. intros symbol _. apply try_symbol_saturated.
Qed.

Lemma scan_saturated (tokens : list Token.t) (fv : FieldValue.t) :
  for_each tokens (Some fv, 0.9%float)
    (fun st token => for_each currency_patterns st (try_currency token))
  = Ok (Some fv, 0.9%float).
Proof.
  apply for_each_unchanged. intros token _.
  apply for_each_unchanged. intros entry _. apply try_currency_saturated.
Qed.

Lemma try_symbol_first (token : Token.t) (code symbol : string) :
  in_unit_interval (Token.confidence token) = true ->
  try_symbol token code (None, 0.0%float) symbol
  = Ok (if symbol_in token symbol then found code token else (None, 0.0%float)).
Proof.
  intros Hvalid. unfold try_symbol, symbol_in.
  destruct (PyStr.contains symbol (Token.text token)); [|reflexivity].
  change (PyFloat.gt 0.9 0.0) with true. cbv iota.
  unfold evidence_of, Evidence.make. rewrite Hvalid. reflexivity.
Qed.

Lemma symbols_scan (token : Token.t) (code : string) (symbols : list string) :
  in_unit_interval (Token.confidence token) = true ->
  for_each symbols (None, 0.0%float) (try_symbol token code)
  = Ok (if existsb (symbol_in token) symbols then found code token else (None, 0.0%float)).
Proof.
  intros Hvalid. induction symbols as [|symbol tl IH]; [reflexivity|].
  cbn [for_each existsb]. rewrite (try_symbol_first token code symbol Hvalid).
  destruct (symbol_in token symbol); cbn [orb].
  - apply for_each_unchanged. intros s _. apply try_symbol_saturated.
  - exact IH.
Qed.

Lemma currencies_scan (token : Token.t) (entries : list (string * list string)) :
  in_unit_interval (Token.confidence token) = true ->
  for_each entries (None, 0.0%float) (try_currency token)
  = Ok match first_currency token entries with
       | Some entry => found (fst entry) token
       | None => (None, 0.0%float)
       end.
Proof.
  intros Hvalid. induction entries as [|[code symbols] tl IH]; [reflexivity|].
  cbn [for_each first_currency find snd fst].
  change (try_currency token (None, 0.0%float) (code, symbols))
    with (for_each symbols (None, 0.0%float) (try_symbol token code)).
  rewrite (symbols_scan token code symbols Hvalid).
  destruct (existsb (symbol_in token) symbols).
  - apply for_each_unchanged. intros entry _. apply try_currency_saturated.
  - exact IH.
Qed.

Lemma first_currency_mentions (token : Token.t) :
  first_currency token currency_patterns = None <-> Spec.mentions_currency token = false.
Proof.
  unfold first_currency, Spec.mentions_currency, symbol_in.
  generalize currency_patterns. intros entries.
  induction entries as [|entry tl IH]; cbn [find existsb]; [split; reflexivity|].
  destruct (existsb _ (snd entry)); cbn [orb]; [split; discriminate | exact IH].
Qed.

Lemma tokens_scan (tokens : list Token.t) :
  Forall (fun t => in_unit_interval (Token.confidence t) = true) tokens ->
  for_each tokens (None, 0.0%float)
    (fun st token => for_each currency_patterns st (try_currency token))
  = Ok match find Spec.mentions_currency tokens with
       | Some token =>
           match first_currency token currency_patterns with
           | Some entry => found (fst entry) token
           | None => (None, 0.0%float)
           end
       | None => (None, 0.0%float)
       end.
Proof.
  induction 1 as [|token tl Hvalid _ IH]; [reflexivity|].
  cbn [for_each find]. rewrite (currencies_scan token currency_patterns Hvalid).
  destruct (Spec.mentions_currency token) eqn:Hm.
  - destruct (first_currency token currency_patterns) as [entry|] eqn:Hf.
    + apply scan_saturated.
    + apply first_currency_mentions in Hf. congruence.
  - apply first_currency_mentions in Hm. rewrite Hm. exact IH.
Qed.

End Currency.

(** C7: on tokens as the Token model admits them (confidence in [0,1]), the
    required currency lookup returns EUR with confidence 0.1 and no evidence
    when no token mentions an entry of the currency table; when some token
    does, it returns a code of the table with confidence 0.9, with that
    token as evidence. *)
Theorem find_currency_required (tokens : list Token.t) :
  Forall (fun t => in_unit_interval (Token.confidence t) = true) tokens ->
  (existsb Spec.mentions_currency tokens = false ->
   DeterministicExtractor._find_currency tokens true
   = Ok (Some (FieldValue.mk (VStr "EUR") 0.1 [])))
  /\ (existsb Spec.mentions_currency tokens = true ->
      exists code token,
        In code Spec.table_codes /\ In token tokens
        /\ Spec.mentions_currency token = true
        /\ DeterministicExtractor._find_currency tokens true
           = Ok (Some (Spec.currency_field code token))).
Proof.
  intros Hvalid. unfold DeterministicExtractor._find_currency.
  rewrite (tokens_scan tokens Hvalid). cbn [bind]. split.
  - intros Hnone.
    destruct (find Spec.mentions_currency tokens) as [token|] eqn:Hfind.
    + apply find_some in Hfind. destruct Hfind as [Hin Hm].
      assert (Hex : existsb Spec.mentions_currency tokens = true)
        by (apply existsb_exists; exists token; split; assumption).
      congruence.
    + reflexivity.
  - intros Hsome. apply existsb_exists in Hsome. destruct Hsome as [t [Hin Hm]].
    destruct (find Spec.mentions_currency tokens) as [token|] eqn:Hfind.
    + apply find_some in Hfind. destruct Hfind as [Hin' Hm'].
      destruct (Spec.first_currency token DeterministicExtractor.currency_patterns)
        as [entry|] eqn:Hf.
      * exists (fst entry), token. repeat split; try assumption.
        apply find_some in Hf. destruct Hf as [He _].
        unfold Spec.table_codes. apply in_map. exact He.
      * apply first_currency_mentions in Hf. congruence.
    + apply (find_none _ _ Hfind) in Hin. congruence.
Qed.

Lemma find_currency_required_witness :
  DeterministicExtractor._find_currency [Sample.token "Total" 0.99 10 100] true
  = Ok (Some (FieldValue.mk (VStr "EUR") 0.1 []))
  /\ exists code token,
       In code Spec.table_codes /\ In token Sample.tokens
       /\ Spec.mentions_currency token = true
       /\ DeterministicExtractor._find_currency Sample.tokens true
          = Ok (Some (Spec.currency_field code token)).
Proof.
  split.
  - apply (find_currency_required [Sample.token "Total" 0.99 10 100]).
    + repeat constructor.
    + reflexivity.
  - apply (find_currency_required Sample.tokens).
    + repeat constructor.
    + reflexivity.
Defined.

(** ** The confidence score (C8) *)



(** ** The FieldValue invariant (C9) *)

Section FieldInvariant.

Import DeterministicExtractor Spec.

Lemma in_unit_interval_range (c : float) :
  in_unit_interval c = true <-> PrimFloat.leb 0 c = true /\ PrimFloat.leb c 1 = true.
Proof. unfold in_unit_interval, PyFloat.ge, PyFloat.le. apply andb_true_iff. Qed.

Lemma make_ok (v : pyval) (c : float) (e : list Evidence.t) (fv : FieldValue.t) :
  (e = [] -> PrimFloat.leb c 0.5 = true) ->
  FieldValue.make v c e = Ok fv -> field_ok fv.
Proof.
  intros He. unfold FieldValue.make. destruct (in_unit_interval c) eqn:Hc; [|discriminate].
  intros H. injection H as <-. split; [now apply in_unit_interval_range | exact He].
Qed.

Lemma try_label_ok (tokens : list Token.t) (field_type : string) (token : Token.t)
  (st : best) (pattern : string) (st' : best) :
  best_ok st -> try_label tokens field_type token st pattern = Ok st' ->
  best_ok st'.
Proof.
  intros HP. unfold try_label. destruct st as [bm bc].
  destruct (PyStr.contains _ _); [|kept HP].
  destruct (_find_value_near_token tokens token field_type) as [vt|]; [|kept HP].
  destruct (PyFloat.gt _ bc); [|kept HP].
  bind_ok ev Hev. bind_ok fv Hm.
  intros H. injection H as <-. intros fv' Hfv. cbn [fst] in Hfv. injection Hfv as <-.
  revert Hm. apply make_ok. discriminate.
Qed.

Lemma try_symbol_ok (token : Token.t) (code : string) (st : best) (symbol : string)
  (st' : best) :
  best_ok st -> try_symbol token code st symbol = Ok st' -> best_ok st'.
Proof.
  intros HP. unfold try_symbol. destruct st as [bm bc].
  destruct (PyStr.contains _ _); [|kept HP].
  destruct (PyFloat.gt _ bc); [|kept HP].
  bind_ok ev Hev. bind_ok fv Hm.
  intros H. injection H as <-. intros fv' Hfv. cbn [fst] in Hfv. injection Hfv as <-.
  revert Hm. apply make_ok. discriminate.
Qed.

Lemma or_default_ok (required : bool) (default : result FieldValue.t) (st : best)
  (fv : FieldValue.t) :
  best_ok st -> (forall d, default = Ok d -> field_ok d) ->
  or_default required default st = Ok (Some fv) -> field_ok fv.
Proof.
  intros HP Hd. unfold or_default. destruct (fst st) as [b|] eqn:Hb.
  - intros H. injection H as <-. now apply HP.
  - destruct required; [|discriminate].
    destruct default as [d|e]; cbn [bind]; [|discriminate].
    intros H. injection H as <-. now apply Hd.
Qed.

Lemma none_ok : best_ok (None, 0.0%float).
Proof. intros fv H. discriminate H. Qed.

Lemma find_field_ok (tokens : list Token.t) (field_type : string) (required : bool)
  (fv : FieldValue.t) :
  _find_field_by_patterns tokens field_type required = Ok (Some fv) ->
  field_ok fv.
Proof.
  unfold _find_field_by_patterns. bind_ok st Hloop.
  apply or_default_ok.
  - revert Hloop. apply for_each_invariant; [|exact none_ok].
    intros st0 token st1 HP. apply for_each_invariant; [|exact HP].
    intros s p s'. apply try_label_ok.
  - intros d. apply make_ok. reflexivity.
Qed.

Lemma find_currency_ok (tokens : list Token.t) (required : bool) (fv : FieldValue.t) :
  _find_currency tokens required = Ok (Some fv) -> field_ok fv.
Proof.
  unfold _find_currency. bind_ok st Hloop.
  apply or_default_ok.
  - revert Hloop. apply for_each_invariant; [|exact none_ok].
    intros st0 token st1 HP. apply for_each_invariant; [|exact HP].
    intros s [code symbols] s' HP'. unfold try_currency.
    apply for_each_invariant; [|exact HP'].
    intros s0 sym s1. apply try_symbol_ok.
  - intros d. apply make_ok. reflexivity.
Qed.

Lemma required_field_ok (r : result (option FieldValue.t)) (fv : FieldValue.t) :
  (forall f, r = Ok (Some f) -> field_ok f) ->
  required_field r = Ok fv -> field_ok fv.
Proof.
  intros Hr. unfold required_field. destruct r as [[f|]|e]; cbn [bind]; try discriminate.
  intros H. injection H as <-. now apply Hr.
Qed.

Lemma optional_ok_intro (o : option FieldValue.t) :
  (forall fv, o = Some fv -> field_ok fv) -> optional_ok o.
Proof.
  intros H. destruct o as [fv|]; constructor; [now apply H | constructor].
Qed.

Lemma field_of_token_ok (v : pyval) (token : Token.t) (fv : FieldValue.t) :
  field_of_token v token = Ok fv -> field_ok fv.
Proof.
  unfold field_of_token. bind_ok ev Hev. apply make_ok. discriminate.
Qed.

Lemma first_field_ok (tokens : list Token.t)
  (pick : Token.t -> result (option pyval)) (o : option FieldValue.t) :
  first_field tokens pick = Ok o -> optional_ok o.
Proof.
  induction tokens as [|token tl IH]; cbn [first_field].
  - intros H. injection H as <-. constructor.
  - destruct (pick token) as [[v|]|e]; cbn [bind]; [| exact IH | discriminate].
    destruct (field_of_token v token) as [fv|e] eqn:Hf; cbn [bind]; [|discriminate].
    intros H. injection H as <-. apply optional_ok_intro.
    intros fv' Hfv. injection Hfv as <-. now apply field_of_token_ok in Hf.
Qed.

Lemma line_items_ok (tokens : list Token.t) (items : list LineItem.t) :
  _extract_line_items tokens = Ok items ->
  Forall field_ok (flat_map line_item_fields items).
Proof.
  unfold _extract_line_items.
  apply (for_each_invariant
           (fun items => Forall field_ok (flat_map line_item_fields items)));
    [|constructor].
  intros acc group acc' Hacc.
  bind_ok description Hd. bind_ok q Hq. bind_ok u Hu. bind_ok t Ht.
  bind_ok ta Hta. bind_ok tr Htr.
  destruct description as [d|]; [|kept Hacc].
  destruct (PyVal.truthy _); [|kept Hacc].
  bind_ok item Hm.
  intros H. injection H as <-.
  rewrite flat_map_app. apply Forall_app. split; [exact Hacc|].
  cbn [flat_map]. rewrite app_nil_r.
  unfold LineItem.make in Hm. destruct (value_missing d); [discriminate|].
  injection Hm as <-. unfold line_item_fields.
  cbn [LineItem.description LineItem.quantity LineItem.unit_price LineItem.total
       LineItem.tax_amount LineItem.tax_rate].
  constructor.
  - unfold _extract_line_description in Hd. destruct group as [|first rest]; [discriminate|].
    revert Hd. bind_ok fv Hf.
    intros Hd. injection Hd as <-. now apply field_of_token_ok in Hf.
  - repeat (apply Forall_app; split).
    + now apply first_field_ok in Hq.
    + now apply first_field_ok in Hu.
    + unfold _extract_line_total in Ht. destruct (rev _) as [|[amount token] tl].
      * injection Ht as <-. constructor.
      * revert Ht. bind_ok fv Hf.
        intros Ht. injection Ht as <-. apply optional_ok_intro.
        intros fv' Hfv. injection Hfv as <-. now apply field_of_token_ok in Hf.
    + now apply first_field_ok in Hta.
    + now apply first_field_ok in Htr.
Qed.

Lemma map_result_cons {A B : Type} (f : A -> result B) (x : A) (l : list A)
  (ys : list B) :
  map_result f (x :: l) = Ok ys -> ys <> [].
Proof.
  cbn [map_result]. destruct (f x); [|discriminate].
  destruct (map_result f l); [|discriminate].
  intros H. injection H as <-. discriminate.
Qed.

Lemma notes_ok (tokens : list Token.t) (o : option FieldValue.t) :
  _extract_notes tokens = Ok o -> optional_ok o.
Proof.
  unfold _extract_notes. destruct (filter _ tokens) as [|first rest].
  - intros H. injection H as <-. constructor.
  - bind_ok evs He. bind_ok fv Hm.
    intros H. injection H as <-. apply optional_ok_intro.
    intros fv' Hfv. injection Hfv as <-. revert Hm. apply make_ok.
    intros Hnil. now apply map_result_cons in He.
Qed.

Lemma find_optional_ok (tokens : list Token.t) (field_type : string)
  (o : option FieldValue.t) :
  _find_field_by_patterns tokens field_type false = Ok o -> optional_ok o.
Proof.
  intros H. apply optional_ok_intro. intros fv ->. now apply find_field_ok in H.
Qed.

Lemma vendor_ok (cache : vendor_cache) (tokens : list Token.t) (h : string)
  (vendor : Vendor.t) :
  clean cache -> fst (_extract_vendor cache tokens h) = Ok vendor ->
  Forall field_ok
    (Vendor.name vendor :: optional (Vendor.address vendor)
     ++ optional (Vendor.tax_id vendor) ++ optional (Vendor.phone vendor)
     ++ optional (Vendor.email vendor)).
Proof.
  intros Hclean. unfold _extract_vendor.
  destruct (required_field _) as [name|e] eqn:Hn; cbn [bind]; [|discriminate].
  rewrite !find_field_without_patterns by reflexivity. cbn [bind or_else].
  assert (Hget : forall get : zones -> option FieldValue.t,
            get empty_zones = None ->
            match cache_get cache h with Some z => get z | None => None end = None).
  { intros get Hg. destruct (cache_get cache h) as [z|] eqn:Hc; [|reflexivity].
    now rewrite (clean_get cache h z Hclean Hc). }
  rewrite !Hget by reflexivity.
  cbn [fst]. intros H. injection H as <-.
  cbn [Vendor.name Vendor.address Vendor.tax_id Vendor.phone Vendor.email optional app].
  constructor; [|constructor].
  revert Hn. apply required_field_ok. intros f. apply find_field_ok.
Qed.

Lemma amounts_ok (tokens : list Token.t) (a : Amounts.t) :
  _extract_amounts tokens = Ok a ->
  Forall field_ok
    (optional (Amounts.subtotal a) ++ optional (Amounts.tax_amount a)
     ++ optional (Amounts.tax_rate a) ++ optional (Amounts.discount a)
     ++ optional (Amounts.shipping a) ++ [Amounts.grand_total a; Amounts.currency a]).
Proof.
  unfold _extract_amounts.
  bind_ok s Hs. bind_ok t Ht. bind_ok r Hr. bind_ok d Hd. bind_ok sh Hsh.
  bind_ok g Hg. bind_ok c Hc.
  unfold Amounts.make.
  destruct (PyVal.is_none (FieldValue.value g)); [discriminate|].
  destruct (PyVal.is_none (FieldValue.value c)); [discriminate|].
  intros H. injection H as <-.
  cbn [Amounts.subtotal Amounts.tax_amount Amounts.tax_rate Amounts.discount
       Amounts.shipping Amounts.grand_total Amounts.currency].
  repeat (apply Forall_app; split); try (eapply find_optional_ok; eassumption).
  constructor; [|constructor; [|constructor]].
  - revert Hg. apply required_field_ok. intros f. apply find_field_ok.
  - revert Hc. apply required_field_ok. intros f. apply find_currency_ok.
Qed.

(** Every field of an extracted invoice is in range, and at most 0.5
    without evidence. *)
Lemma extract_invoice_ok (cache : vendor_cache) (now : Z) (tokens : list Token.t)
  (filename processing_id : string) (invoice : Invoice.t) :
  clean cache ->
  fst (extract_invoice cache now tokens filename processing_id) = Ok invoice ->
  Forall field_ok (invoice_fields invoice).
Proof.
  intros Hclean. unfold extract_invoice.
  pose proof (vendor_ok cache tokens (_create_layout_fingerprint tokens)) as Hv.
  destruct (_extract_vendor cache tokens (_create_layout_fingerprint tokens)) as [rv c].
  cbn [fst] in *.
  destruct rv as [v|e]; cbn [bind]; [|discriminate].
  specialize (Hv v Hclean eq_refl).
  bind_ok a Ha. bind_ok n Hn. bind_ok d Hd. bind_ok due Hdue. bind_ok items Hi.
  bind_ok notes Hno. bind_ok pt Hpt. bind_ok po Hpo.
  unfold Invoice.make.
  repeat match goal with
         | |- context [if ?c then _ else _] => destruct c; [discriminate|]
         end.
  intros H. injection H as <-. unfold invoice_fields.
  cbn [Invoice.invoice_number Invoice.invoice_date Invoice.due_date Invoice.vendor
       Invoice.amounts Invoice.line_items Invoice.notes Invoice.payment_terms
       Invoice.po_number].
  apply amounts_ok in Ha. apply line_items_ok in Hi.
  apply notes_ok in Hno.
  apply first_field_ok in Hpt. apply first_field_ok in Hpo.
  apply find_optional_ok in Hdue.
  assert (Hn' : field_ok n).
  { revert Hn. apply required_field_ok. intros f. apply find_field_ok. }
  assert (Hd' : field_ok d).
  { revert Hd. apply required_field_ok. intros f. apply find_field_ok. }
  constructor; [exact Hn'|]. constructor; [exact Hd'|].
  apply Forall_app. split; [exact Hdue|].
  unfold optional_ok in *.
  repeat (first [rewrite Forall_app in * | rewrite Forall_cons_iff in *]).
  intuition.
Qed.


Lemma classify_keeps_fields (predict : pyval -> pyval -> string * float)
  (invoice : Invoice.t) :
  invoice_fields (ProcessingPipeline._classify_line_items predict invoice)
  = invoice_fields invoice.
Proof.
  unfold ProcessingPipeline._classify_line_items, invoice_fields.
  cbn [Invoice.set_line_items Invoice.invoice_number Invoice.invoice_date Invoice.due_date
       Invoice.vendor Invoice.amounts Invoice.line_items Invoice.notes
       Invoice.payment_terms Invoice.po_number].
  match goal with
  | |- context [flat_map line_item_fields (map ?f ?l)] =>
      assert (Hitems : flat_map line_item_fields (map f l) = flat_map line_item_fields l)
  end.
  { induction (Invoice.line_items invoice) as [|item tl IH]; [reflexivity|].
    cbn [map flat_map]. rewrite IH. f_equal.
    destruct (PyVal.truthy (FieldValue.value (LineItem.description item))); [|reflexivity].
    destruct (predict _ _). reflexivity. }
  rewrite Hitems. reflexivity.
Qed.





End FieldInvariant.



(** The constructor asks only that: the range check passes exactly when the
    construction succeeds. *)
Lemma field_value_make_iff (value : pyval) (confidence : float) (evidence : list Evidence.t) :
  is_ok (FieldValue.make value confidence evidence) = in_unit_interval confidence.
Proof.
  unfold FieldValue.make. destruct (in_unit_interval confidence); reflexivity.
Qed.


(** ** The report of the engine (C10) *)

(** C10: the report [validate_invoice] returns has [passed] true exactly
    when its list of failures is empty, so [ok()] agrees with [passed]. *)
Theorem report_passed_iff_no_failures (th : ProcessingThresholds.t) (invoice : Invoice.t) :
  let report := RulesEngine.validate_invoice th invoice in
  (RuleReport.passed report = true <-> RuleReport.failures report = [])
  /\ RuleReport.ok report = RuleReport.passed report.
Proof.
  cbv zeta. unfold RulesEngine.validate_invoice, RuleReport.ok.
  cbn [RuleReport.passed RuleReport.failures].
  match goal with
  | |- context [List.length ?l] => generalize l
  end.
  intros [|f l]; cbn [List.length Nat.eqb andb].
  - split; [split; reflexivity | reflexivity].
  - split; [split; discriminate | reflexivity].
Qed.

(** * Further properties of the code *)

(** ** Line items *)

Lemma for_each_invariant_in {A S : Type} (P : S -> Prop) (l : list A)
  (body : S -> A -> result S) :
  (forall st x st', In x l -> P st -> body st x = Ok st' -> P st') ->
  forall st st', P st -> for_each l st body = Ok st' -> P st'.
Proof.
  induction l as [|x l IH]; intros Hbody st st' HP; cbn [for_each].
  - intros H. injection H as <-. exact HP.
  - destruct (body st x) as [st1|e] eqn:Hx; [|discriminate].
    apply IH.
    + intros s y s' Hy. apply Hbody. now right.
    + apply (Hbody st x st1); [now left | exact HP | exact Hx].
Qed.

Section LineItems.

Import DeterministicExtractor.

Lemma line_item_groups_spec (tokens : list Token.t) :
  List.concat (_find_line_item_tokens tokens) = filter looks tokens
  /\ Forall (fun g => g <> []) (_find_line_item_tokens tokens).
Proof.
  unfold _find_line_item_tokens.
  match goal with |- context [fold_left ?f _ _] => set (step := f) end.
  assert (G : forall l li cur,
    Forall (fun g : list Token.t => g <> []) li ->
    (List.concat (fst (fold_left step l (li, cur))) ++ snd (fold_left step l (li, cur))
     = List.concat li ++ cur ++ filter looks l)%list
    /\ Forall (fun g : list Token.t => g <> []) (fst (fold_left step l (li, cur)))).
  { induction l as [|t l IH]; intros li cur Hli; cbn [fold_left filter].
    - cbn [fst snd]. rewrite app_nil_r. auto.
    - unfold step at 2 4 6. unfold looks at 1. fold (looks t).
      destruct (looks t) eqn:Ht.
      + destruct (IH li (cur ++ [t])%list Hli) as [E F]. split; [|exact F].
        rewrite E, <- app_assoc. reflexivity.
      + destruct cur as [|c cur'].
        * apply IH. exact Hli.
        * destruct (IH (li ++ [c :: cur'])%list []) as [E F].
          { apply Forall_app. split; [exact Hli|]. constructor; [discriminate|constructor]. }
          split; [|exact F].
          rewrite E, List.concat_app. cbn [List.concat app]. rewrite app_nil_r, <- app_assoc.
          reflexivity. }
  specialize (G tokens [] [] (Forall_nil _)).
  destruct (fold_left step tokens ([], [])) as [li cur]. cbn [fst snd List.concat app] in G.
  destruct G as [E F]. destruct cur as [|c cur'].
  - rewrite app_nil_r in E. auto.
  - split.
    + rewrite List.concat_app. cbn [List.concat]. rewrite app_nil_r. exact E.
    + apply Forall_app. split; [exact F|]. constructor; [discriminate|constructor].
Qed.

Lemma group_tokens_look (tokens group : list Token.t) (t : Token.t) :
  In group (_find_line_item_tokens tokens) -> In t group -> looks t = true /\ In t tokens.
Proof.
  intros Hg Ht. destruct (line_item_groups_spec tokens) as [E _].
  assert (H : In t (List.concat (_find_line_item_tokens tokens))).
  { apply List.in_concat. exists group. auto. }
  rewrite E in H. apply filter_In in H. tauto.
Qed.

End LineItems.

(** ** Character classes and strings *)

Lemma digit_not_alpha (c : ascii) : PyStr.is_digit c = true -> PyStr.is_alpha c = false.
Proof. destruct c as [[] [] [] [] [] [] [] []]; vm_compute; congruence. Qed.

Lemma alpha_not_space (c : ascii) : PyStr.is_alpha c = true -> PyStr.is_space c = false.
Proof. destruct c as [[] [] [] [] [] [] [] []]; vm_compute; congruence. Qed.

Lemma existsb_app (p : ascii -> bool) (a b : string) :
  PyStr.existsb p (a ++ b) = PyStr.existsb p a || PyStr.existsb p b.
Proof.
  induction a as [|c a IH]; cbn [append PyStr.existsb]; [reflexivity|].
  rewrite IH. apply orb_assoc.
Qed.

Lemma forallb_not_existsb (p q : ascii -> bool) (s : string) :
  (forall c, p c = true -> q c = false) ->
  PyStr.forallb p s = true -> PyStr.existsb q s = false.
Proof.
  intros Hpq. induction s as [|c s IH]; cbn [PyStr.forallb PyStr.existsb]; [reflexivity|].
  intros H. apply andb_prop in H. destruct H as [Hc Hs].
  rewrite (Hpq c Hc), (IH Hs). reflexivity.
Qed.

Lemma existsb_lstrip (p q : ascii -> bool) (s : string) :
  (forall c, q c = true -> p c = false) ->
  PyStr.existsb q (PyStr.lstrip_by p s) = PyStr.existsb q s.
Proof.
  intros Hqp. induction s as [|c s IH]; cbn [PyStr.lstrip_by PyStr.existsb]; [reflexivity|].
  destruct (p c) eqn:Hp; [|reflexivity].
  rewrite IH. destruct (q c) eqn:Hq; [|reflexivity].
  rewrite (Hqp c Hq) in Hp. discriminate.
Qed.

Lemma existsb_rstrip (p q : ascii -> bool) (s : string) :
  (forall c, q c = true -> p c = false) ->
  PyStr.existsb q (PyStr.rstrip_by p s) = PyStr.existsb q s.
Proof.
  intros Hqp. induction s as [|c s IH]; cbn [PyStr.rstrip_by PyStr.existsb]; [reflexivity|].
  destruct (PyStr.rstrip_by p s) as [|c' r] eqn:Hr.
  - cbn [PyStr.existsb] in IH. rewrite <- IH, orb_false_r.
    destruct (p c) eqn:Hp; cbn [PyStr.existsb]; [|apply orb_false_r].
    destruct (q c) eqn:Hq; [|reflexivity].
    rewrite (Hqp c Hq) in Hp. discriminate.
  - cbn [PyStr.existsb] in *. rewrite IH. reflexivity.
Qed.

Lemma existsb_strip (p q : ascii -> bool) (s : string) :
  (forall c, q c = true -> p c = false) ->
  PyStr.existsb q (PyStr.strip_by p s) = PyStr.existsb q s.
Proof.
  intros Hqp. unfold PyStr.strip_by.
  rewrite existsb_rstrip, existsb_lstrip by exact Hqp. reflexivity.
Qed.

(** ** Regular expressions *)

Lemma rep_rests_prefix (p : ascii -> bool) (hi lo : nat) (s rest : string) :
  In rest (Re.rep_rests p lo hi s) ->
  exists pre, s = pre ++ rest /\ PyStr.forallb p pre = true.
Proof.
  revert lo s. induction hi as [|hi IH]; intros lo s; cbn [Re.rep_rests].
  - destruct (Nat.eqb lo 0); cbn [In]; [|tauto].
    intros [<-|[]]. exists "". auto.
  - assert (Hstop : In rest (if Nat.eqb lo 0 then [s] else []) ->
                    exists pre, s = pre ++ rest /\ PyStr.forallb p pre = true).
    { destruct (Nat.eqb lo 0); cbn [In]; [|tauto]. intros [<-|[]]. exists "". auto. }
    destruct s as [|c s']; [exact Hstop|].
    destruct (p c) eqn:Hc; [|exact Hstop].
    intros H. apply in_app_or in H. destruct H as [H|H]; [|exact (Hstop H)].
    apply IH in H. destruct H as (pre & -> & Hpre).
    exists (String c pre). cbn [append PyStr.forallb]. rewrite Hc, Hpre. auto.
Qed.

Section LineQuantity.

Import DeterministicExtractor.

Lemma digits_no_alpha (pre : string) :
  PyStr.forallb PyStr.is_digit pre = true -> PyStr.existsb PyStr.is_alpha pre = false.
Proof. apply forallb_not_existsb. exact digit_not_alpha. Qed.

Lemma eol_no_alpha (s rest : string) :
  In rest (Re.matches Re.Eol s) -> PyStr.existsb PyStr.is_alpha s = false.
Proof.
  cbn [Re.matches]. destruct s as [|c [|c' s']]; intros H.
  - reflexivity.
  - destruct (PyStr.is_char "010" c) eqn:Hc; [|contradiction].
    apply Ascii.eqb_eq in Hc. subst c. reflexivity.
  - contradiction.
Qed.

Lemma quantity_no_alpha (s : string) :
  Re.matches quantity_regex s <> [] -> PyStr.existsb PyStr.is_alpha s = false.
Proof.
  intros H. destruct (Re.matches quantity_regex s) as [|rest l] eqn:E; [congruence|]. clear H.
  assert (H : In rest (Re.matches quantity_regex s)) by (rewrite E; now left). clear E.
  unfold quantity_regex in H. cbn [Re.seq Re.matches] in H.
  apply in_flat_map in H. destruct H as (r1 & H1 & H).
  apply in_flat_map in H. destruct H as (r2 & H2 & H3).
  apply rep_rests_prefix in H1. destruct H1 as (pre1 & -> & Hpre1).
  rewrite existsb_app, (digits_no_alpha _ Hpre1). cbn [orb].
  apply in_app_or in H2. destruct H2 as [H2|[<-|[]]].
  - apply in_flat_map in H2. destruct H2 as (r & Hdot & H2).
    destruct r1 as [|c r1']; [contradiction|].
    unfold Re.chr in Hdot. cbn [Re.matches] in Hdot.
    destruct (PyStr.is_char "." c) eqn:Hc; [|contradiction].
    destruct Hdot as [<-|[]]. apply Ascii.eqb_eq in Hc. subst c.
    apply rep_rests_prefix in H2. destruct H2 as (pre2 & -> & Hpre2).
    cbn [PyStr.existsb]. rewrite existsb_app, (digits_no_alpha _ Hpre2). cbn [orb].
    exact (eol_no_alpha _ _ H3).
  - exact (eol_no_alpha _ _ H3).
Qed.

Lemma line_item_no_quantity (text : string) :
  _looks_like_line_item text = true ->
  Re.match_ quantity_regex (PyStr.strip text) = None.
Proof.
  unfold _looks_like_line_item. intros H.
  apply andb_prop in H. destruct H as [H _]. apply andb_prop in H. destruct H as [H _].
  unfold Re.match_.
  destruct (Re.matches quantity_regex (PyStr.strip text)) as [|rest l] eqn:E; [reflexivity|].
  assert (N : PyStr.existsb PyStr.is_alpha (PyStr.strip text) = false).
  { apply quantity_no_alpha. rewrite E. discriminate. }
  unfold PyStr.strip in N. rewrite existsb_strip in N by exact alpha_not_space.
  congruence.
Qed.

Lemma first_field_none (tokens : list Token.t) (pick : Token.t -> result (option pyval)) :
  (forall t, In t tokens -> pick t = Ok None) -> first_field tokens pick = Ok None.
Proof.
  induction tokens as [|t l IH]; intros H; cbn [first_field]; [reflexivity|].
  rewrite (H t) by now left. cbn [bind]. apply IH. intros t' Ht'. apply H. now right.
Qed.

Lemma group_quantity (tokens group : list Token.t) :
  In group (_find_line_item_tokens tokens) -> _extract_line_quantity group = Ok None.
Proof.
  intros Hg. unfold _extract_line_quantity. apply first_field_none. intros t Ht.
  destruct (group_tokens_look tokens group t Hg Ht) as [Hl _].
  fold quantity_regex. rewrite (line_item_no_quantity _ Hl). reflexivity.
Qed.

(** X2 ([_extract_line_items], [_extract_line_quantity]): no extracted line
    item has a quantity.  The tokens of a group hold a letter, and the
    quantity pattern [^\d+(\.\d+)?$] matches no such text. *)
Theorem line_items_without_quantity (tokens : list Token.t) (items : list LineItem.t) :
  _extract_line_items tokens = Ok items ->
  Forall (fun item => LineItem.quantity item = None) items.
Proof.
  unfold _extract_line_items.
  apply (for_each_invariant_in (Forall (fun item => LineItem.quantity item = None)));
    [|constructor].
  intros acc group acc' Hg Hacc.
  rewrite (group_quantity tokens group Hg).
  destruct (_extract_line_description group) as [description|]; cbn [bind]; [|discriminate].
  destruct (_extract_line_unit_price group) as [u|]; cbn [bind]; [|discriminate].
  destruct (_extract_line_total group) as [t|]; cbn [bind]; [|discriminate].
  destruct (_extract_line_tax_amount group) as [ta|]; cbn [bind]; [|discriminate].
  destruct (_extract_line_tax_rate group) as [tr|]; cbn [bind]; [|discriminate].
  destruct description as [d|]; [|intros H; injection H as <-; exact Hacc].
  destruct (PyVal.truthy _); [|intros H; injection H as <-; exact Hacc].
  unfold LineItem.make. destruct (value_missing d); cbn [bind]; [discriminate|].
  intros H. injection H as <-. apply Forall_app. split; [exact Hacc|].
  constructor; [reflexivity|constructor].
Qed.

End LineQuantity.

(** X1 ([_find_line_item_tokens]): the groups split up the tokens that look
    like line items.  Put end to end they are exactly those tokens, in the
    order of the document, and no group is empty. *)
Theorem line_item_groups_partition (tokens : list Token.t) :
  List.concat (DeterministicExtractor._find_line_item_tokens tokens) = filter looks tokens
  /\ Forall (fun g => g <> []) (DeterministicExtractor._find_line_item_tokens tokens).
Proof. exact (line_item_groups_spec tokens). Qed.

Lemma line_items_without_quantity_witness :
  exists items,
    DeterministicExtractor._extract_line_items Cases.line = Ok items
    /\ items <> []
    /\ Forall (fun item => LineItem.quantity item = None) items.
Proof.
  eexists. split; [vm_compute; reflexivity|]. split; [discriminate|].
  apply (line_items_without_quantity Cases.line). vm_compute. reflexivity.
Defined.

(** ** The rules the engine reports *)

(** Going back through a sequence of calls that returned. *)
Ltac returned H :=
  repeat match type of H with
  | bind ?c _ = Ok _ => destruct c eqn:?; cbn [bind] in H; [|discriminate H]
  | (if ?b then _ else _) = Ok _ => destruct b eqn:?
  | match ?x with _ => _ end = Ok _ => destruct x eqn:?
  | Raise _ = Ok _ => discriminate H
  end.

Ltac named :=
  repeat first
    [ apply Forall_nil
    | apply Forall_cons; [split; [cbn; tauto | reflexivity]|] ].

Ltac settle H :=
  returned H; injection H as <-;
  repeat match goal with |- Forall _ (if ?b then _ else _) => destruct b end;
  named.

Section RuleNames.

Import RulesEngine.

Lemma arithmetic_rules (th : ProcessingThresholds.t) (invoice : Invoice.t) :
  Forall (rule_in ["arithmetic_balance"]) (_validate_arithmetic th invoice).
Proof.
  unfold _validate_arithmetic.
  match goal with |- Forall _ (try_except ?c _) => destruct c as [l|e] eqn:H end;
    cbn [try_except].
  - settle H.
  - named.
Qed.

Lemma line_sum_check_rules (th : ProcessingThresholds.t) (rule path reason fix_ : string)
  (total expected : Dec.t) (l : list Failure.t) :
  PyStr.startswith "/" path = true ->
  line_sum_check th rule path reason fix_ total expected = Ok l ->
  Forall (rule_in [rule]) l.
Proof.
  intros Hp H. unfold line_sum_check in H.
  returned H; injection H as <-; repeat first [apply Forall_nil | apply Forall_cons; [split; [cbn; tauto | exact Hp]|]].
Qed.

Lemma line_sum_check_zero (th : ProcessingThresholds.t) (rule path reason fix_ : string)
  (expected : Dec.t) :
  line_sum_check th rule path reason fix_ zero expected = Ok [].
Proof. reflexivity. Qed.

Lemma Forall_weaken_rules (names names' : list string) (l : list Failure.t) :
  incl names names' -> Forall (rule_in names) l -> Forall (rule_in names') l.
Proof.
  intros Hi. apply Forall_impl. intros f [H1 H2]. split; [apply Hi, H1 | exact H2].
Qed.

Lemma line_sum_rules (th : ProcessingThresholds.t) (invoice : Invoice.t) :
  Forall (rule_in ["line_sum_subtotal"; "line_sum_tax"; "line_sum"])
         (_validate_line_sum th invoice).
Proof.
  unfold _validate_line_sum.
  match goal with |- Forall _ (match ?c with _ => _ end) => destruct c as [[[[a b] c'] d]|e] end.
  2: { named. }
  match goal with |- Forall _ (match ?c with _ => _ end) => destruct c as [l1|e] eqn:H1 end.
  2: { named. }
  apply line_sum_check_rules in H1; [|reflexivity].
  match goal with |- Forall _ (match ?c with _ => _ end) => destruct c as [l2|e] eqn:H2 end.
  - apply line_sum_check_rules in H2; [|reflexivity].
    apply Forall_app. split; eapply Forall_weaken_rules; try eassumption;
      intros x [<-|[]]; cbn [In]; auto.
  - apply Forall_app. split.
    + eapply Forall_weaken_rules; try eassumption. intros x [<-|[]]; cbn [In]; auto.
    + named.
Qed.

Lemma dates_rules (invoice : Invoice.t) :
  Forall (rule_in ["required_date"; "date_format"; "date_logic"]) (_validate_dates invoice).
Proof.
  unfold _validate_dates. apply Forall_app. split.
  - destruct (negb (PyVal.truthy _)); [named|]. destruct (negb (PyVal.is_date _)); named.
  - destruct (truthy_value _) as [due|]; [|named].
    destruct due; try named.
    destruct (FieldValue.value (Invoice.invoice_date invoice)); try named.
    destruct (Date.lt _ _); named.
Qed.

Lemma currency_rules (invoice : Invoice.t) :
  Forall (rule_in ["required_currency"; "currency_format"; "non_negative_amount";
                   "amount_format"])
         (_validate_currency invoice).
Proof.
  unfold _validate_currency. apply Forall_app. split.
  - destruct (negb (PyVal.truthy _)); [named|]. destruct (negb (known_currency _)); named.
  - apply Forall_flat_map, Forall_forall. intros [name field] _.
    destruct (given_value field) as [v|]; [|named].
    match goal with |- Forall _ (try_except ?c _) => destruct c as [l|e] eqn:H end;
      cbn [try_except]; [|named].
    settle H.
Qed.

Lemma duplicate_hash_rules (invoice : Invoice.t) :
  Forall (rule_in ["duplicate_hash"]) (_validate_duplicate_hash invoice).
Proof.
  unfold _validate_duplicate_hash. destruct (Invoice.duplicate_hash invoice) as [[|c s]|]; named.
Qed.

Lemma tax_coherence_rules (th : ProcessingThresholds.t) (invoice : Invoice.t) :
  Forall (rule_in ["tax_coherence"]) (_validate_tax_coherence th invoice).
Proof.
  unfold _validate_tax_coherence.
  match goal with |- Forall _ (try_except ?c _) => destruct c as [l|e] eqn:H end;
    cbn [try_except]; [|named].
  settle H.
Qed.

Lemma rounding_rules (th : ProcessingThresholds.t) (invoice : Invoice.t) :
  Forall (rule_in ["rounding_policy"]) (_validate_rounding_policy th invoice).
Proof.
  unfold _validate_rounding_policy.
  apply Forall_flat_map, Forall_forall. intros [name field] _.
  destruct (given_value field) as [v|]; [|named].
  match goal with |- Forall _ (try_except ?c _) => destruct c as [l|e] eqn:H end;
    cbn [try_except]; [|named].
  settle H.
Qed.

(** X5 ([validate_invoice] and the validators it calls): every failure of a
    report carries one of fourteen rule names, and its path is a JSON
    pointer starting with a slash. *)
Theorem engine_rule_names (th : ProcessingThresholds.t) (invoice : Invoice.t) :
  Forall (rule_in rule_names) (RuleReport.failures (validate_invoice th invoice)).
Proof.
  unfold validate_invoice. cbn [RuleReport.failures].
  rewrite !Forall_app. repeat split.
  - eapply Forall_weaken_rules; [|apply arithmetic_rules]. intros x H; cbn in *; tauto.
  - eapply Forall_weaken_rules; [|apply line_sum_rules]. intros x H; cbn in *; tauto.
  - eapply Forall_weaken_rules; [|apply dates_rules]. intros x H; cbn in *; tauto.
  - eapply Forall_weaken_rules; [|apply currency_rules]. intros x H; cbn in *; tauto.
  - eapply Forall_weaken_rules; [|apply duplicate_hash_rules]. intros x H; cbn in *; tauto.
  - eapply Forall_weaken_rules; [|apply tax_coherence_rules]. intros x H; cbn in *; tauto.
  - eapply Forall_weaken_rules; [|apply rounding_rules]. intros x H; cbn in *; tauto.
Qed.

End RuleNames.

(** ** Amounts *)

Lemma forallb_app (p : ascii -> bool) (a b : string) :
  PyStr.forallb p (a ++ b) = PyStr.forallb p a && PyStr.forallb p b.
Proof.
  induction a as [|c a IH]; cbn [append PyStr.forallb]; [reflexivity|].
  rewrite IH. apply andb_assoc.
Qed.

Lemma forallb_filter_self (p : ascii -> bool) (s : string) :
  PyStr.forallb p (PyStr.filter p s) = true.
Proof.
  induction s as [|c s IH]; cbn [PyStr.filter]; [reflexivity|].
  destruct (p c) eqn:Hc; [|exact IH]. cbn [PyStr.forallb]. rewrite Hc. exact IH.
Qed.

Lemma forallb_filter (p q : ascii -> bool) (s : string) :
  PyStr.forallb p s = true -> PyStr.forallb p (PyStr.filter q s) = true.
Proof.
  induction s as [|c s IH]; cbn [PyStr.filter PyStr.forallb]; [reflexivity|].
  intros H. apply andb_prop in H. destruct H as [Hc Hs].
  destruct (q c); [|auto]. cbn [PyStr.forallb]. rewrite Hc. auto.
Qed.

Lemma forallb_lstrip (p q : ascii -> bool) (s : string) :
  PyStr.forallb p s = true -> PyStr.forallb p (PyStr.lstrip_by q s) = true.
Proof.
  induction s as [|c s IH]; cbn [PyStr.lstrip_by]; [reflexivity|].
  intros H. destruct (q c); [|exact H].
  cbn [PyStr.forallb] in H. apply andb_prop in H. apply IH, H.
Qed.

Lemma forallb_rstrip (p q : ascii -> bool) (s : string) :
  PyStr.forallb p s = true -> PyStr.forallb p (PyStr.rstrip_by q s) = true.
Proof.
  induction s as [|c s IH]; cbn [PyStr.rstrip_by PyStr.forallb]; [reflexivity|].
  intros H. apply andb_prop in H. destruct H as [Hc Hs]. specialize (IH Hs).
  destruct (PyStr.rstrip_by q s) as [|c' r].
  - destruct (q c); [reflexivity|]. cbn [PyStr.forallb]. rewrite Hc. reflexivity.
  - cbn [PyStr.forallb] in *. rewrite Hc. exact IH.
Qed.

Lemma forallb_strip (p q : ascii -> bool) (s : string) :
  PyStr.forallb p s = true -> PyStr.forallb p (PyStr.strip_by q s) = true.
Proof. intros H. unfold PyStr.strip_by. apply forallb_rstrip, forallb_lstrip, H. Qed.

Lemma forallb_replace (p : ascii -> bool) (a : ascii) (b s : string) :
  PyStr.forallb p b = true -> PyStr.forallb p s = true ->
  PyStr.forallb p (PyStr.replace a b s) = true.
Proof.
  intros Hb. induction s as [|c s IH]; cbn [PyStr.replace PyStr.forallb]; [reflexivity|].
  intros H. apply andb_prop in H. destruct H as [Hc Hs].
  destruct (Ascii.eqb a c).
  - rewrite forallb_app, Hb. auto.
  - cbn [PyStr.forallb]. rewrite Hc. auto.
Qed.

Lemma span_app (p : ascii -> bool) (s : string) :
  s = fst (Numeral.span p s) ++ snd (Numeral.span p s).
Proof.
  induction s as [|c s IH]; cbn [Numeral.span]; [reflexivity|].
  destruct (p c); [|reflexivity].
  destruct (Numeral.span p s) as [a r]. cbn [fst snd append] in *. congruence.
Qed.

Lemma forallb_span_rest (p q : ascii -> bool) (s : string) :
  PyStr.forallb q s = true -> PyStr.forallb q (snd (Numeral.span p s)) = true.
Proof.
  intros H. rewrite (span_app p s), forallb_app in H. apply andb_prop in H. tauto.
Qed.

Lemma forallb_lower (p : ascii -> bool) (s : string) :
  (forall c, p c = true -> PyStr.lower_char c = c) ->
  PyStr.forallb p s = true -> PyStr.lower s = s.
Proof.
  intros Hp. induction s as [|c s IH]; cbn [PyStr.lower PyStr.forallb]; [reflexivity|].
  intros H. apply andb_prop in H. destruct H as [Hc Hs].
  rewrite (Hp c Hc), (IH Hs). reflexivity.
Qed.

Section Amounts.

Import DeterministicExtractor.

Lemma amount_char_lower (c : ascii) : amount_chars c = true -> PyStr.lower_char c = c.
Proof. destruct c as [[] [] [] [] [] [] [] []]; vm_compute; congruence. Qed.

Lemma amount_char_not_e (c : ascii) :
  amount_chars c = true -> PyStr.is_char "e" (PyStr.lower_char c) = false.
Proof. destruct c as [[] [] [] [] [] [] [] []]; vm_compute; congruence. Qed.

Lemma finite_exponent (body : string) (coef : N) (exp : Z) :
  PyStr.forallb amount_chars body = true ->
  Numeral.finite body = Some (coef, exp) -> exp <= 0.
Proof.
  intros Hb. unfold Numeral.finite.
  pose proof (forallb_span_rest PyStr.is_digit _ _ Hb) as H1.
  destruct (Numeral.span PyStr.is_digit body) as [ip r1]. cbn [snd] in H1.
  assert (H2 : forall fp r2,
    (match r1 with
     | String c r => if PyStr.is_char "." c then Numeral.span PyStr.is_digit r
                     else (EmptyString, r1)
     | EmptyString => (EmptyString, r1)
     end) = (fp, r2) -> PyStr.forallb amount_chars r2 = true).
  { intros fp r2. destruct r1 as [|c r]; [intros E; injection E as <- <-; reflexivity|].
    destruct (PyStr.is_char "." c).
    - intros E. cbn [PyStr.forallb] in H1. apply andb_prop in H1. destruct H1 as [_ H1].
      pose proof (forallb_span_rest PyStr.is_digit _ _ H1) as H. rewrite E in H. exact H.
    - intros E. injection E as <- <-. exact H1. }
  destruct (match r1 with String c r => _ | EmptyString => _ end) as [fp r2].
  specialize (H2 fp r2 eq_refl).
  destruct (Numeral.is_empty (ip ++ fp)); [discriminate|].
  destruct r2 as [|c r3].
  - intros E. injection E as <- <-. lia.
  - cbn [PyStr.forallb] in H2. apply andb_prop in H2. destruct H2 as [Hc _].
    rewrite (amount_char_not_e c Hc). discriminate.
Qed.

Lemma startswith_head (a : ascii) (p s : string) :
  PyStr.startswith (String a p) s = true -> exists s', s = String a s'.
Proof.
  destruct s as [|c s']; cbn [PyStr.startswith]; [discriminate|].
  intros H. apply andb_prop in H. destruct H as [H _]. apply Ascii.eqb_eq in H. subst c.
  now exists s'.
Qed.

Lemma amount_text_head (a : ascii) (p s : string) :
  amount_chars a = false -> PyStr.forallb amount_chars s = true ->
  PyStr.startswith (String a p) s = false.
Proof.
  intros Ha Hs. destruct (PyStr.startswith (String a p) s) eqn:E; [|reflexivity].
  apply startswith_head in E. destruct E as [s' ->].
  cbn [PyStr.forallb] in Hs. rewrite Ha in Hs. discriminate.
Qed.

Lemma amount_text_not (w s : string) :
  PyStr.forallb amount_chars w = false -> PyStr.forallb amount_chars s = true ->
  String.eqb s w = false.
Proof.
  intros Hw Hs. destruct (String.eqb s w) eqn:E; [|reflexivity].
  apply String.eqb_eq in E. congruence.
Qed.

(** [Decimal(s)] on a text of digits, points, commas and minus signs is a
    finite number without exponent, or an error. *)
Lemma decimal_of_amount_text (s : string) :
  PyStr.forallb amount_chars s = true ->
  match Dec.parse s with
  | Ok (Dec.Fin _ _ exp) => exp <= 0
  | Ok _ => False
  | Raise _ => True
  end.
Proof.
  intros Hs. unfold Dec.parse.
  assert (H0 : PyStr.forallb amount_chars
                 (PyStr.filter (fun c => negb (PyStr.is_char "_" c)) (PyStr.strip s)) = true).
  { apply forallb_filter. unfold PyStr.strip. apply forallb_strip, Hs. }
  set (t := PyStr.filter _ _) in *. clearbody t.
  assert (H1 : PyStr.forallb amount_chars (snd (Numeral.sign t)) = true).
  { unfold Numeral.sign. destruct t as [|c r]; [reflexivity|].
    cbn [PyStr.forallb] in H0. apply andb_prop in H0.
    destruct (PyStr.is_char "-" c); [cbn [snd]; tauto|].
    destruct (PyStr.is_char "+" c); cbn [snd PyStr.forallb]; [tauto|].
    apply andb_true_intro. exact H0. }
  destruct (Numeral.sign t) as [neg body]. cbn [snd] in H1.
  destruct (Numeral.finite body) as [[coef exp]|] eqn:F.
  - exact (finite_exponent _ _ _ H1 F).
  - rewrite (forallb_lower amount_chars body amount_char_lower H1).
    rewrite (amount_text_not "inf" body), (amount_text_not "infinity" body) by auto.
    cbn [orb].
    rewrite (amount_text_head "s" "" body) by auto.
    rewrite (amount_text_head "n" "an" body) by auto.
    exact I.
Qed.

Lemma amount_text_chars (text : string) :
  let t := PyStr.filter amount_chars text in
  PyStr.forallb amount_chars
    (if PyStr.contains "," t && PyStr.contains "." t then PyStr.replace "," "" t
     else if PyStr.contains "," t then
       if Nat.eqb (PyStr.count "," t) 1
          && (String.length (nth 1 (PyStr.split "," t) "") <=? 2)%nat
       then PyStr.replace "," "." t
       else PyStr.replace "," "" t
     else t) = true.
Proof.
  intros t. pose proof (forallb_filter_self amount_chars text) as Ht. fold t in Ht.
  destruct (_ && _); [apply forallb_replace; auto|].
  destruct (PyStr.contains "," t); [|exact Ht].
  destruct (_ && _); apply forallb_replace; auto.
Qed.

Lemma parse_amount_shape (text : string) :
  _parse_amount text = VNone
  \/ exists neg coef exp, _parse_amount text = VDecimal (Dec.Fin neg coef exp) /\ exp <= 0.
Proof.
  unfold _parse_amount. destruct (String.eqb _ ""); [now left|].
  pose proof (amount_text_chars text) as H. cbv zeta in H.
  apply decimal_of_amount_text in H.
  match goal with |- context [Dec.parse ?s] => destruct (Dec.parse s) as [[neg coef exp| |]|e] end;
    cbn [bind try_except]; try contradiction; [|now left].
  right. exists neg, coef, exp. auto.
Qed.

End Amounts.

(** X3 ([_parse_amount]): whatever the text, the function returns [None]
    or a finite Decimal whose exponent is not positive: no NaN, no infinity
    and no number in exponent notation comes out of it. *)
Theorem parse_amount_finite (text : string) :
  DeterministicExtractor._parse_amount text = VNone
  \/ exists neg coef exp,
       DeterministicExtractor._parse_amount text = VDecimal (Dec.Fin neg coef exp)
       /\ exp <= 0.
Proof. exact (parse_amount_shape text). Qed.

Lemma append_empty_r (s : string) : s ++ "" = s.
Proof. induction s as [|c s IH]; cbn [append]; congruence. Qed.

Lemma append_assoc (a b c : string) : (a ++ b) ++ c = a ++ b ++ c.
Proof. induction a as [|x a IH]; cbn [append]; congruence. Qed.

Lemma forallb_impl (p q : ascii -> bool) (s : string) :
  (forall c, p c = true -> q c = true) ->
  PyStr.forallb p s = true -> PyStr.forallb q s = true.
Proof.
  intros Hpq. induction s as [|c s IH]; cbn [PyStr.forallb]; [reflexivity|].
  intros H. apply andb_prop in H. destruct H as [Hc Hs]. rewrite (Hpq c Hc). auto.
Qed.

Lemma filter_all (q : ascii -> bool) (s : string) :
  PyStr.forallb q s = true -> PyStr.filter q s = s.
Proof.
  induction s as [|c s IH]; cbn [PyStr.forallb PyStr.filter]; [reflexivity|].
  intros H. apply andb_prop in H. destruct H as [Hc Hs]. rewrite Hc, (IH Hs). reflexivity.
Qed.

Lemma lstrip_none (p : ascii -> bool) (s : string) :
  PyStr.existsb p s = false -> PyStr.lstrip_by p s = s.
Proof.
  destruct s as [|c s]; cbn [PyStr.existsb PyStr.lstrip_by]; [reflexivity|].
  intros H. apply orb_false_elim in H. destruct H as [-> _]. reflexivity.
Qed.

Lemma rstrip_none (p : ascii -> bool) (s : string) :
  PyStr.existsb p s = false -> PyStr.rstrip_by p s = s.
Proof.
  induction s as [|c s IH]; cbn [PyStr.existsb PyStr.rstrip_by]; [reflexivity|].
  intros H. apply orb_false_elim in H. destruct H as [Hc Hs]. rewrite (IH Hs), Hc.
  destruct s; reflexivity.
Qed.

Lemma strip_none (s : string) :
  PyStr.existsb PyStr.is_space s = false -> PyStr.strip s = s.
Proof.
  intros H. unfold PyStr.strip, PyStr.strip_by. rewrite (lstrip_none _ _ H). apply rstrip_none, H.
Qed.

Lemma contains_char (a : ascii) (s : string) :
  PyStr.contains (String a "") s = PyStr.existsb (PyStr.is_char a) s.
Proof.
  induction s as [|c s IH]; cbn [PyStr.contains PyStr.startswith PyStr.existsb]; [reflexivity|].
  rewrite IH. unfold PyStr.is_char. rewrite andb_true_r. reflexivity.
Qed.

Lemma count_app (a : ascii) (x y : string) :
  PyStr.count a (x ++ y) = (PyStr.count a x + PyStr.count a y)%nat.
Proof.
  induction x as [|c x IH]; cbn [append PyStr.count]; [reflexivity|].
  destruct (Ascii.eqb a c); rewrite IH; reflexivity.
Qed.

Lemma count_none (a : ascii) (s : string) :
  PyStr.existsb (PyStr.is_char a) s = false -> PyStr.count a s = O.
Proof.
  induction s as [|c s IH]; cbn [PyStr.existsb PyStr.count]; [reflexivity|].
  intros H. apply orb_false_elim in H. destruct H as [Hc Hs].
  unfold PyStr.is_char in Hc. rewrite Hc. auto.
Qed.

Lemma replace_app (a : ascii) (b x y : string) :
  PyStr.replace a b (x ++ y) = PyStr.replace a b x ++ PyStr.replace a b y.
Proof.
  induction x as [|c x IH]; cbn [append PyStr.replace]; [reflexivity|].
  destruct (Ascii.eqb a c); rewrite IH; [|reflexivity].
  symmetry. apply append_assoc.
Qed.

Lemma replace_none (a : ascii) (b s : string) :
  PyStr.existsb (PyStr.is_char a) s = false -> PyStr.replace a b s = s.
Proof.
  induction s as [|c s IH]; cbn [PyStr.existsb PyStr.replace]; [reflexivity|].
  intros H. apply orb_false_elim in H. destruct H as [Hc Hs].
  unfold PyStr.is_char in Hc. rewrite Hc, (IH Hs). reflexivity.
Qed.

Lemma split_none (a : ascii) (s : string) :
  PyStr.existsb (PyStr.is_char a) s = false -> PyStr.split a s = [s].
Proof.
  induction s as [|c s IH]; cbn [PyStr.existsb PyStr.split]; [reflexivity|].
  intros H. apply orb_false_elim in H. destruct H as [Hc Hs].
  unfold PyStr.is_char in Hc. rewrite Hc, (IH Hs). reflexivity.
Qed.

Lemma split_at (a : ascii) (x y : string) :
  PyStr.existsb (PyStr.is_char a) x = false ->
  PyStr.split a (x ++ String a y) = x :: PyStr.split a y.
Proof.
  induction x as [|c x IH]; cbn [append PyStr.existsb PyStr.split].
  - intros _. rewrite Ascii.eqb_refl. reflexivity.
  - intros H. apply orb_false_elim in H. destruct H as [Hc Hs].
    unfold PyStr.is_char in Hc. rewrite Hc, (IH Hs). reflexivity.
Qed.

Lemma span_all (p : ascii -> bool) (a r : string) :
  PyStr.forallb p a = true ->
  match r with String c _ => p c = false | EmptyString => True end ->
  Numeral.span p (a ++ r) = (a, r).
Proof.
  intros Ha Hr. induction a as [|c a IH]; cbn [append Numeral.span].
  - destruct r as [|c r]; [reflexivity|]. cbn [Numeral.span]. rewrite Hr. reflexivity.
  - cbn [PyStr.forallb] in Ha. apply andb_prop in Ha. destruct Ha as [Hc Ha].
    rewrite Hc, (IH Ha). reflexivity.
Qed.

Section Separators.

Import DeterministicExtractor.

Lemma digit_classes (c : ascii) :
  PyStr.is_digit c = true ->
  amount_chars c = true /\ PyStr.is_space c = false /\ PyStr.is_char "_" c = false
  /\ PyStr.is_char "," c = false /\ PyStr.is_char "." c = false
  /\ PyStr.is_char "-" c = false /\ PyStr.is_char "+" c = false.
Proof. destruct c as [[] [] [] [] [] [] [] []]; vm_compute; intuition congruence. Qed.

Lemma digits_without (q : ascii -> bool) (s : string) :
  (forall c, PyStr.is_digit c = true -> q c = false) ->
  PyStr.forallb PyStr.is_digit s = true -> PyStr.existsb q s = false.
Proof. intros Hq. apply forallb_not_existsb, Hq. Qed.

(** [Decimal(ip + "." + fp)] for two runs of digits, one of them not
    empty. *)
Lemma decimal_of_point (ip fp : string) :
  PyStr.forallb PyStr.is_digit ip = true -> PyStr.forallb PyStr.is_digit fp = true ->
  ip ++ fp <> "" ->
  Dec.parse (ip ++ "." ++ fp)
  = Ok (Dec.Fin false (PyStr.digits_value (ip ++ fp)) (- Z.of_nat (String.length fp))).
Proof.
  intros Hi Hf Hne. unfold Dec.parse.
  assert (Hs : PyStr.existsb PyStr.is_space (ip ++ "." ++ fp) = false).
  { rewrite !existsb_app.
    rewrite (digits_without PyStr.is_space ip), (digits_without PyStr.is_space fp);
      auto; intros c Hc; apply digit_classes in Hc; tauto. }
  rewrite (strip_none _ Hs).
  assert (Hu : PyStr.forallb (fun c => negb (PyStr.is_char "_" c)) (ip ++ "." ++ fp) = true).
  { rewrite !forallb_app.
    rewrite (forallb_impl PyStr.is_digit _ ip), (forallb_impl PyStr.is_digit _ fp);
      auto; intros c Hc; apply digit_classes in Hc; destruct Hc as (_ & _ & -> & _); reflexivity. }
  rewrite (filter_all _ _ Hu).
  assert (Hsign : Numeral.sign (ip ++ "." ++ fp) = (false, ip ++ "." ++ fp)).
  { destruct ip as [|c ip']; [reflexivity|].
    cbn [append Numeral.sign]. cbn [PyStr.forallb] in Hi. apply andb_prop in Hi.
    destruct Hi as [Hc _]. apply digit_classes in Hc.
    destruct Hc as (_ & _ & _ & _ & _ & -> & ->). reflexivity. }
  rewrite Hsign. unfold Numeral.finite.
  cbn [append]. rewrite (span_all PyStr.is_digit ip (String "." fp) Hi eq_refl).
  change (PyStr.is_char "." ".") with true. cbv iota.
  rewrite <- (append_empty_r fp) at 1. rewrite (span_all PyStr.is_digit fp "" Hf I).
  destruct (ip ++ fp) eqn:E; [contradiction|]. reflexivity.
Qed.

Lemma decimal_of_digits (s : string) :
  PyStr.forallb PyStr.is_digit s = true -> s <> "" ->
  Dec.parse s = Ok (Dec.Fin false (PyStr.digits_value s) 0).
Proof.
  intros Hs Hne. unfold Dec.parse.
  rewrite strip_none
    by (apply (digits_without PyStr.is_space); auto; intros c Hc; apply digit_classes in Hc; tauto).
  rewrite filter_all
    by (apply (forallb_impl PyStr.is_digit); auto; intros c Hc; apply digit_classes in Hc;
        destruct Hc as (_ & _ & -> & _); reflexivity).
  assert (Hsign : Numeral.sign s = (false, s)).
  { destruct s as [|c s']; [reflexivity|].
    cbn [Numeral.sign]. cbn [PyStr.forallb] in Hs. apply andb_prop in Hs.
    destruct Hs as [Hc _]. apply digit_classes in Hc.
    destruct Hc as (_ & _ & _ & _ & _ & -> & ->). reflexivity. }
  rewrite Hsign. unfold Numeral.finite.
  rewrite <- (append_empty_r s) at 1. rewrite (span_all PyStr.is_digit s "" Hs I).
  cbn [append]. rewrite append_empty_r.
  destruct s; [contradiction|]. reflexivity.
Qed.

(** X4 ([_parse_amount]): two runs of digits around a separator.  With a
    point the digits after it are decimals; with a comma they are decimals
    when there are at most two of them, and otherwise the comma is dropped
    as a thousands separator. *)
Theorem parse_amount_separators (ip fp : string) :
  PyStr.forallb PyStr.is_digit ip = true -> PyStr.forallb PyStr.is_digit fp = true ->
  ip ++ fp <> "" ->
  let point :=
    VDecimal (Dec.Fin false (PyStr.digits_value (ip ++ fp)) (- Z.of_nat (String.length fp))) in
  let whole := VDecimal (Dec.Fin false (PyStr.digits_value (ip ++ fp)) 0) in
  _parse_amount (ip ++ "." ++ fp) = point
  /\ _parse_amount (ip ++ "," ++ fp)
     = if (String.length fp <=? 2)%nat then point else whole.
Proof.
  intros Hi Hf Hne point whole.
  assert (Hcomma : forall s, PyStr.forallb PyStr.is_digit s = true ->
                             PyStr.existsb (PyStr.is_char ",") s = false).
  { intros s. apply digits_without. intros c Hc. apply digit_classes in Hc. tauto. }
  assert (Hpoint : forall s, PyStr.forallb PyStr.is_digit s = true ->
                             PyStr.existsb (PyStr.is_char ".") s = false).
  { intros s. apply digits_without. intros c Hc. apply digit_classes in Hc. tauto. }
  assert (Hamount : forall s, PyStr.forallb PyStr.is_digit s = true ->
                              PyStr.forallb amount_chars s = true).
  { intros s. apply forallb_impl. intros c Hc. apply digit_classes in Hc. tauto. }
  assert (Fp : PyStr.forallb amount_chars (ip ++ "." ++ fp) = true).
  { rewrite !forallb_app, (Hamount ip Hi), (Hamount fp Hf). reflexivity. }
  assert (Fc : PyStr.forallb amount_chars (ip ++ "," ++ fp) = true).
  { rewrite !forallb_app, (Hamount ip Hi), (Hamount fp Hf). reflexivity. }
  assert (Pc : PyStr.existsb (PyStr.is_char ",") (ip ++ "." ++ fp) = false).
  { rewrite !existsb_app, (Hcomma ip Hi), (Hcomma fp Hf). reflexivity. }
  assert (Cc : PyStr.existsb (PyStr.is_char ",") (ip ++ "," ++ fp) = true).
  { rewrite !existsb_app, (Hcomma ip Hi), (Hcomma fp Hf). reflexivity. }
  assert (Cp : PyStr.existsb (PyStr.is_char ".") (ip ++ "," ++ fp) = false).
  { rewrite !existsb_app, (Hpoint ip Hi), (Hpoint fp Hf). reflexivity. }
  split.
  - unfold _parse_amount. rewrite (filter_all _ _ Fp).
    destruct (String.eqb_spec (ip ++ "." ++ fp) "") as [E|_].
    { destruct ip; discriminate E. }
    rewrite !contains_char, Pc. cbn [andb].
    rewrite decimal_of_point by assumption. reflexivity.
  - unfold _parse_amount. rewrite (filter_all _ _ Fc).
    destruct (String.eqb_spec (ip ++ "," ++ fp) "") as [E|_].
    { destruct ip; discriminate E. }
    rewrite !contains_char, Cc, Cp. cbn [andb].
    rewrite count_app. cbn [append PyStr.count]. rewrite Ascii.eqb_refl.
    rewrite (count_none "," ip (Hcomma ip Hi)), (count_none "," fp (Hcomma fp Hf)).
    cbn [Nat.add Nat.eqb andb].
    rewrite (split_at "," ip fp (Hcomma ip Hi)), (split_none "," fp (Hcomma fp Hf)). cbn [nth].
    rewrite !replace_app. cbn [append PyStr.replace]. rewrite Ascii.eqb_refl.
    rewrite !(replace_none "," _ ip (Hcomma ip Hi)), !(replace_none "," _ fp (Hcomma fp Hf)).
    destruct (String.length fp <=? 2)%nat.
    + change (ip ++ String "." fp) with (ip ++ "." ++ fp).
      rewrite (decimal_of_point ip fp) by assumption. reflexivity.
    + cbn [append]. rewrite decimal_of_digits; [reflexivity| |assumption].
      rewrite forallb_app, Hi, Hf. reflexivity.
Qed.

End Separators.

Lemma parse_amount_separators_witness :
  DeterministicExtractor._parse_amount "1234.567" = VDecimal (Dec.Fin false 1234567 (-3))
  /\ DeterministicExtractor._parse_amount "1234,567" = VDecimal (Dec.Fin false 1234567 0).
Proof.
  exact (parse_amount_separators "1234" "567" eq_refl eq_refl
           ltac:(vm_compute; discriminate)).
Defined.

(** ** The values of the fields *)

Section Values.

Import DeterministicExtractor.

Lemma make_value (v : pyval) (c : float) (e : list Evidence.t) (fv : FieldValue.t) :
  FieldValue.make v c e = Ok fv -> FieldValue.value fv = v.
Proof.
  unfold FieldValue.make. destruct (in_unit_interval c); [|discriminate].
  intros H. injection H as <-. reflexivity.
Qed.

Lemma try_label_value (P : pyval -> Prop) (tokens : list Token.t) (field_type : string)
  (token : Token.t) (st : best) (pattern : string) (st' : best) :
  (forall text, P (_parse_field_value text field_type)) ->
  best_value P st -> try_label tokens field_type token st pattern = Ok st' ->
  best_value P st'.
Proof.
  intros Hparse HP. unfold try_label. destruct st as [bm bc].
  destruct (PyStr.contains _ _); [|kept HP].
  destruct (_find_value_near_token tokens token field_type) as [vt|]; [|kept HP].
  destruct (PyFloat.gt _ bc); [|kept HP].
  bind_ok ev Hev. bind_ok fv Hm.
  intros H. injection H as <-. intros fv' Hfv. cbn [fst] in Hfv. injection Hfv as <-.
  rewrite (make_value _ _ _ _ Hm). apply Hparse.
Qed.

Lemma find_field_value (P : pyval -> Prop) (tokens : list Token.t) (field_type : string)
  (required : bool) (fv : FieldValue.t) :
  (forall text, P (_parse_field_value text field_type)) -> P VNone ->
  _find_field_by_patterns tokens field_type required = Ok (Some fv) ->
  P (FieldValue.value fv).
Proof.
  intros Hparse Hnone. unfold _find_field_by_patterns. bind_ok st Hloop.
  assert (Hst : best_value P st).
  { revert Hloop. apply for_each_invariant; [|intros f H; discriminate H].
    intros st0 token st1 HP. apply for_each_invariant; [|exact HP].
    intros s p s'. apply try_label_value, Hparse. }
  unfold or_default. destruct (fst st) as [f|] eqn:E.
  - intros H. injection H as <-. apply Hst, E.
  - destruct required; [|discriminate].
    bind_ok d Hd. intros H. injection H as <-.
    rewrite (make_value _ _ _ _ Hd). exact Hnone.
Qed.

Lemma find_required (tokens : list Token.t) (field_type : string) (fv : FieldValue.t)
  (P : pyval -> Prop) :
  (forall text, P (_parse_field_value text field_type)) -> P VNone ->
  required_field (_find_field_by_patterns tokens field_type true) = Ok fv ->
  P (FieldValue.value fv).
Proof.
  intros Hparse Hnone. unfold required_field. bind_ok o Ho.
  destruct o as [f|]; [|discriminate]. intros H. injection H as <-.
  exact (find_field_value P tokens field_type true f Hparse Hnone Ho).
Qed.

Lemma find_optional (tokens : list Token.t) (field_type : string) (o : option FieldValue.t)
  (P : pyval -> Prop) :
  (forall text, none_or P (_parse_field_value text field_type)) ->
  _find_field_by_patterns tokens field_type false = Ok o -> optional_value P o.
Proof.
  intros Hparse Ho. destruct o as [fv|]; [|exact I].
  apply (find_field_value (none_or P) tokens field_type false fv Hparse); [now left | exact Ho].
Qed.

(** *** Dates *)

Lemma strptime_calendar (s : string) (f1 f2 f3 : Date.directive) (sep : ascii) (d : Date.t) :
  Date.strptime s f1 f2 f3 sep = Ok d ->
  Date.make (Date.year d) (Date.month d) (Date.day d) = Ok d.
Proof.
  unfold Date.strptime.
  match goal with |- match ?l with _ => _ end = _ -> _ => destruct l as [|[[[y m] dd] r] l'] end;
    [discriminate|].
  destruct r; [|discriminate].
  intros H. pose proof H as H'. unfold Date.make in H'.
  destruct (_ && _) in H'; [|discriminate]. injection H' as <-. exact H.
Qed.

Lemma parse_date_calendar (text : string) : none_or is_calendar_date (_parse_date text).
Proof.
  unfold _parse_date. induction date_patterns as [|[pattern [[[f1 f2] f3] sep]] l IH];
    cbn [parse_date_from]; [now left|].
  destruct (Re.search pattern text) as [date_str|]; [|exact IH].
  destruct (Date.strptime date_str f1 f2 f3 sep) as [d|e] eqn:E; [|exact IH].
  right. exists d. split; [reflexivity|]. exact (strptime_calendar _ _ _ _ _ _ E).
Qed.

Lemma parse_amount_amount (text : string) : none_or is_amount (_parse_amount text).
Proof. exact (parse_amount_shape text). Qed.

(** *** The currency *)

Lemma find_currency_value (tokens : list Token.t) (required : bool) (fv : FieldValue.t) :
  _find_currency tokens required = Ok (Some fv) -> is_currency_code (FieldValue.value fv).
Proof.
  unfold _find_currency. bind_ok st Hloop.
  assert (Hst : best_value is_currency_code st).
  { revert Hloop. apply for_each_invariant; [|intros f H; discriminate H].
    intros st0 token st1 HP.
    apply for_each_invariant_in; [|exact HP].
    intros s [code symbols] s' Hin HP'. unfold try_currency.
    apply for_each_invariant; [|exact HP'].
    intros [bm bc] symbol s1 HP1. unfold try_symbol.
    destruct (PyStr.contains _ _); [|kept HP1].
    destruct (PyFloat.gt _ bc); [|kept HP1].
    bind_ok ev Hev. bind_ok f Hm.
    intros H. injection H as <-. intros fv' Hfv. cbn [fst] in Hfv. injection Hfv as <-.
    rewrite (make_value _ _ _ _ Hm). exists code. split; [reflexivity|].
    change CurrencyCode with (map fst currency_patterns).
    apply (in_map fst) in Hin. exact Hin. }
  unfold or_default. destruct (fst st) as [f|] eqn:E.
  - intros H. injection H as <-. apply Hst, E.
  - destruct required; [|discriminate].
    bind_ok d Hd. intros H. injection H as <-.
    rewrite (make_value _ _ _ _ Hd). exists "EUR". split; [reflexivity|now left].
Qed.

(** *** The duplicate hash *)

Lemma hexdigest_not_empty (s : string) : MD5.hexdigest s <> "".
Proof.
  unfold MD5.hexdigest.
  match goal with |- context [MD5.chunks ?n ?st ?b] => destruct (MD5.chunks n st b) as [[[a b'] c] d] end.
  cbn [MD5.le_bytes app map String.concat]. unfold MD5.hex_byte at 1. cbn [append].
  discriminate.
Qed.

End Values.

Section Extracted.

Import DeterministicExtractor.

(** What [extract_invoice] returns is put together from what its steps
    returned. *)
Lemma extract_invoice_parts (cache : vendor_cache) (now : Z) (tokens : list Token.t)
  (filename processing_id : string) (invoice : Invoice.t) :
  fst (extract_invoice cache now tokens filename processing_id) = Ok invoice ->
  fst (_extract_vendor cache tokens (_create_layout_fingerprint tokens))
  = Ok (Invoice.vendor invoice)
  /\ _extract_amounts tokens = Ok (Invoice.amounts invoice)
  /\ _extract_invoice_number tokens = Ok (Invoice.invoice_number invoice)
  /\ _extract_invoice_date tokens = Ok (Invoice.invoice_date invoice)
  /\ _extract_due_date tokens = Ok (Invoice.due_date invoice)
  /\ _extract_line_items tokens = Ok (Invoice.line_items invoice)
  /\ _extract_notes tokens = Ok (Invoice.notes invoice)
  /\ _extract_payment_terms tokens = Ok (Invoice.payment_terms invoice)
  /\ _extract_po_number tokens = Ok (Invoice.po_number invoice)
  /\ Invoice.duplicate_hash invoice
     = Some (_create_duplicate_hash
               (FieldValue.value (Vendor.name (Invoice.vendor invoice)))
               (FieldValue.value (Invoice.invoice_number invoice))
               (FieldValue.value (Invoice.invoice_date invoice))
               (FieldValue.value (Amounts.grand_total (Invoice.amounts invoice))))
  /\ value_missing (Invoice.invoice_number invoice) = false
  /\ PyVal.is_none (FieldValue.value (Invoice.invoice_date invoice)) = false
  /\ value_missing (Vendor.name (Invoice.vendor invoice)) = false
  /\ Invoice.processing_id invoice = processing_id
  /\ Invoice.source_file invoice = filename
  /\ Invoice.created_at invoice = now
  /\ Invoice.extraction_method invoice = "deterministic"
  /\ Invoice.llm_patch_applied invoice = false
  /\ Invoice.human_reviewed invoice = false.
Proof.
  unfold extract_invoice.
  destruct (_extract_vendor cache tokens (_create_layout_fingerprint tokens)) as [vr cache'].
  cbn [fst]. bind_ok vendor Hv. bind_ok a Ha. bind_ok n Hn. bind_ok d Hd. bind_ok due Hdue.
  bind_ok items Hi. bind_ok notes Hno. bind_ok pt Hpt. bind_ok po Hpo.
  unfold Invoice.make.
  destruct (value_missing n) eqn:Mn; [discriminate|].
  destruct (PyVal.is_none (FieldValue.value d)) eqn:Md; [discriminate|].
  destruct (value_missing (Vendor.name vendor)) eqn:Mv; [discriminate|].
  destruct (_ || _); [discriminate|].
  intros H. injection H as <-. cbn. repeat split; auto.
Qed.

Lemma missing_none_or (P : pyval -> Prop) (v : pyval) :
  PyVal.is_none v = false -> none_or P v -> P v.
Proof. intros H [->|H']; [discriminate | exact H']. Qed.

Lemma amounts_parts (tokens : list Token.t) (a : Amounts.t) :
  _extract_amounts tokens = Ok a ->
  Amounts.subtotal a = None /\ Amounts.tax_rate a = None
  /\ optional_value is_amount (Amounts.tax_amount a)
  /\ optional_value is_amount (Amounts.discount a)
  /\ optional_value is_amount (Amounts.shipping a)
  /\ is_amount (FieldValue.value (Amounts.grand_total a))
  /\ is_currency_code (FieldValue.value (Amounts.currency a)).
Proof.
  unfold _extract_amounts.
  rewrite (find_field_without_patterns tokens "subtotal" eq_refl). cbn [bind].
  bind_ok t Ht.
  rewrite (find_field_without_patterns tokens "tax_rate" eq_refl). cbn [bind].
  bind_ok d Hd. bind_ok sh Hsh. bind_ok g Hg. bind_ok c Hc.
  unfold Amounts.make.
  destruct (PyVal.is_none (FieldValue.value g)) eqn:Ng; [discriminate|].
  destruct (PyVal.is_none (FieldValue.value c)); [discriminate|].
  intros H. injection H as <-. cbn.
  repeat split.
  - apply (find_optional tokens "tax" t is_amount); [|exact Ht].
    intros text. apply parse_amount_amount.
  - apply (find_optional tokens "discount" d is_amount); [|exact Hd].
    intros text. apply parse_amount_amount.
  - apply (find_optional tokens "shipping" sh is_amount); [|exact Hsh].
    intros text. apply parse_amount_amount.
  - apply (missing_none_or _ _ Ng).
    apply (find_required tokens "total" g (none_or is_amount)); [| now left | exact Hg].
    intros text. apply parse_amount_amount.
  - unfold required_field in Hc. revert Hc. bind_ok o Ho. destruct o as [f|]; [|discriminate].
    intros H. injection H as <-. exact (find_currency_value _ _ _ Ho).
Qed.

Lemma vendor_parts (cache : vendor_cache) (tokens : list Token.t) (h : string)
  (vendor : Vendor.t) :
  fst (_extract_vendor cache tokens h) = Ok vendor ->
  none_or is_text (FieldValue.value (Vendor.name vendor))
  /\ Vendor.layout_hash vendor = Some h
  /\ (Spec.clean cache ->
      Vendor.address vendor = None /\ Vendor.tax_id vendor = None
      /\ Vendor.phone vendor = None /\ Vendor.email vendor = None).
Proof.
  unfold _extract_vendor.
  rewrite (find_field_without_patterns tokens "address" eq_refl),
          (find_field_without_patterns tokens "tax_id" eq_refl),
          (find_field_without_patterns tokens "phone" eq_refl),
          (find_field_without_patterns tokens "email" eq_refl).
  destruct (required_field (_find_field_by_patterns tokens "vendor" true)) as [name|e] eqn:Hn;
    cbn [bind fst]; [|discriminate].
  intros H. injection H as <-. cbn. repeat split.
  - apply (find_required tokens "vendor" name (none_or is_text)); [| now left | exact Hn].
    intros text. right. eexists. reflexivity.
  - destruct (cache_get cache h) as [z|] eqn:G; [|reflexivity].
    rewrite (clean_get cache h z H G). reflexivity.
  - destruct (cache_get cache h) as [z|] eqn:G; [|reflexivity].
    rewrite (clean_get cache h z H G). reflexivity.
  - destruct (cache_get cache h) as [z|] eqn:G; [|reflexivity].
    rewrite (clean_get cache h z H G). reflexivity.
  - destruct (cache_get cache h) as [z|] eqn:G; [|reflexivity].
    rewrite (clean_get cache h z H G). reflexivity.
Qed.

Lemma missing_is_none (fv : FieldValue.t) :
  value_missing fv = false -> PyVal.is_none (FieldValue.value fv) = false.
Proof. unfold value_missing. intros H. apply orb_false_elim in H. tauto. Qed.

(** The values of an extracted invoice. *)
Lemma extracted_values (cache : vendor_cache) (now : Z) (tokens : list Token.t)
  (filename processing_id : string) (invoice : Invoice.t) :
  fst (extract_invoice cache now tokens filename processing_id) = Ok invoice ->
  is_text (FieldValue.value (Invoice.invoice_number invoice))
  /\ is_calendar_date (FieldValue.value (Invoice.invoice_date invoice))
  /\ is_text (FieldValue.value (Vendor.name (Invoice.vendor invoice)))
  /\ is_amount (FieldValue.value (Amounts.grand_total (Invoice.amounts invoice)))
  /\ is_currency_code (FieldValue.value (Amounts.currency (Invoice.amounts invoice)))
  /\ optional_value is_amount (Amounts.tax_amount (Invoice.amounts invoice))
  /\ optional_value is_amount (Amounts.discount (Invoice.amounts invoice))
  /\ optional_value is_amount (Amounts.shipping (Invoice.amounts invoice))
  /\ (exists h, Invoice.duplicate_hash invoice = Some h /\ h <> "").
Proof.
  intros H. apply extract_invoice_parts in H.
  destruct H as (Hv & Ha & Hn & Hd & _ & _ & _ & _ & _ & Hh & Mn & Md & Mv & _).
  apply amounts_parts in Ha. destruct Ha as (_ & _ & Ht & Hdi & Hsh & Hg & Hc).
  apply vendor_parts in Hv. destruct Hv as (Hname & _).
  repeat split; auto.
  - apply (missing_none_or _ _ (missing_is_none _ Mn)).
    apply (find_required tokens "invoice_number" _ (none_or is_text)); [| now left | exact Hn].
    intros text. right. eexists. reflexivity.
  - apply (missing_none_or _ _ Md).
    apply (find_required tokens "date" _ (none_or is_calendar_date)); [| now left | exact Hd].
    intros text. apply parse_date_calendar.
  - exact (missing_none_or _ _ (missing_is_none _ Mv) Hname).
  - eexists. split; [exact Hh|]. apply hexdigest_not_empty.
Qed.

(** The fields the extractor never finds. *)
Lemma extracted_absent (history : list Spec.call) (now : Z) (tokens : list Token.t)
  (filename processing_id : string) (invoice : Invoice.t) :
  fst (extract_invoice (Spec.cache_after history) now tokens filename processing_id)
  = Ok invoice ->
  Amounts.subtotal (Invoice.amounts invoice) = None
  /\ Amounts.tax_rate (Invoice.amounts invoice) = None
  /\ Invoice.due_date invoice = None
  /\ Vendor.address (Invoice.vendor invoice) = None
  /\ Vendor.tax_id (Invoice.vendor invoice) = None
  /\ Vendor.phone (Invoice.vendor invoice) = None
  /\ Vendor.email (Invoice.vendor invoice) = None.
Proof.
  intros H. apply extract_invoice_parts in H.
  destruct H as (Hv & Ha & _ & _ & Hdue & _).
  apply amounts_parts in Ha. destruct Ha as (Hs & Hr & _).
  apply vendor_parts in Hv. destruct Hv as (_ & _ & Hc).
  specialize (Hc (cache_after_clean history)).
  unfold _extract_due_date in Hdue.
  rewrite (find_field_without_patterns tokens "due_date" eq_refl) in Hdue.
  injection Hdue as Hdue. intuition.
Qed.

End Extracted.

(** X6 ([extract_invoice]): the values of an extracted invoice.  The invoice
    number and the vendor name are text, the invoice date is a date of the
    calendar, the grand total a finite Decimal, the currency one of the
    codes of [CurrencyCode]; tax, discount and shipping, where found, hold an
    amount or [None]; the duplicate hash is there and not empty. *)
Theorem extracted_invoice_values (cache : DeterministicExtractor.vendor_cache) (now : Z)
  (tokens : list Token.t) (filename processing_id : string) (invoice : Invoice.t) :
  fst (DeterministicExtractor.extract_invoice cache now tokens filename processing_id)
  = Ok invoice ->
  is_text (FieldValue.value (Invoice.invoice_number invoice))
  /\ is_calendar_date (FieldValue.value (Invoice.invoice_date invoice))
  /\ is_text (FieldValue.value (Vendor.name (Invoice.vendor invoice)))
  /\ is_amount (FieldValue.value (Amounts.grand_total (Invoice.amounts invoice)))
  /\ is_currency_code (FieldValue.value (Amounts.currency (Invoice.amounts invoice)))
  /\ optional_value is_amount (Amounts.tax_amount (Invoice.amounts invoice))
  /\ optional_value is_amount (Amounts.discount (Invoice.amounts invoice))
  /\ optional_value is_amount (Amounts.shipping (Invoice.amounts invoice))
  /\ (exists h, Invoice.duplicate_hash invoice = Some h /\ h <> "").
Proof. exact (extracted_values cache now tokens filename processing_id invoice). Qed.

Lemma extracted_invoice_values_witness :
  exists invoice,
    fst (DeterministicExtractor.extract_invoice [] 0 Sample.tokens "invoice.pdf" "job")
    = Ok invoice
    /\ is_calendar_date (FieldValue.value (Invoice.invoice_date invoice))
    /\ is_amount (FieldValue.value (Amounts.grand_total (Invoice.amounts invoice))).
Proof.
  eexists. split; [vm_compute; reflexivity|].
  pose proof (extracted_invoice_values [] 0 Sample.tokens "invoice.pdf" "job" _
                ltac:(vm_compute; reflexivity)) as H.
  split; [exact (proj1 (proj2 H)) | exact (proj1 (proj2 (proj2 (proj2 H))))].
Defined.

(** X7 ([_extract_amounts], [_extract_vendor], [_extract_due_date]): the
    subtotal, the tax rate, the due date and the address, tax id, phone and
    email of the vendor are never extracted: the label table has no patterns
    for them, and the vendor cache only ever stores what was found. *)
Theorem extractor_never_finds (history : list Spec.call) (now : Z) (tokens : list Token.t)
  (filename processing_id : string) (invoice : Invoice.t) :
  fst (DeterministicExtractor.extract_invoice (Spec.cache_after history) now tokens
         filename processing_id) = Ok invoice ->
  Amounts.subtotal (Invoice.amounts invoice) = None
  /\ Amounts.tax_rate (Invoice.amounts invoice) = None
  /\ Invoice.due_date invoice = None
  /\ Vendor.address (Invoice.vendor invoice) = None
  /\ Vendor.tax_id (Invoice.vendor invoice) = None
  /\ Vendor.phone (Invoice.vendor invoice) = None
  /\ Vendor.email (Invoice.vendor invoice) = None.
Proof. exact (extracted_absent history now tokens filename processing_id invoice). Qed.

Lemma extractor_never_finds_witness :
  exists invoice,
    fst (DeterministicExtractor.extract_invoice (Spec.cache_after []) 0 Sample.tokens
           "invoice.pdf" "job") = Ok invoice
    /\ Amounts.subtotal (Invoice.amounts invoice) = None
    /\ Invoice.due_date invoice = None.
Proof.
  eexists. split; [vm_compute; reflexivity|].
  pose proof (extractor_never_finds [] 0 Sample.tokens "invoice.pdf" "job" _
                ltac:(vm_compute; reflexivity)) as H.
  split; [exact (proj1 H) | exact (proj1 (proj2 (proj2 H)))].
Defined.

Section RulesOnExtracted.

Import RulesEngine.

Lemma dates_pass (invoice : Invoice.t) :
  is_calendar_date (FieldValue.value (Invoice.invoice_date invoice)) ->
  Invoice.due_date invoice = None ->
  _validate_dates invoice = [].
Proof.
  intros (d & Hd & _) Hdue. unfold _validate_dates. rewrite Hd, Hdue. reflexivity.
Qed.

Lemma duplicate_hash_passes (invoice : Invoice.t) :
  (exists h, Invoice.duplicate_hash invoice = Some h /\ h <> "") ->
  _validate_duplicate_hash invoice = [].
Proof.
  intros (h & Hh & Hne). unfold _validate_duplicate_hash. rewrite Hh.
  destruct h; [contradiction|reflexivity].
Qed.

Lemma tax_coherence_passes (th : ProcessingThresholds.t) (invoice : Invoice.t) :
  Amounts.tax_rate (Invoice.amounts invoice) = None ->
  _validate_tax_coherence th invoice = [].
Proof. intros H. unfold _validate_tax_coherence. rewrite H. reflexivity. Qed.

Lemma currency_code_known (v : pyval) :
  is_currency_code v -> PyVal.truthy v = true /\ known_currency v = true.
Proof.
  intros (code & -> & Hin). cbn [In CurrencyCode] in Hin.
  repeat (destruct Hin as [<-|Hin]; [split; reflexivity|]). contradiction.
Qed.

Lemma currency_amounts_only (invoice : Invoice.t) :
  is_currency_code (FieldValue.value (Amounts.currency (Invoice.amounts invoice))) ->
  Forall (rule_in ["non_negative_amount"; "amount_format"]) (_validate_currency invoice).
Proof.
  intros H. apply currency_code_known in H. destruct H as [Ht Hk].
  unfold _validate_currency. rewrite Ht, Hk. cbn [negb app].
  apply Forall_flat_map, Forall_forall. intros [name field] _.
  destruct (given_value field) as [v|]; [|named].
  match goal with |- Forall _ (try_except ?c _) => destruct c as [l|e] eqn:E end;
    cbn [try_except]; [|named].
  settle E.
Qed.

Lemma line_sum_without_subtotal (th : ProcessingThresholds.t) (invoice : Invoice.t) :
  Amounts.subtotal (Invoice.amounts invoice) = None ->
  Forall (rule_in ["line_sum_tax"; "line_sum"]) (_validate_line_sum th invoice).
Proof.
  intros Hs. unfold _validate_line_sum. rewrite Hs. cbn [truthy_value].
  match goal with |- Forall _ (match ?c with _ => _ end) => destruct c as [[[[a b] c'] d]|e] eqn:E end;
    [|named].
  assert (Hc : c' = zero).
  { returned E; injection E as <- <- <- <-; reflexivity. }
  subst c'. rewrite line_sum_check_zero. cbn [app].
  match goal with |- Forall _ (match ?c with _ => _ end) => destruct c as [l2|e] eqn:H2 end;
    [|named].
  apply line_sum_check_rules in H2; [|reflexivity].
  eapply Forall_weaken_rules; [|exact H2]. intros x [<-|[]]. now left.
Qed.

(** X8 ([validate_invoice] after [extract_invoice]): on an extracted invoice
    the date rules, the duplicate-hash rule and the tax-coherence rule never
    fail; whatever fails is one of arithmetic_balance, line_sum_tax,
    line_sum, non_negative_amount, amount_format and rounding_policy. *)
Theorem extracted_invoice_rules (th : ProcessingThresholds.t) (history : list Spec.call) (now : Z)
  (tokens : list Token.t) (filename processing_id : string) (invoice : Invoice.t) :
  fst (DeterministicExtractor.extract_invoice (Spec.cache_after history) now tokens
         filename processing_id) = Ok invoice ->
  _validate_dates invoice = []
  /\ _validate_duplicate_hash invoice = []
  /\ _validate_tax_coherence th invoice = []
  /\ Forall (rule_in ["arithmetic_balance"; "line_sum_tax"; "line_sum";
                      "non_negative_amount"; "amount_format"; "rounding_policy"])
            (RuleReport.failures (validate_invoice th invoice)).
Proof.
  intros H.
  destruct (extracted_values _ _ _ _ _ _ H) as (_ & Hd & _ & _ & Hc & _ & _ & _ & Hh).
  destruct (extracted_absent _ _ _ _ _ _ H) as (Hs & Hr & Hdue & _).
  pose proof (dates_pass invoice Hd Hdue) as D.
  pose proof (duplicate_hash_passes invoice Hh) as U.
  pose proof (tax_coherence_passes th invoice Hr) as T.
  repeat split; auto.
  unfold validate_invoice. cbn [RuleReport.failures]. rewrite D, U, T. cbn [app].
  rewrite !Forall_app. repeat split.
  - eapply Forall_weaken_rules; [|apply arithmetic_rules]. intros x Hx; cbn in *; tauto.
  - eapply Forall_weaken_rules; [|apply line_sum_without_subtotal, Hs].
    intros x Hx; cbn in *; tauto.
  - eapply Forall_weaken_rules; [|apply currency_amounts_only, Hc].
    intros x Hx; cbn in *; tauto.
  - eapply Forall_weaken_rules; [|apply rounding_rules]. intros x Hx; cbn in *; tauto.
Qed.

End RulesOnExtracted.

(** ** What extraction raises *)

Section Raises.

Import DeterministicExtractor.

Variable e0 : exn.






End Raises.

Section ExtractionRaises.

Import DeterministicExtractor.











End ExtractionRaises.

Lemma extracted_invoice_rules_witness :
  exists invoice,
    fst (DeterministicExtractor.extract_invoice (Spec.cache_after []) 0 Sample.tokens
           "invoice.pdf" "job") = Ok invoice
    /\ RulesEngine._validate_dates invoice = []
    /\ RulesEngine._validate_tax_coherence ProcessingThresholds.default invoice = [].
Proof.
  eexists. split; [vm_compute; reflexivity|].
  pose proof (extracted_invoice_rules ProcessingThresholds.default [] 0 Sample.tokens
                "invoice.pdf" "job" _ ltac:(vm_compute; reflexivity)) as H.
  split; [exact (proj1 H) | exact (proj1 (proj2 (proj2 H)))].
Defined.



Section Patches.

Import ProcessingPipeline.

Lemma apply_patch_invariant (R : Invoice.t -> Invoice.t -> Prop) :
  (forall i, R i i) ->
  (forall i j k, R i j -> R j k -> R i k) ->
  forall llm_patch : list JsonPatch.t,
  (forall i i' patch, In patch llm_patch -> _apply_replace_patch i patch = Ok i' -> R i i') ->
  forall invoice, R invoice (_apply_patch_to_invoice invoice llm_patch).
Proof.
  intros Hrefl Htrans llm_patch. unfold _apply_patch_to_invoice.
  induction llm_patch as [|patch tl IH]; intros Hstep invoice; [apply Hrefl|].
  cbn [fold_left].
  eapply Htrans; [|apply IH; intros i i' p Hp; apply Hstep; now right].
  destruct (String.eqb (JsonPatch.op patch) "replace").
  - destruct (_apply_replace_patch invoice patch) eqn:Hp; cbn [try_except];
      [apply (Hstep invoice a patch); [now left | exact Hp] | apply Hrefl].
  - destruct (String.eqb (JsonPatch.op patch) "add"); apply Hrefl.
Qed.

Lemma replace_patch_frame (invoice invoice' : Invoice.t) (patch : JsonPatch.t) :
  _apply_replace_patch invoice patch = Ok invoice' ->
  blank_patchable invoice' = blank_patchable invoice.
Proof.
  destruct invoice as [n d due v a items notes pt po pid cr sf em fl hr dh].
  destruct a as [s t r di sh g c].
  unfold _apply_replace_patch.
  cbn [Invoice.amounts Amounts.subtotal Amounts.tax_amount Amounts.tax_rate
       Amounts.discount Amounts.shipping Amounts.grand_total Amounts.currency].
  repeat match goal with
         | |- context [if ?c then _ else _] => destruct c
         | |- context [match nth_error ?l ?n with _ => _ end] => destruct (nth_error l n)
         | |- context [set_field_value ?v ?o] =>
             destruct o; cbn [set_field_value bind]
         end;
    intros H; try discriminate H; injection H as <-; reflexivity.
Qed.

Lemma patches_frame (llm_patch : list JsonPatch.t) (invoice : Invoice.t) :
  blank_patchable (_apply_patch_to_invoice invoice llm_patch) = blank_patchable invoice.
Proof.
  apply (apply_patch_invariant (fun i i' => blank_patchable i' = blank_patchable i)).
  - reflexivity.
  - intros i j k H1 H2. congruence.
  - intros i i' patch _. apply replace_patch_frame.
Qed.

Lemma blank_currency (i : Invoice.t) :
  Amounts.currency (Invoice.amounts (blank_patchable i)) = Amounts.currency (Invoice.amounts i).
Proof. reflexivity. Qed.

Lemma patches_keep_currency (llm_patch : list JsonPatch.t) (invoice : Invoice.t) :
  Amounts.currency (Invoice.amounts (_apply_patch_to_invoice invoice llm_patch))
  = Amounts.currency (Invoice.amounts invoice).
Proof.
  rewrite <- (blank_currency (_apply_patch_to_invoice invoice llm_patch)), patches_frame.
  reflexivity.
Qed.

Lemma failed_report (invoice : Invoice.t) (f : Failure.t) :
  In f (RuleReport.failures (RulesEngine.validate_invoice_rules invoice)) ->
  RuleReport.passed (RulesEngine.validate_invoice_rules invoice) = false.
Proof.
  unfold RulesEngine.validate_invoice_rules, RulesEngine.validate_invoice.
  cbn [RuleReport.failures RuleReport.passed].
  match goal with |- In f ?l -> _ => generalize l end.
  intros l Hin. destruct l; [contradiction|reflexivity].
Qed.

(** A job whose validation fails before and after every patch ends in
    review. *)
Lemma never_passing (P : Invoice.t -> Prop) (th : ProcessingThresholds.t)
  (llm : Invoice.t -> RuleReport.t -> option (list JsonPatch.t)) (invoice : Invoice.t) :
  (forall i, P i -> RuleReport.passed (RulesEngine.validate_invoice_rules i) = false) ->
  P invoice ->
  (forall patches, llm invoice (RulesEngine.validate_invoice_rules invoice) = Some patches ->
                   P (_apply_patch_to_invoice invoice patches)) ->
  ProcessingResult.status
    (decide_and_finish th llm invoice (RulesEngine.validate_invoice_rules invoice))
  = "needs_review".
Proof.
  intros Hfail HP Hllm. unfold decide_and_finish, _make_processing_decision.
  rewrite (Hfail invoice HP). rewrite andb_false_r. cbn [andb negb].
  destruct (_has_fixable_rules _); cbn [action String.eqb Ascii.eqb Bool.eqb]; [|reflexivity].
  destruct (llm invoice _) as [[|p tl]|] eqn:E; try reflexivity.
  rewrite (Hfail _ (Hllm _ eq_refl)). reflexivity.
Qed.

Lemma unknown_currency_fails (invoice : Invoice.t) :
  RulesEngine.known_currency (FieldValue.value (Amounts.currency (Invoice.amounts invoice)))
  = false ->
  RuleReport.passed (RulesEngine.validate_invoice_rules invoice) = false.
Proof.
  intros H.
  assert (E : exists f l, RulesEngine._validate_currency invoice = f :: l).
  { unfold RulesEngine._validate_currency. rewrite H.
    destruct (negb (PyVal.truthy _)); cbn [negb app]; eauto. }
  destruct E as (f & l & E). apply (failed_report invoice f).
  unfold RulesEngine.validate_invoice_rules, RulesEngine.validate_invoice.
  cbn [RuleReport.failures]. rewrite E.
  apply in_or_app. right. apply in_or_app. right. apply in_or_app. right.
  apply in_or_app. left. now left.
Qed.

(** X11 (stage 5 of [_process_invoice_async], [_apply_replace_patch],
    [_validate_currency]): the decision stage gives an invoice whose
    currency is not one of the ten known codes the status needs_review,
    whatever the gateway proposes: no patch writes the currency. *)
Theorem unknown_currency_needs_review (th : ProcessingThresholds.t)
  (llm : Invoice.t -> RuleReport.t -> option (list JsonPatch.t)) (invoice : Invoice.t) :
  RulesEngine.known_currency (FieldValue.value (Amounts.currency (Invoice.amounts invoice)))
  = false ->
  ProcessingResult.status
    (decide_and_finish th llm invoice (RulesEngine.validate_invoice_rules invoice))
  = "needs_review".
Proof.
  intros H.
  apply (never_passing
           (fun i => RulesEngine.known_currency
                       (FieldValue.value (Amounts.currency (Invoice.amounts i))) = false)).
  - exact unknown_currency_fails.
  - exact H.
  - intros patches _. rewrite patches_keep_currency. exact H.
Qed.

(** *** Dates *)

Lemma dict_get_in (items : list (string * pyval)) (key : string) (v : pyval) :
  LLMFallback.dict_get items key = Some v -> In (key, v) items.
Proof.
  induction items as [|[k w] l IH]; cbn [LLMFallback.dict_get]; [discriminate|].
  destruct (String.eqb_spec k key) as [->|_].
  - intros H. injection H as <-. now left.
  - intros H. right. auto.
Qed.

Lemma json_patch_value (entry : pyval) (patch : JsonPatch.t) :
  json entry = true -> LLMFallback.make_patch entry = Ok patch ->
  json (JsonPatch.value patch) = true.
Proof.
  intros Hj. unfold LLMFallback.make_patch. destruct entry; try discriminate.
  cbn [json] in Hj. rewrite forallb_forall in Hj.
  bind_ok op Hop. bind_ok path Hpath.
  destruct (LLMFallback.dict_get items "value") as [v|] eqn:Hv; cbn [bind]; [|discriminate].
  bind_ok rationale Hr. bind_ok cites Hc.
  intros H. injection H as <-. cbn [JsonPatch.value].
  apply dict_get_in in Hv. apply (Hj _ Hv).
Qed.

Lemma json_patches (loaded : pyval) (patches : list JsonPatch.t) :
  json loaded = true ->
  LLMFallback.propose_patch (Ok (Ok loaded)) = Some patches ->
  Forall (fun p => json (JsonPatch.value p) = true) patches.
Proof.
  intros Hj. unfold LLMFallback.propose_patch, LLMFallback._parse_llm_response.
  destruct loaded; try (intros H; injection H as <-; constructor).
  cbn [json] in Hj. rewrite forallb_forall in Hj.
  assert (Hall : Forall (fun p => json (JsonPatch.value p) = true)
                   (flat_map (fun patch_dict =>
                      match LLMFallback.make_patch patch_dict with
                      | Ok patch => [patch]
                      | Raise _ => []
                      end) l)).
  { apply Forall_flat_map, Forall_forall. intros entry Hin.
    destruct (LLMFallback.make_patch entry) as [p|e] eqn:E; [|constructor].
    constructor; [|constructor]. exact (json_patch_value entry p (Hj entry Hin) E). }
  destruct (flat_map _ l) as [|p tl]; intros H; injection H as <-; [constructor | exact Hall].
Qed.

Lemma json_not_date (v : pyval) : json v = true -> PyVal.is_date v = false.
Proof. destruct v; try reflexivity. discriminate. Qed.

Lemma replace_patch_date (invoice invoice' : Invoice.t) (patch : JsonPatch.t) :
  PyVal.is_date (JsonPatch.value patch) = false ->
  _apply_replace_patch invoice patch = Ok invoice' ->
  PyVal.is_date (FieldValue.value (Invoice.invoice_date invoice)) = false ->
  PyVal.is_date (FieldValue.value (Invoice.invoice_date invoice')) = false.
Proof.
  intros Hv. unfold _apply_replace_patch.
  repeat match goal with
         | |- context [if ?c then _ else _] => destruct c
         | |- context [match nth_error ?l ?n with _ => _ end] => destruct (nth_error l n)
         | |- context [set_field_value ?v ?o] =>
             destruct (set_field_value v o); cbn [bind]
         end;
    intros H; try discriminate H; injection H as <-; cbn; auto.
Qed.

Lemma not_date_fails (invoice : Invoice.t) :
  PyVal.is_date (FieldValue.value (Invoice.invoice_date invoice)) = false ->
  RuleReport.passed (RulesEngine.validate_invoice_rules invoice) = false.
Proof.
  intros H.
  assert (E : exists f l, RulesEngine._validate_dates invoice = f :: l).
  { unfold RulesEngine._validate_dates. rewrite H.
    destruct (negb (PyVal.truthy _)); cbn [negb app]; eauto. }
  destruct E as (f & l & E). apply (failed_report invoice f).
  unfold RulesEngine.validate_invoice_rules, RulesEngine.validate_invoice.
  cbn [RuleReport.failures]. rewrite E.
  apply in_or_app. right. apply in_or_app. right. apply in_or_app. left. now left.
Qed.

(** X12 (stage 5 of [_process_invoice_async], [propose_patch],
    [_validate_dates]): the decision stage gives an invoice whose date is
    not a date object the status needs_review when the gateway's answer is
    JSON: a patch can only put a JSON value in its place, which the date
    rule rejects again. *)
Theorem text_date_never_repaired (th : ProcessingThresholds.t)
  (call : Invoice.t -> RuleReport.t -> result (result pyval)) (invoice : Invoice.t) :
  (forall i r loaded, call i r = Ok (Ok loaded) -> json loaded = true) ->
  PyVal.is_date (FieldValue.value (Invoice.invoice_date invoice)) = false ->
  ProcessingResult.status
    (decide_and_finish th (fun i r => LLMFallback.propose_patch (call i r)) invoice
       (RulesEngine.validate_invoice_rules invoice))
  = "needs_review".
Proof.
  intros Hcall H.
  apply (never_passing
           (fun i => PyVal.is_date (FieldValue.value (Invoice.invoice_date i)) = false)).
  - exact not_date_fails.
  - exact H.
  - intros patches Hp.
    assert (Hall : Forall (fun p => json (JsonPatch.value p) = true) patches).
    { destruct (call invoice (RulesEngine.validate_invoice_rules invoice)) as [[loaded|e]|e] eqn:E.
      - apply (json_patches loaded); [exact (Hcall _ _ _ E) | exact Hp].
      - cbn in Hp. injection Hp as <-. constructor.
      - discriminate Hp. }
    rewrite Forall_forall in Hall.
    apply (apply_patch_invariant
             (fun i i' => PyVal.is_date (FieldValue.value (Invoice.invoice_date i)) = false ->
                          PyVal.is_date (FieldValue.value (Invoice.invoice_date i')) = false));
      auto.
    intros i i' patch Hin. apply replace_patch_date, json_not_date, Hall, Hin.
Qed.

End Patches.

(** X10 ([_apply_patch_to_invoice], [_apply_replace_patch]): patches write
    at most five values, those of the invoice number, the invoice date, the
    grand total, the subtotal and the tax amount.  Everything else, the
    currency, the vendor, the line items, confidences and evidence included,
    is as before, whatever the patches are. *)
Theorem patches_write_five_values (llm_patch : list JsonPatch.t) (invoice : Invoice.t) :
  blank_patchable (ProcessingPipeline._apply_patch_to_invoice invoice llm_patch)
  = blank_patchable invoice.
Proof. exact (patches_frame llm_patch invoice). Qed.

Lemma unknown_currency_needs_review_witness :
  RulesEngine.known_currency
    (FieldValue.value (Amounts.currency (Invoice.amounts Cases.francs))) = false
  /\ ProcessingResult.status
       (ProcessingPipeline.decide_and_finish ProcessingThresholds.default
          (fun _ _ => Some [Sample.round_total]) Cases.francs
          (RulesEngine.validate_invoice_rules Cases.francs))
     = "needs_review".
Proof.
  split; [reflexivity|].
  apply (unknown_currency_needs_review ProcessingThresholds.default
           (fun _ _ => Some [Sample.round_total]) Cases.francs).
  reflexivity.
Defined.

Lemma text_date_never_repaired_witness :
  (forall i r loaded, Cases.date_patch i r = Ok (Ok loaded) -> json loaded = true)
  /\ PyVal.is_date (FieldValue.value (Invoice.invoice_date Cases.date_as_text)) = false
  /\ ProcessingResult.status
       (ProcessingPipeline.decide_and_finish ProcessingThresholds.default
          (fun i r => LLMFallback.propose_patch (Cases.date_patch i r)) Cases.date_as_text
          (RulesEngine.validate_invoice_rules Cases.date_as_text))
     = "needs_review".
Proof.
  assert (H : forall (i : Invoice.t) (r : RuleReport.t) loaded,
             Cases.date_patch i r = Ok (Ok loaded) -> json loaded = true).
  { intros i r loaded E. injection E as <-. reflexivity. }
  split; [exact H|]. split; [reflexivity|].
  exact (text_date_never_repaired ProcessingThresholds.default Cases.date_patch
           Cases.date_as_text H eq_refl).
Defined.

(** ** The order of floats *)





(** ** Sorting *)

Section SortedLists.

Context {A : Type} (lt : A -> A -> bool).



Hypothesis lt_asym : forall a b, lt a b = true -> lt b a = false.
Hypothesis lt_trans : forall a b c, lt a b = true -> lt b c = true -> lt a c = true.




End SortedLists.

Section NearToken.

Import DeterministicExtractor.



End NearToken.

(** ** The classifier *)

Section Classifier.

Import CategoryClassifier.

Variable search : string -> string -> bool.
Variable description : string.

Lemma try_category_two (st : string * float) (category p1 p2 : string) :
  snd st = 0.0%float \/ snd st = 0.5%float \/ snd st = 1.0%float ->
  try_category search description st (category, [p1; p2])
  = if PrimFloat.eqb (snd st) 1 then st
    else if search p1 description && search p2 description then (category, 1.0%float)
    else if PrimFloat.eqb (snd st) 0 && (search p1 description || search p2 description)
         then (category, 0.5%float)
    else st.
Proof.
  destruct st as [c s]. cbn [snd]. unfold try_category, count_matches. cbn [fold_left].
  intros [->|[->| ->]]; destruct (search p1 description), (search p2 description);
    reflexivity.
Qed.

Lemma scan_two (table : list (string * list string)) :
  Forall (fun entry => exists p1 p2, snd entry = [p1; p2]) table ->
  forall st, snd st = 0.0%float \/ snd st = 0.5%float \/ snd st = 1.0%float ->
  fold_left (try_category search description) table st
  = if PrimFloat.eqb (snd st) 1 then st else best_of search description table st.
Proof.
  induction 1 as [|[category pats] table (p1 & p2 & Hp) _ IH]; intros st Hst; cbn [fold_left].
  - unfold best_of. cbn [find]. destruct (PrimFloat.eqb (snd st) 1), (PrimFloat.eqb (snd st) 0);
      reflexivity.
  - cbn [snd] in Hp. subst pats. rewrite (try_category_two st category p1 p2 Hst).
    rewrite IH.
    2: { destruct st as [c s]. cbn [snd] in *.
         destruct Hst as [->|[->| ->]];
           destruct (search p1 description), (search p2 description); vm_compute; auto. }
    assert (Ha : (all_match search description) (category, [p1; p2])
                 = search p1 description && search p2 description).
    { unfold all_match. cbn [snd forallb]. rewrite andb_true_r. reflexivity. }
    assert (Hs : (some_match search description) (category, [p1; p2])
                 = search p1 description || search p2 description).
    { unfold some_match. cbn [snd existsb]. rewrite orb_false_r. reflexivity. }
    unfold best_of. cbn [find]. rewrite Ha, Hs.
    destruct st as [c s]. cbn [snd] in *.
    destruct Hst as [->|[->| ->]];
      destruct (search p1 description), (search p2 description);
      destruct (find (all_match search description) table), (find (some_match search description) table); reflexivity.
Qed.

Lemma patterns_two : Forall (fun entry => exists p1 p2, snd entry = [p1; p2]) patterns.
Proof. repeat (constructor; [eexists; eexists; reflexivity|]). constructor. Qed.

End Classifier.

Section Prediction.

Import CategoryClassifier.

Lemma predict_category_spec (ml : option (string -> option string -> string * float))
  (search : string -> string -> bool) (description : string) (vendor_name : option string) :
  predict_category ml search description vendor_name
  = if String.eqb description "" then ("other", 0.0%float)
    else
      let d := PyStr.strip (PyStr.lower description) in
      match find (all_match search d) patterns with
      | Some entry => (fst entry, 1.0%float)
      | None =>
          match model_answer ml d vendor_name with
          | Some answer => answer
          | None =>
              match find (some_match search d) patterns with
              | Some entry => (fst entry, 0.5%float)
              | None => ("other", 0.1%float)
              end
          end
      end.
Proof.
  unfold predict_category. destruct (String.eqb description ""); [reflexivity|].
  cbv zeta. unfold _predict_with_patterns.
  rewrite (scan_two search _ patterns (patterns_two) ("other", 0.0%float)) by (cbn [snd]; auto).
  cbn [snd]. change (PrimFloat.eqb 0 1) with false. cbv iota.
  unfold best_of. cbn [snd]. change (PrimFloat.eqb 0 0) with true. cbv iota.
  destruct (find (all_match search _) patterns) as [e|]; [reflexivity|].
  destruct (find (some_match search _) patterns) as [e|]; cbn [snd];
    unfold model_answer; destruct ml as [f|]; try reflexivity;
    destruct (PyFloat.gt (snd (f _ vendor_name)) 0.6); reflexivity.
Qed.

End Prediction.

(** X14 ([predict_category], [_predict_with_patterns]): what the classifier
    answers.  For an empty description, other with confidence 0.  Otherwise
    the first category both of whose patterns match the lowered and stripped
    description, with confidence 1; failing that the answer of the trained
    model when it is more than 0.6 sure; failing that the first category one
    of whose patterns matches, with confidence 0.5; and else other with
    confidence 0.1. *)
Theorem predict_category_cases (ml : option (string -> option string -> string * float))
  (search : string -> string -> bool) (description : string) (vendor_name : option string) :
  CategoryClassifier.predict_category ml search description vendor_name
  = if String.eqb description "" then ("other", 0.0%float)
    else
      let d := PyStr.strip (PyStr.lower description) in
      match find (all_match search d) CategoryClassifier.patterns with
      | Some entry => (fst entry, 1.0%float)
      | None =>
          match model_answer ml d vendor_name with
          | Some answer => answer
          | None =>
              match find (some_match search d) CategoryClassifier.patterns with
              | Some entry => (fst entry, 0.5%float)
              | None => ("other", 0.1%float)
              end
          end
      end.
Proof. exact (predict_category_spec ml search description vendor_name). Qed.

Section CategoryCheck.

Import DeterministicExtractor Spec.

Lemma existsb_find {A : Type} (f : A -> bool) (l : list A) :
  existsb f l = match find f l with Some _ => true | None => false end.
Proof.
  induction l as [|x l IH]; [reflexivity|]. cbn [existsb find].
  destruct (f x); [reflexivity | exact IH].
Qed.

Lemma untrained_confidence (search : string -> string -> bool) (s : string)
  (vendor_name : option string) :
  s <> "" ->
  let c := snd (CategoryClassifier.predict_category None search s vendor_name) in
  negb (PyFloat.is_true c && PyFloat.lt c 0.75) = certain search s.
Proof.
  intros Hs. cbv zeta. rewrite predict_category_spec.
  destruct (String.eqb_spec s ""); [contradiction|].
  cbv zeta. unfold certain. rewrite existsb_find.
  destruct (find (all_match search _) CategoryClassifier.patterns); [reflexivity|].
  cbn [model_answer].
  destruct (find (some_match search _) CategoryClassifier.patterns); reflexivity.
Qed.

(** X15 ([_check_category_confidence] after [_classify_line_items], with
    [predict_category] untrained and the default threshold 0.75): the
    category check of an invoice whose lines have a text description passes
    exactly when, for every line, both patterns of some category match the
    description. *)
Theorem untrained_category_check (search : string -> string -> bool)
  (predict : pyval -> pyval -> string * float) (invoice : Invoice.t) :
  (forall s v, predict (VStr s) v
               = CategoryClassifier.predict_category None search s (vendor_text v)) ->
  Forall (fun item => exists s, FieldValue.value (LineItem.description item) = VStr s
                                /\ s <> "") (Invoice.line_items invoice) ->
  ProcessingPipeline._check_category_confidence ProcessingThresholds.default
    (ProcessingPipeline._classify_line_items predict invoice)
  = forallb (fun item => certain search (description_text item)) (Invoice.line_items invoice).
Proof.
  intros Hp. unfold ProcessingPipeline._check_category_confidence,
    ProcessingPipeline._classify_line_items.
  cbn [Invoice.set_line_items Invoice.line_items].
  induction 1 as [|item items [s [Hv Hs]] _ IH]; [reflexivity|].
  cbn [map forallb]. rewrite IH. f_equal.
  unfold description_text. rewrite Hv.
  assert (Ht : PyVal.truthy (VStr s) = true).
  { destruct s; [contradiction | reflexivity]. }
  rewrite Ht, Hp.
  pose proof (untrained_confidence search s
                (vendor_text (let v := FieldValue.value (Vendor.name (Invoice.vendor invoice)) in
                              if PyVal.truthy v then v else VNone)) Hs) as Hc.
  cbv zeta in Hc.
  destruct (CategoryClassifier.predict_category None search s _) as [category confidence].
  cbn [LineItem.category_confidence snd] in *. exact Hc.
Qed.

End CategoryCheck.

Lemma untrained_category_check_witness :
  (forall s v, Cases.predict (VStr s) v
               = CategoryClassifier.predict_category None Cases.search s (vendor_text v))
  /\ Forall (fun item => exists s, FieldValue.value (LineItem.description item) = VStr s
                                   /\ s <> "") (Invoice.line_items Cases.with_line)
  /\ ProcessingPipeline._check_category_confidence ProcessingThresholds.default
       (ProcessingPipeline._classify_line_items Cases.predict Cases.with_line)
     = true.
Proof.
  assert (H1 : forall s v, Cases.predict (VStr s) v
                           = CategoryClassifier.predict_category None Cases.search s
                               (vendor_text v)).
  { intros s v. reflexivity. }
  assert (H2 : Forall (fun item => exists s,
                         FieldValue.value (LineItem.description item) = VStr s /\ s <> "")
                 (Invoice.line_items Cases.with_line)).
  { constructor; [|constructor]. eexists. split; [reflexivity | discriminate]. }
  split; [exact H1|]. split; [exact H2|].
  rewrite (untrained_category_check Cases.search Cases.predict Cases.with_line H1 H2).
  reflexivity.
Defined.

(** ** The export *)

Section ExportRows.

Import DeterministicExtractor Spec.

Lemma optional_row_in (invoice : Invoice.t) (name : string) (o : option FieldValue.t)
  (row : ExportRow.t) :
  In row (AccountingExporter.optional_row invoice name o) ->
  exists f, o = Some f /\ row = AccountingExporter.field_row invoice name f.
Proof.
  destruct o as [f|]; cbn [AccountingExporter.optional_row In]; [|contradiction].
  intros [<-|[]]. now exists f.
Qed.

Lemma line_item_rows_in (invoice : Invoice.t) (i : nat) (item : LineItem.t)
  (row : ExportRow.t) :
  In row (AccountingExporter.line_item_rows invoice i item) ->
  (exists name f, In f (line_item_fields item)
                  /\ row = AccountingExporter.field_row invoice name f)
  \/ (exists category, LineItem.category item = Some category
        /\ ExportRow.field_value row = VStr category
        /\ ExportRow.extraction_method row = "ml_classification"
        /\ ExportRow.evidence_page row = None
        /\ ExportRow.evidence_bbox row = None
        /\ ExportRow.human_reviewed row = Invoice.human_reviewed invoice).
Proof.
  unfold AccountingExporter.line_item_rows, line_item_fields.
  rewrite !in_app_iff. cbn [In].
  intros [[<-|[]]|[H|[H|[H|H]]]].
  - left. eexists _, _. split; [|reflexivity]. now left.
  - apply optional_row_in in H. destruct H as [f [E ->]]. left. eexists _, f.
    split; [|reflexivity]. right. rewrite E, !in_app_iff. cbn [optional In]. tauto.
  - apply optional_row_in in H. destruct H as [f [E ->]]. left. eexists _, f.
    split; [|reflexivity]. right. rewrite E, !in_app_iff. cbn [optional In]. tauto.
  - apply optional_row_in in H. destruct H as [f [E ->]]. left. eexists _, f.
    split; [|reflexivity]. right. rewrite E, !in_app_iff. cbn [optional In]. tauto.
  - right. destruct (LineItem.category item) as [category|]; [|contradiction].
    destruct (String.eqb category ""); [contradiction|].
    destruct H as [<-|[]]. exists category. cbn. repeat split; reflexivity.
Qed.

Lemma enumerate_from_in {A : Type} (l : list A) (i n : nat) (x : A) :
  In (n, x) (AccountingExporter.enumerate_from i l) -> In x l.
Proof.
  revert i. induction l as [|y l IH]; intros i; cbn [AccountingExporter.enumerate_from In];
    [tauto|].
  intros [E|H]; [injection E as _ <-; now left | right; eauto].
Qed.

(** Every row of the export carries a field of the invoice or the category
    of one of its line items. *)
Lemma export_rows_in (invoice : Invoice.t) (row : ExportRow.t) :
  In row (AccountingExporter._extract_all_fields invoice) ->
  field_row_of invoice row \/ category_row_of invoice row.
Proof.
  unfold AccountingExporter._extract_all_fields. cbv zeta.
  rewrite !in_app_iff. cbn [In].
  assert (Hopt : forall name o,
             (forall f, o = Some f -> In f (invoice_fields invoice)) ->
             In row (AccountingExporter.optional_row invoice name o) ->
             field_row_of invoice row).
  { intros name o Ho H. apply optional_row_in in H. destruct H as [f [E ->]].
    exists name, f. split; [now apply Ho | reflexivity]. }
  assert (Hreq : forall name f, In f (invoice_fields invoice) ->
             field_row_of invoice (AccountingExporter.field_row invoice name f)).
  { intros name f H. now exists name, f. }
  assert (Hin : forall f,
             In f (invoice_fields invoice)
             <-> Invoice.invoice_number invoice = f \/ Invoice.invoice_date invoice = f
                 \/ Invoice.due_date invoice = Some f
                 \/ Vendor.name (Invoice.vendor invoice) = f
                 \/ Vendor.address (Invoice.vendor invoice) = Some f
                 \/ Vendor.tax_id (Invoice.vendor invoice) = Some f
                 \/ Vendor.phone (Invoice.vendor invoice) = Some f
                 \/ Vendor.email (Invoice.vendor invoice) = Some f
                 \/ Amounts.subtotal (Invoice.amounts invoice) = Some f
                 \/ Amounts.tax_amount (Invoice.amounts invoice) = Some f
                 \/ Amounts.tax_rate (Invoice.amounts invoice) = Some f
                 \/ Amounts.discount (Invoice.amounts invoice) = Some f
                 \/ Amounts.shipping (Invoice.amounts invoice) = Some f
                 \/ Amounts.grand_total (Invoice.amounts invoice) = f
                 \/ Amounts.currency (Invoice.amounts invoice) = f
                 \/ In f (flat_map line_item_fields (Invoice.line_items invoice))
                 \/ Invoice.notes invoice = Some f
                 \/ Invoice.payment_terms invoice = Some f
                 \/ Invoice.po_number invoice = Some f).
  { intros f. unfold invoice_fields. cbv zeta. cbn [In]. rewrite !in_app_iff. cbn [In].
    rewrite !in_app_iff.
    assert (Ho : forall o, In f (optional o) <-> o = Some f).
    { intros [g|]; cbn [optional In]; split; try tauto; try discriminate.
      - intros [->|[]]. reflexivity.
      - intros E. injection E as ->. now left. }
    repeat (cbn [In]; rewrite ?in_app_iff). rewrite !Ho. tauto. }
  intros [[<-|[<-|[]]]|[H|[[<-|[]]|[H|[H|[[<-|[<-|[]]]|[H|[H|[H|[H|[H|[H|[H|[H|H]]]]]]]]]]]]]];
    try (left; apply Hreq; apply Hin; tauto);
    try (left; revert H; apply Hopt; intros f E; apply Hin; tauto).
  apply in_flat_map in H. destruct H as [[i item] [Hi H]].
  apply enumerate_from_in in Hi. apply line_item_rows_in in H.
  destruct H as [[name [f [Hf ->]]]|[category H]].
  - left. apply Hreq, Hin. do 15 right. left. apply in_flat_map. now exists item.
  - right. now exists item, category.
Qed.

(** X16 ([_extract_all_fields] after [extract_invoice] and
    [_classify_line_items]): the rows exported for an extracted and
    classified invoice.  None is marked as reviewed by a human; a row is
    either a category row, with method ml_classification and no evidence, or
    a deterministic row whose confidence is in [0,1] and at most 0.5 when it
    has no evidence page. *)
Theorem exported_rows_of_extracted (history : list call) (now : Z) (tokens : list Token.t)
  (filename processing_id : string) (predict : pyval -> pyval -> string * float)
  (invoice : Invoice.t) :
  fst (extract_invoice (cache_after history) now tokens filename processing_id) = Ok invoice ->
  Forall extracted_row
    (AccountingExporter._extract_all_fields
       (ProcessingPipeline._classify_line_items predict invoice)).
Proof.
  intros H.
  pose proof (extract_invoice_ok _ _ _ _ _ _ (cache_after_clean history) H) as Hok.
  apply extract_invoice_parts in H.
  destruct H as (_ & _ & _ & _ & _ & _ & _ & _ & _ & _ & _ & _ & _ & _ & _ & _ & Hm & _ & Hr).
  rewrite <- (classify_keeps_fields predict) in Hok.
  set (classified := ProcessingPipeline._classify_line_items predict invoice) in *.
  assert (Hm' : Invoice.extraction_method classified = "deterministic") by exact Hm.
  assert (Hr' : Invoice.human_reviewed classified = false) by exact Hr.
  rewrite Forall_forall in *. intros row Hrow.
  apply export_rows_in in Hrow. destruct Hrow as [[name [f [Hf ->]]]|Hc].
  - destruct (Hok f Hf) as [[H0 H1] Hu]. split; [exact Hr'|]. left.
    cbn [AccountingExporter.field_row ExportRow.extraction_method ExportRow.confidence
         ExportRow.evidence_page]. repeat split; auto.
    intros He. apply Hu. destruct (FieldValue.evidence f); [reflexivity | discriminate].
  - destruct Hc as [item [category [Hi [Hcat [_ [Hmeth [Hp [Hb Hh]]]]]]]].
    split; [congruence | right; auto].
Qed.

End ExportRows.

Lemma exported_rows_of_extracted_witness :
  exists invoice,
    fst (DeterministicExtractor.extract_invoice (Spec.cache_after []) 0
           Sample.tokens_with_line "invoice.pdf" "job") = Ok invoice
    /\ Forall extracted_row
         (AccountingExporter._extract_all_fields
            (ProcessingPipeline._classify_line_items Cases.predict invoice)).
Proof.
  eexists. split; [vm_compute; reflexivity|].
  apply (exported_rows_of_extracted [] 0 Sample.tokens_with_line "invoice.pdf" "job"
           Cases.predict).
  vm_compute. reflexivity.
Defined.

(** ** The jobs *)

Section JobTable.

Import Jobs.

Lemma get_set_same (jobs : active_jobs) (job_id : string) (j : job_record) :
  get (set jobs job_id j) job_id = Some j.
Proof.
  induction jobs as [|[k j'] tl IH]; cbn [set get].
  - now rewrite String.eqb_refl.
  - destruct (String.eqb k job_id) eqn:E; cbn [get]; rewrite E; [reflexivity | exact IH].
Qed.

Lemma get_set_other (jobs : active_jobs) (job_id other : string) (j : job_record) :
  other <> job_id -> get (set jobs job_id j) other = get jobs other.
Proof.
  intros Hne. induction jobs as [|[k j'] tl IH]; cbn [set get].
  - destruct (String.eqb_spec job_id other); [congruence | reflexivity].
  - destruct (String.eqb_spec k job_id) as [->|Hk]; cbn [get].
    + destruct (String.eqb_spec job_id other); [congruence | reflexivity].
    + now rewrite IH.
Qed.

Variable clock : nat -> Z.
Variable strftime : Z -> string.
Variable extract_tokens : string -> string -> result (list Token.t).
Variable predict : pyval -> pyval -> string * float.
Variable llm : Invoice.t -> RuleReport.t -> list Token.t -> option (list JsonPatch.t).
Variable th : ProcessingThresholds.t.

(** The [try] block raises during the OCR stage: the job has the entry of
    that stage and nothing else is changed. *)
Lemma stages_raise (job_id file_buffer filename : string) (w : world) (j : job_record) :
  get (jobs w) job_id = Some j ->
  exists reads,
    stages clock strftime extract_tokens predict llm th job_id file_buffer filename w
    = (Raise (first_error extract_tokens file_buffer filename),
       mk_world
         (set (jobs w) job_id
            (add_stage (mk_stage "ocr" "Extracting text from document..."
                          (clock (clock_reads w))) j))
         (cache w) reads).
Proof.
  intros Hj. unfold stages, first_error, bindM at 1, _update_job_status. rewrite Hj.
  unfold bindM at 1, now, update_job. cbn [jobs cache clock_reads]. rewrite Hj.
  unfold bindM at 1, lift.
  destruct (extract_tokens file_buffer filename) as [[|t tl]|e].
  - eexists. reflexivity.
  - eexists. unfold bindM at 1, await_log, bindM at 1, log_processing_stage, bindM at 1.
    cbn. reflexivity.
  - eexists. reflexivity.
Qed.

Lemma job_fails (job_id file_buffer filename : string) (w : world) (j : job_record) :
  get (jobs w) job_id = Some j ->
  let run := _process_invoice_async clock strftime extract_tokens predict llm th
               job_id file_buffer filename w in
  fst run = Raise TypeError
  /\ get (jobs (snd run)) job_id
     = Some (mk_job "failed" (started_at j) (Jobs.filename j)
               (stages_completed j
                ++ [mk_stage "ocr" "Extracting text from document..." (clock (clock_reads w))])
               "ocr" (result_ j) (Some (exn_name (first_error extract_tokens file_buffer filename))))
  /\ (forall other, other <> job_id -> get (jobs (snd run)) other = get (jobs w) other)
  /\ cache (snd run) = cache w.
Proof.
  intros Hj. cbv zeta. unfold _process_invoice_async, try_catch.
  destruct (stages_raise job_id file_buffer filename w j Hj) as [reads ->].
  unfold on_exception, bindM, update_job, processing_time, bindM, now, job_started_at,
    await_log, bindM, log_processing_stage, bindM, now, ret, await_value, raise.
  cbn [jobs cache clock_reads].
  repeat (rewrite get_set_same; cbn [jobs cache clock_reads fst snd]).
  split; [reflexivity|]. split; [|split; [|reflexivity]].
  - reflexivity.
  - intros other Hne. now rewrite !get_set_other.
Qed.

End JobTable.

(** X17 ([_process_invoice_async], [_update_job_status], the module
    function [log_processing_stage]): the coroutine of a registered job
    always ends by raising [TypeError] out of its handler, with the job
    failed in the OCR stage: the status is failed, the error is that of the
    OCR, of its empty answer or else of the first await on the audit log,
    which returns [None]; one stage entry was added, the result is as it was,
    and the other jobs and the vendor cache are untouched. *)
Theorem job_ends_failed (clock : nat -> Z) (strftime : Z -> string)
  (extract_tokens : string -> string -> result (list Token.t))
  (predict : pyval -> pyval -> string * float)
  (llm : Invoice.t -> RuleReport.t -> list Token.t -> option (list JsonPatch.t))
  (th : ProcessingThresholds.t) (job_id file_buffer filename : string) (w : Jobs.world)
  (j : Jobs.job_record) :
  Jobs.get (Jobs.jobs w) job_id = Some j ->
  let run := Jobs._process_invoice_async clock strftime extract_tokens predict llm th
               job_id file_buffer filename w in
  fst run = Raise TypeError
  /\ Jobs.get (Jobs.jobs (snd run)) job_id
     = Some (Jobs.mk_job "failed" (Jobs.started_at j) (Jobs.filename j)
               (Jobs.stages_completed j
                ++ [Jobs.mk_stage "ocr" "Extracting text from document..."
                      (clock (Jobs.clock_reads w))])
               "ocr" (Jobs.result_ j)
               (Some (exn_name (first_error extract_tokens file_buffer filename))))
  /\ (forall other, other <> job_id ->
      Jobs.get (Jobs.jobs (snd run)) other = Jobs.get (Jobs.jobs w) other)
  /\ Jobs.cache (snd run) = Jobs.cache w.
Proof.
  exact (job_fails clock strftime extract_tokens predict llm th job_id file_buffer filename
           w j).
Qed.

Lemma job_ends_failed_witness :
  Jobs.get (Jobs.jobs Cases.started) "job-1"
  = Some (Jobs.mk_job "processing" 0 "invoice.pdf" [] "ocr" None None)
  /\ Jobs.get_job_status
       (Jobs.jobs
          (snd (Jobs._process_invoice_async Cases.clock Cases.strftime Cases.extract_tokens
                  Cases.predict Cases.llm ProcessingThresholds.default
                  "job-1" "%PDF" "invoice.pdf" Cases.started)))
       "job-1"
     = Some (Jobs.mk_job "failed" 0 "invoice.pdf"
               [Jobs.mk_stage "ocr" "Extracting text from document..." 1] "ocr" None
               (Some "TypeError")).
Proof.
  split; [reflexivity|].
  exact (proj1 (proj2 (job_ends_failed Cases.clock Cases.strftime Cases.extract_tokens
                         Cases.predict Cases.llm ProcessingThresholds.default
                         "job-1" "%PDF" "invoice.pdf" Cases.started _ eq_refl))).
Defined.

(** ** The endpoints *)

Section Api.

Import PipelineAPI.

Variable clock : nat -> Z.
Variable str_http : Z -> string -> string.

Lemma ingest_outcome (read : result string) (job_id filename : string) (w : Jobs.world) :
  let call := ingest_invoice clock str_http read job_id filename w in
  match fst call with
  | Returns reply =>
      existsb (String.eqb (file_ext filename)) allowed_types = true
      /\ (exists file_content, read = Ok file_content)
      /\ reply = mk_ingest job_id "processing" ("Processing started for " ++ filename)
      /\ Jobs.get (Jobs.jobs (snd call)) job_id
         = Some (Jobs.mk_job "processing" (clock (Jobs.clock_reads w)) filename [] "ocr"
                   None None)
      /\ (forall other, other <> job_id ->
          Jobs.get (Jobs.jobs (snd call)) other = Jobs.get (Jobs.jobs w) other)
  | HTTPException status_code detail => status_code = 500 /\ snd call = w
  end.
Proof.
  cbv zeta. unfold ingest_invoice.
  destruct (existsb (String.eqb (file_ext filename)) allowed_types);
    cbn [negb fst snd]; [|split; reflexivity].
  destruct read as [file_content|e]; cbn [fst snd]; [|split; reflexivity].
  unfold Jobs.process_invoice, Jobs.bindM, Jobs.now. cbn [fst snd Jobs.jobs Jobs.clock_reads].
  split; [reflexivity|]. split; [now exists file_content|]. split; [reflexivity|].
  split; [apply get_set_same | intros other Hne; now apply get_set_other].
Qed.

Variable strftime : Z -> string.
Variable extract_tokens : string -> string -> result (list Token.t).
Variable predict : pyval -> pyval -> string * float.
Variable llm : Invoice.t -> RuleReport.t -> list Token.t -> option (list JsonPatch.t).
Variable th : ProcessingThresholds.t.

(** X19 ([ingest_invoice], [process_invoice], [_process_invoice_async],
    [get_result], [get_job_result]): a file that was accepted for
    processing, once its job has run, is reported by the result endpoint as
    failed in the OCR stage, with the error and without any result. *)
Theorem ingested_job_fails (file_content job_id filename : string) (w : Jobs.world)
  (reply : ingest_reply) :
  let call := ingest_invoice clock str_http (Ok file_content) job_id filename w in
  let run := Jobs._process_invoice_async clock strftime extract_tokens predict llm th
               job_id file_content filename (snd call) in
  fst call = Returns reply ->
  get_result (Jobs.jobs (snd run)) (ingest_job_id reply)
  = Returns (mk_status job_id "failed" "ocr" (clock (Jobs.clock_reads w)) filename
               [Jobs.mk_stage "ocr" "Extracting text from document..."
                  (clock (S (Jobs.clock_reads w)))]
               (Some (exn_name (first_error extract_tokens file_content filename))),
             None).
Proof.
  cbv zeta. intros Hcall.
  pose proof (ingest_outcome (Ok file_content) job_id filename w) as H. cbv zeta in H.
  rewrite Hcall in H. destruct H as (_ & _ & -> & Hj & _).
  cbn [ingest_job_id].
  pose proof (job_fails clock strftime extract_tokens predict llm th job_id file_content
                filename _ _ Hj) as Hrun.
  cbv zeta in Hrun. destruct Hrun as (_ & Hget & _).
  unfold get_result, Jobs.get_job_status, Jobs.get_job_result. rewrite Hget.
  cbn [Jobs.status Jobs.started_at Jobs.filename Jobs.stages_completed Jobs.result_ Jobs.error
       Jobs.current_stage status_of app].
  replace (Jobs.clock_reads (snd (ingest_invoice clock str_http (Ok file_content) job_id
                                    filename w)))
    with (S (Jobs.clock_reads w)); [reflexivity|].
  revert Hcall. unfold ingest_invoice.
  destruct (existsb (String.eqb (file_ext filename)) allowed_types);
    cbn [negb fst snd]; [reflexivity | discriminate].
Qed.

End Api.

(** X18 ([ingest_invoice], [process_invoice]): the endpoint either registers
    the job as processing in the OCR stage and answers with its id, leaving
    the other jobs alone, which takes an allowed file type and a readable
    file; or it raises an [HTTPException] with status 500 and changes
    nothing.  It never raises status 400: the refusal of a file type is
    caught by its own handler and raised again as 500. *)
Theorem ingest_answers_or_500 (clock : nat -> Z) (str_http : Z -> string -> string)
  (read : result string) (job_id filename : string) (w : Jobs.world) :
  let call := PipelineAPI.ingest_invoice clock str_http read job_id filename w in
  match fst call with
  | PipelineAPI.Returns reply =>
      existsb (String.eqb (PipelineAPI.file_ext filename)) PipelineAPI.allowed_types = true
      /\ (exists file_content, read = Ok file_content)
      /\ reply = PipelineAPI.mk_ingest job_id "processing"
                   ("Processing started for " ++ filename)
      /\ Jobs.get (Jobs.jobs (snd call)) job_id
         = Some (Jobs.mk_job "processing" (clock (Jobs.clock_reads w)) filename [] "ocr"
                   None None)
      /\ (forall other, other <> job_id ->
          Jobs.get (Jobs.jobs (snd call)) other = Jobs.get (Jobs.jobs w) other)
  | PipelineAPI.HTTPException status_code detail => status_code = 500 /\ snd call = w
  end.
Proof. exact (ingest_outcome clock str_http read job_id filename w). Qed.

Lemma ingested_job_fails_witness :
  exists reply r,
    fst (PipelineAPI.ingest_invoice Cases.clock Cases.str_http (Ok "%PDF") "job-2"
           "invoice.pdf" Cases.started) = PipelineAPI.Returns reply
    /\ PipelineAPI.get_result
         (Jobs.jobs
            (snd (Jobs._process_invoice_async Cases.clock Cases.strftime
                    Cases.extract_tokens Cases.predict Cases.llm ProcessingThresholds.default
                    "job-2" "%PDF" "invoice.pdf"
                    (snd (PipelineAPI.ingest_invoice Cases.clock Cases.str_http (Ok "%PDF")
                            "job-2" "invoice.pdf" Cases.started)))))
         (PipelineAPI.ingest_job_id reply)
       = PipelineAPI.Returns (r, None)
    /\ PipelineAPI.reply_status r = "failed".
Proof.
  eexists. eexists. split; [vm_compute; reflexivity|]. split.
  - apply (ingested_job_fails Cases.clock Cases.str_http Cases.strftime Cases.extract_tokens
             Cases.predict Cases.llm ProcessingThresholds.default "%PDF" "job-2"
             "invoice.pdf" Cases.started).
    vm_compute. reflexivity.
  - reflexivity.
Defined.
